(** * sebs.code_package: build caching and packaging of code packages

    A shallow embedding of [sebs/code_package.py].  The Python code works on
    the host file system, a docker daemon, the SeBS cache and a logger; here
    these are an explicit state that every method threads, and a raised
    exception is a result that keeps the state reached so far. *)

From Stdlib Require Import ZArith Ascii String List Bool Lia.
From stdpp Require Import base option list strings pretty gmap.
Import ListNotations.
Set Warnings "-register-all".
Local Open Scope string_scope.
Local Open Scope list_scope.

(** ** Bytes and text *)

Abbreviation bytes := (list Byte.byte).

(** [str.encode()] of a text that the model keeps as its byte string. *)
Definition str_encode (s : string) : bytes := list_byte_of_string s.

(** The text of one line feed. *)
Definition newline : string := String (ascii_of_nat 10) EmptyString.

Module Utf8.

Definition in_range (lo hi : N) (b : Byte.byte) : bool :=
  let n := Byte.to_N b in (N.leb lo n && N.leb n hi)%bool.

Definition cont : Byte.byte -> bool := in_range 128 191.

(** The strict decoder of [bytes.decode("utf-8")]: shortest forms only,
    no surrogates, nothing above U+10FFFF. *)
Fixpoint valid (bs : bytes) : bool :=
  match bs with
  | [] => true
  | b0 :: r0 =>
      if in_range 0 127 b0 then valid r0
      else match r0 with
      | [] => false
      | b1 :: r1 =>
          if in_range 194 223 b0 then cont b1 && valid r1
          else match r1 with
          | [] => false
          | b2 :: r2 =>
              if in_range 224 224 b0 then in_range 160 191 b1 && cont b2 && valid r2
              else if in_range 225 236 b0 then cont b1 && cont b2 && valid r2
              else if in_range 237 237 b0 then in_range 128 159 b1 && cont b2 && valid r2
              else if in_range 238 239 b0 then cont b1 && cont b2 && valid r2
              else match r2 with
              | [] => false
              | b3 :: r3 =>
                  if in_range 240 240 b0
                  then in_range 144 191 b1 && cont b2 && cont b3 && valid r3
                  else if in_range 241 243 b0
                  then cont b1 && cont b2 && cont b3 && valid r3
                  else if in_range 244 244 b0
                  then in_range 128 143 b1 && cont b2 && cont b3 && valid r3
                  else false
              end
          end
      end
  end.

(** The decoded text is kept in its UTF-8 form. *)
Definition decode (bs : bytes) : option string :=
  if valid bs then Some (string_of_list_byte bs) else None.

End Utf8.

(** ** Text helpers of the [str] type *)

Module Str.

Fixpoint split (sep : ascii) (s : string) : list string :=
  match s with
  | EmptyString => [EmptyString]
  | String c s' =>
      if Ascii.eqb c sep then EmptyString :: split sep s'
      else match split sep s' with
           | [] => [String c EmptyString]
           | h :: t => String c h :: t
           end
  end.

Definition startswith (s p : string) : bool := String.prefix p s.

Fixpoint endswith_char (s : string) (c : ascii) : bool :=
  match s with
  | EmptyString => false
  | String a EmptyString => Ascii.eqb a c
  | String _ s' => endswith_char s' c
  end.

(** [p in s] *)
Fixpoint contains (p s : string) : bool :=
  if String.prefix p s then true
  else match s with
       | EmptyString => false
       | String _ s' => contains p s'
       end.

Definition eqb (a b : string) : bool := bool_decide (a = b).

End Str.

(** ** os.path (posixpath) *)

Module OsPath.

Definition sep : ascii := "/"%char.
Definition pardir : string := "..".

(** [os.path.join(a, b)] *)
Definition join (a b : string) : string :=
  if Str.startswith b "/" then b
  else if (Str.eqb a "" || Str.endswith_char a sep)%bool then a ++ b
  else a ++ "/" ++ b.

(** [os.path.join(a, *p)] *)
Definition join_all (a : string) (p : list string) : string :=
  fold_left join p a.

Definition isabs (p : string) : bool := Str.startswith p "/".

(** [os.path.basename]: what follows the last slash. *)
Definition basename (p : string) : string :=
  List.last (Str.split sep p) "".

Fixpoint rstrip (c : ascii) (s : string) : string :=
  match s with
  | EmptyString => EmptyString
  | String a s' =>
      match rstrip c s' with
      | EmptyString => if Ascii.eqb a c then EmptyString else String a EmptyString
      | r => String a r
      end
  end.

(** [os.path.split] *)
Definition split (p : string) : string * string :=
  let tail := basename p in
  let head := String.substring 0 (String.length p - String.length tail) p in
  let head' := match rstrip sep head with
               | EmptyString => head
               | h => h
               end in
  (head', tail).

Definition concat_sep (comps : list string) : string :=
  match comps with
  | [] => ""
  | c :: r => fold_left (fun acc x : string => (acc ++ "/" ++ x)%string) r c
  end.

(** The components of [os.path.normpath], collected in reverse. *)
Fixpoint norm_comps (rooted : bool) (acc comps : list string) : list string :=
  match comps with
  | [] => rev acc
  | c :: r =>
      if (Str.eqb c "" || Str.eqb c ".")%bool then norm_comps rooted acc r
      else if Str.eqb c ".." then
        match acc with
        | [] => if rooted then norm_comps rooted acc r
                else norm_comps rooted [c] r
        | a :: acc' =>
            if Str.eqb a ".." then norm_comps rooted (c :: acc) r
            else norm_comps rooted acc' r
        end
      else norm_comps rooted (c :: acc) r
  end.

(** [os.path.normpath] *)
Definition normpath (p : string) : string :=
  let slashes :=
    if Str.startswith p "/" then
      if (Str.startswith p "//" && negb (Str.startswith p "///"))%bool
      then "//" else "/"
    else "" in
  let body := concat_sep (norm_comps (isabs p) [] (Str.split sep p)) in
  match (slashes ++ body)%string with
  | EmptyString => "."
  | r => r
  end.

(** [os.path.abspath] for a process whose [os.getcwd()] is [cwd]. *)
Definition abspath (cwd : list string) (p : string) : string :=
  normpath (if isabs p then p else join ("/" ++ concat_sep cwd)%string p).

(** A plain name: one component that is neither empty nor a dot name. *)
Definition plain (n : string) : bool :=
  (bool_decide (Str.split sep n = [n])
   && negb (Str.eqb n "") && negb (Str.eqb n ".") && negb (Str.eqb n ".."))%bool.

End OsPath.

(** ** Exceptions and results *)

Inductive Exn : Type :=
  | FileNotFoundError (path : string)
  | FileExistsError (path : string)
  | IsADirectoryError (path : string)
  | NotADirectoryError (path : string)
  | SameFileError (path : string)
  | ShutilError (msg : string)
  | UnicodeDecodeError
  | JSONDecodeError
  | KeyError (key : string)
  | TypeError
  | AttributeError (name : string)
  | UnboundLocalError (name : string)
  | NotImplementedError
  | RuntimeError (msg : string)
  | TarError
  | ImageNotFound (image : string)
  | APIError (what : string)
  | ContainerError (image : string) (exit_status : Z) (stderr : bytes)
  | OSError (msg : string)
  | BadZipFile
  | CallbackError (msg : string).

Inductive Res (A : Type) : Type :=
  | Ok (a : A)
  | Raise (e : Exn).
Arguments Ok {A} a.
Arguments Raise {A} e.

Definition is_ok {A} (r : Res A) : bool :=
  match r with Ok _ => true | Raise _ => false end.

(** ** The host file system *)

Module Fs.

(** A resolved location: the names from the root down. *)
Abbreviation loc := (list string).

Inductive node : Type :=
  | File (data : bytes)
  | Dir.

(** The entries in the order in which a directory scan reports them. The
    root is a directory that is not listed. *)
Definition t : Type := list (loc * node).

Definition loc_eqb (a b : loc) : bool := bool_decide (a = b).

Fixpoint lookup (fs : t) (l : loc) : option node :=
  match fs with
  | [] => None
  | (k, n) :: fs' => if loc_eqb k l then Some n else lookup fs' l
  end.

Definition node_at (fs : t) (l : loc) : option node :=
  match l with
  | [] => Some Dir
  | _ => lookup fs l
  end.

Definition is_dir (fs : t) (l : loc) : bool :=
  match node_at fs l with Some Dir => true | _ => false end.

Definition is_file (fs : t) (l : loc) : bool :=
  match node_at fs l with Some (File _) => true | _ => false end.

Definition parent (l : loc) : loc := removelast l.

(** Is [l] strictly below [d]? *)
Definition below (d l : loc) : bool :=
  (bool_decide (d = take (length d) l) && (length d <? length l)%nat)%bool.

Definition delete (fs : t) (l : loc) : t :=
  List.filter (fun e => negb (loc_eqb (fst e) l)) fs.

Definition delete_tree (fs : t) (d : loc) : t :=
  List.filter (fun e => negb (loc_eqb (fst e) d || below d (fst e))) fs.

(** Store a node: in place when the location is listed, else as the last
    entry. *)
Fixpoint store (fs : t) (l : loc) (n : node) : t :=
  match fs with
  | [] => [(l, n)]
  | (k, m) :: fs' => if loc_eqb k l then (k, n) :: fs' else (k, m) :: store fs' l n
  end.

(** The names a scan of directory [d] reports. *)
Definition children (fs : t) (d : loc) : list string :=
  omap (fun e => if loc_eqb (parent (fst e)) d
                 then last (fst e) else None) fs.

(** The subtree under [d], each location relative to [d]. *)
Definition subtree (fs : t) (d : loc) : list (loc * node) :=
  omap (fun e => if below d (fst e)
                 then Some (drop (length d) (fst e), snd e) else None) fs.

(** Path resolution without symbolic links: every component that is walked
    through has to be a directory; the last one need not exist. *)
Fixpoint walk (fs : t) (cur : loc) (comps : list string) : option loc :=
  match comps with
  | [] => Some cur
  | c :: rest =>
      if is_dir fs cur then
        if (Str.eqb c "" || Str.eqb c ".")%bool then walk fs cur rest
        else if Str.eqb c ".." then walk fs (parent cur) rest
        else walk fs (cur ++ [c]) rest
      else None
  end.

(** The location a path names for a process whose working directory is
    [cwd]; [None] when a component on the way is not a directory. *)
Definition resolve (cwd : loc) (fs : t) (p : string) : option loc :=
  if Str.eqb p "" then None
  else walk fs (if OsPath.isabs p then [] else cwd) (Str.split OsPath.sep p).

Section Calls.
Variable cwd : loc.

(** [os.path.exists], [os.path.isdir], [os.path.isfile] *)
Definition exists_ (fs : t) (p : string) : bool :=
  match resolve cwd fs p with
  | Some l => bool_decide (is_Some (node_at fs l))
  | None => false
  end.

Definition isdir (fs : t) (p : string) : bool :=
  match resolve cwd fs p with Some l => is_dir fs l | None => false end.

Definition isfile (fs : t) (p : string) : bool :=
  match resolve cwd fs p with Some l => is_file fs l | None => false end.

(** [open(p, "rb").read()] *)
Definition read_file (fs : t) (p : string) : Res bytes :=
  match resolve cwd fs p with
  | None => Raise (FileNotFoundError p)
  | Some l =>
      match node_at fs l with
      | None => Raise (FileNotFoundError p)
      | Some Dir => Raise (IsADirectoryError p)
      | Some (File d) => Ok d
      end
  end.

(** [open(p, "wb")] or [open(p, "w")], the data written, closed *)
Definition write_file (fs : t) (p : string) (d : bytes) : Res t :=
  match resolve cwd fs p with
  | None => Raise (FileNotFoundError p)
  | Some l =>
      match node_at fs l with
      | Some Dir => Raise (IsADirectoryError p)
      | _ => Ok (store fs l (File d))
      end
  end.

(** [open(p, "a")], the data written at the end, closed *)
Definition append_file (fs : t) (p : string) (d : bytes) : Res t :=
  match resolve cwd fs p with
  | None => Raise (FileNotFoundError p)
  | Some l =>
      match node_at fs l with
      | Some Dir => Raise (IsADirectoryError p)
      | Some (File old) => Ok (store fs l (File (old ++ d)))
      | None => Ok (store fs l (File d))
      end
  end.

(** [os.listdir] *)
Definition listdir (fs : t) (p : string) : Res (list string) :=
  match resolve cwd fs p with
  | None => Raise (FileNotFoundError p)
  | Some l =>
      match node_at fs l with
      | None => Raise (FileNotFoundError p)
      | Some (File _) => Raise (NotADirectoryError p)
      | Some Dir => Ok (children fs l)
      end
  end.

(** [os.scandir]: each name with whether it is a directory. *)
Definition scandir (fs : t) (p : string) : Res (list (string * bool)) :=
  match resolve cwd fs p with
  | None => Raise (FileNotFoundError p)
  | Some l =>
      match node_at fs l with
      | None => Raise (FileNotFoundError p)
      | Some (File _) => Raise (NotADirectoryError p)
      | Some Dir => Ok (map (fun n => (n, is_dir fs (l ++ [n]))) (children fs l))
      end
  end.

(** [os.remove] *)
Definition remove (fs : t) (p : string) : Res t :=
  match resolve cwd fs p with
  | None => Raise (FileNotFoundError p)
  | Some l =>
      match node_at fs l with
      | None => Raise (FileNotFoundError p)
      | Some Dir => Raise (IsADirectoryError p)
      | Some (File _) => Ok (delete fs l)
      end
  end.

(** Move the subtree at [a] to [b]. *)
Definition retarget (a b : loc) (e : loc * node) : loc * node :=
  if (loc_eqb (fst e) a || below a (fst e))%bool
  then (b ++ drop (length a) (fst e), snd e) else e.

(** [os.rename]: a file replaces a file, a directory replaces an empty
    directory. *)
Definition rename (fs : t) (src dst : string) : Res t :=
  match resolve cwd fs src, resolve cwd fs dst with
  | None, _ => Raise (FileNotFoundError src)
  | _, None => Raise (FileNotFoundError dst)
  | Some a, Some b =>
      match node_at fs a with
      | None => Raise (FileNotFoundError src)
      | Some (File d) =>
          if loc_eqb a b then Ok fs
          else match node_at fs b with
               | Some Dir => Raise (IsADirectoryError dst)
               | _ => Ok (store (delete fs a) b (File d))
               end
      | Some Dir =>
          if loc_eqb a b then Ok fs
          else if (below a b || bool_decide (a = []))%bool
          then Raise (OSError "Invalid argument")
          else match node_at fs b with
               | Some (File _) => Raise (NotADirectoryError dst)
               | Some Dir =>
                   match children fs b, b with
                   | [], _ :: _ => Ok (map (retarget a b) (delete fs b))
                   | _, _ => Raise (OSError "Directory not empty")
                   end
               | None => Ok (map (retarget a b) fs)
               end
      end
  end.

(** [shutil.rmtree] *)
Definition rmtree (fs : t) (p : string) : Res t :=
  match resolve cwd fs p with
  | None => Raise (FileNotFoundError p)
  | Some l =>
      match node_at fs l, l with
      | None, _ => Raise (FileNotFoundError p)
      | Some (File _), _ => Raise (NotADirectoryError p)
      | Some Dir, [] => Raise (OSError "Device or resource busy")
      | Some Dir, _ => Ok (delete_tree fs l)
      end
  end.

(** The walk of [os.makedirs]: directories that are missing on the way
    are made; [made] tells whether the last step made one. *)
Fixpoint mkwalk (p : string) (fs : t) (cur : loc) (made : bool)
    (comps : list string) : Res (t * bool) :=
  match comps with
  | [] => Ok (fs, made)
  | c :: rest =>
      if (Str.eqb c "" || Str.eqb c ".")%bool then mkwalk p fs cur made rest
      else if Str.eqb c ".." then mkwalk p fs (parent cur) false rest
      else
        let l := cur ++ [c] in
        match node_at fs l with
        | None => mkwalk p (store fs l Dir) l true rest
        | Some Dir => mkwalk p fs l false rest
        | Some (File _) =>
            match rest with
            | [] => Raise (FileExistsError p)
            | _ => Raise (NotADirectoryError p)
            end
        end
  end.

(** [os.makedirs(p)] with [exist_ok=False] *)
Definition makedirs (fs : t) (p : string) : Res t :=
  if Str.eqb p "" then Raise (FileNotFoundError p)
  else
    match mkwalk p fs (if OsPath.isabs p then [] else cwd) false
            (Str.split OsPath.sep p) with
    | Raise e => Raise e
    | Ok (fs', true) => Ok fs'
    | Ok (_, false) => Raise (FileExistsError p)
    end.

(** [shutil.copy2(src, dst)]: into [dst] when that is a directory. *)
Definition copy2 (fs : t) (src dst : string) : Res t :=
  let dst' := if isdir fs dst then OsPath.join dst (OsPath.basename src) else dst in
  match resolve cwd fs src, resolve cwd fs dst' with
  | Some a, Some b =>
      if (loc_eqb a b && bool_decide (is_Some (node_at fs a)))%bool
      then Raise (SameFileError src)
      else match read_file fs src with
           | Raise e => Raise e
           | Ok d => write_file fs dst' d
           end
  | _, _ =>
      match read_file fs src with
      | Raise e => Raise e
      | Ok d => write_file fs dst' d
      end
  end.

(** [shutil.move(src, dst)] on one file system: a rename, into [dst]
    when that is a directory. *)
Definition move (fs : t) (src dst : string) : Res t :=
  if isdir fs dst then
    let real_dst := OsPath.join dst (OsPath.basename src) in
    if exists_ fs real_dst
    then Raise (ShutilError ("Destination path '" ++ real_dst ++ "' already exists"))
    else rename fs src real_dst
  else rename fs src dst.

End Calls.

End Fs.

(** ** fnmatch and glob *)

Module Glob.

(** One item of a pattern: [*], [?], a character, or a bracket class with
    the text between its brackets. *)
Inductive item : Type :=
  | Star
  | AnyChar
  | Lit (c : ascii)
  | Class (negated : bool) (stuff : string).

(** Up to the closing bracket: the text before it and what follows. *)
Fixpoint until_close (s : string) : option (string * string) :=
  match s with
  | EmptyString => None
  | String c s' =>
      if Ascii.eqb c "]"%char then Some (EmptyString, s')
      else match until_close s' with
           | Some (body, rest) => Some (String c body, rest)
           | None => None
           end
  end.

(** What follows an opening bracket: a leading [!] negates, a closing
    bracket that comes first is a member; [None] when the class is not
    closed. *)
Definition bracket (s : string) : option (bool * string * string) :=
  let '(negated, s1) :=
    match s with
    | String c s' => if Ascii.eqb c "!"%char then (true, s') else (false, s)
    | EmptyString => (false, s)
    end in
  match s1 with
  | String c s2 =>
      if Ascii.eqb c "]"%char then
        match until_close s2 with
        | Some (body, rest) => Some (negated, String c body, rest)
        | None => None
        end
      else
        match until_close s1 with
        | Some (body, rest) => Some (negated, body, rest)
        | None => None
        end
  | EmptyString => None
  end.

(** [fnmatch.translate]: a bracket that is never closed is a character. *)
Fixpoint translate (fuel : nat) (pat : string) : list item :=
  match fuel, pat with
  | S fuel', String c pat' =>
      if Ascii.eqb c "*"%char then Star :: translate fuel' pat'
      else if Ascii.eqb c "?"%char then AnyChar :: translate fuel' pat'
      else if Ascii.eqb c "["%char then
        match bracket pat' with
        | Some (negated, stuff, rest) => Class negated stuff :: translate fuel' rest
        | None => Lit c :: translate fuel' pat'
        end
      else Lit c :: translate fuel' pat'
  | _, _ => []
  end.

(** Membership in a class: [lo-hi] is a range, empty when its ends are out
    of order; a hyphen that is first, last or follows a range is a
    character, and so is every other character. *)
Fixpoint in_class (c : ascii) (stuff : string) : bool :=
  match stuff with
  | EmptyString => false
  | String lo rest =>
      match rest with
      | String h (String hi rest') =>
          if Ascii.eqb h "-"%char
          then ((N.leb (N_of_ascii lo) (N_of_ascii c)
                 && N.leb (N_of_ascii c) (N_of_ascii hi)) || in_class c rest')%bool
          else (Ascii.eqb lo c || in_class c rest)%bool
      | _ => (Ascii.eqb lo c || in_class c rest)%bool
      end
  end.

Fixpoint matches (items : list item) (name : string) : bool :=
  match items with
  | [] => Str.eqb name ""
  | Star :: items' =>
      (fix star (s : string) : bool :=
         (matches items' s ||
          match s with
          | EmptyString => false
          | String _ s' => star s'
          end)%bool) name
  | AnyChar :: items' =>
      match name with
      | EmptyString => false
      | String _ name' => matches items' name'
      end
  | Lit p :: items' =>
      match name with
      | EmptyString => false
      | String c name' => (Ascii.eqb p c && matches items' name')%bool
      end
  | Class negated stuff :: items' =>
      match name with
      | EmptyString => false
      | String c name' => (xorb negated (in_class c stuff) && matches items' name')%bool
      end
  end.

(** [fnmatch.fnmatch(name, pat)] on a POSIX host *)
Definition fnmatch (pat name : string) : bool :=
  matches (translate (String.length pat) pat) name.

Fixpoint has_magic (s : string) : bool :=
  match s with
  | EmptyString => false
  | String c s' =>
      (Ascii.eqb c "*"%char || Ascii.eqb c "?"%char || Ascii.eqb c "["%char
       || has_magic s')%bool
  end.

Definition ishidden (name : string) : bool := Str.startswith name ".".

(** [glob._glob0]: a name without wildcard is an existence test, an empty
    one asks for a directory. *)
Definition glob0 (cwd : Fs.loc) (fs : Fs.t) (dirname basename : string)
    : list string :=
  if Str.eqb basename "" then
    if Fs.isdir cwd fs dirname then [basename] else []
  else if Fs.exists_ cwd fs (OsPath.join dirname basename) then [basename] else [].

(** [glob._glob1]: the matching names of one directory scan, in scan order,
    hidden names left out unless the pattern asks for them; a directory that
    cannot be scanned has none. *)
Definition glob1 (cwd : Fs.loc) (fs : Fs.t) (dirname pattern : string)
    (dironly : bool) : list string :=
  match Fs.scandir cwd fs (if Str.eqb dirname "" then "." else dirname) with
  | Raise _ => []
  | Ok entries =>
      let names :=
        map fst (List.filter (fun e => (negb dironly || snd e)%bool) entries) in
      let visible :=
        if ishidden pattern then names
        else List.filter (fun x => negb (ishidden x)) names in
      List.filter (fnmatch pattern) visible
  end.

(** [glob._iglob] without [recursive]: a wildcard in the directory part is
    expanded first, to directories only. Each call works on a shorter
    path, so the length of the path is fuel enough. *)
Fixpoint iglob (fuel : nat) (cwd : Fs.loc) (fs : Fs.t) (pathname : string)
    (dironly : bool) : list string :=
  match fuel with
  | O => []
  | S fuel' =>
      let '(dirname, basename) := OsPath.split pathname in
      if negb (has_magic pathname) then
        if negb (Str.eqb basename "") then
          if Fs.exists_ cwd fs pathname then [pathname] else []
        else if Fs.isdir cwd fs dirname then [pathname] else []
      else if Str.eqb dirname "" then glob1 cwd fs "" basename dironly
      else
        let dirs :=
          if (negb (Str.eqb dirname pathname) && has_magic dirname)%bool
          then iglob fuel' cwd fs dirname true
          else [dirname] in
        let glob_in_dir :=
          if has_magic basename
          then fun d => glob1 cwd fs d basename dironly
          else fun d => glob0 cwd fs d basename in
        flat_map (fun d => map (OsPath.join d) (glob_in_dir d)) dirs
  end.

(** [glob.glob(pathname)] *)
Definition glob (cwd : Fs.loc) (fs : Fs.t) (pathname : string) : list string :=
  iglob (S (String.length pathname)) cwd fs pathname false.

End Glob.

(** ** tarfile *)

Module Tar.

(** A member: its archive name and what it holds. *)
Definition member : Type := string * Fs.node.

Fixpoint insert_sorted (x : string) (l : list string) : list string :=
  match l with
  | [] => [x]
  | y :: l' => if String.leb x y then x :: l else y :: insert_sorted x l'
  end.

Definition sorted (l : list string) : list string :=
  fold_right insert_sorted [] l.

(** [TarFile.add(name, arcname=arcname)]: the node itself and, under a
    directory, its sorted children in turn. *)
Fixpoint add (fuel : nat) (fs : Fs.t) (l : Fs.loc) (arcname : string)
    : list member :=
  match fuel with
  | O => []
  | S fuel' =>
      match Fs.node_at fs l with
      | None => []
      | Some (Fs.File d) => [(arcname, Fs.File d)]
      | Some Fs.Dir =>
          (arcname, Fs.Dir) ::
          flat_map (fun c => add fuel' fs (l ++ [c]) (OsPath.join arcname c))
                   (sorted (Fs.children fs l))
      end
  end.

Definition add_path (cwd : Fs.loc) (fs : Fs.t) (name arcname : string)
    : Res (list member) :=
  match Fs.resolve cwd fs name with
  | None => Raise (FileNotFoundError name)
  | Some l =>
      match Fs.node_at fs l with
      | None => Raise (FileNotFoundError name)
      | Some _ => Ok (add (S (length fs)) fs l arcname)
      end
  end.

(** The directories above a target, made when they are missing. *)
Definition ensure_parent (cwd : Fs.loc) (fs : Fs.t) (target : string) : Res Fs.t :=
  let upper := fst (OsPath.split target) in
  if (Str.eqb upper "" || Fs.exists_ cwd fs upper)%bool then Ok fs
  else Fs.makedirs cwd fs upper.

Definition extract (cwd : Fs.loc) (dst : string) (fs : Fs.t) (m : member)
    : Res Fs.t :=
  let target := OsPath.join dst (fst m) in
  match ensure_parent cwd fs target with
  | Raise e => Raise e
  | Ok fs1 =>
      match snd m with
      | Fs.Dir =>
          if Fs.isdir cwd fs1 target then Ok fs1
          else if Fs.exists_ cwd fs1 target then Raise (FileExistsError target)
          else Fs.makedirs cwd fs1 target
      | Fs.File d => Fs.write_file cwd fs1 target d
      end
  end.

(** [TarFile.extractall(dst)] *)
Fixpoint extractall (cwd : Fs.loc) (dst : string) (fs : Fs.t)
    (ms : list member) : Res Fs.t :=
  match ms with
  | [] => Ok fs
  | m :: ms' =>
      match extract cwd dst fs m with
      | Raise e => Raise e
      | Ok fs' => extractall cwd dst fs' ms'
      end
  end.

End Tar.

(** ** json values *)

Module Json.

Inductive t : Type :=
  | Null
  | Bool (b : bool)
  | Num (literal : string)
  | Str (s : string)
  | Arr (items : list t)
  | Obj (fields : list (string * t)).

Fixpoint get (k : string) (fields : list (string * t)) : option t :=
  match fields with
  | [] => None
  | (k', v) :: r => if Str.eqb k' k then Some v else get k r
  end.

(** [d[k] = v] on a dict: in place for a key that is there, else last. *)
Fixpoint set (k : string) (v : t) (fields : list (string * t))
    : list (string * t) :=
  match fields with
  | [] => [(k, v)]
  | (k', v') :: r => if Str.eqb k' k then (k', v) :: r else (k', v') :: set k v r
  end.

End Json.

(** ** The docker daemon *)

Module Docker.

Record container : Type := {
  c_image : string;
  c_app : string;
  c_running : bool;
  c_fs : Fs.t
}.

(** [images]: the local images; [registry]: what a pull can fetch;
    [containers]: the containers that exist, a detached one found by
    its position. *)
Record t : Type := {
  images : list string;
  registry : list string;
  containers : list container
}.

Definition has (l : list string) (x : string) : bool :=
  existsb (Str.eqb x) l.

(** [client.images.get(name)] *)
Definition images_get (d : t) (name : string) : Res unit :=
  if has (images d) name then Ok tt else Raise (ImageNotFound name).

(** [client.images.pull(repository, tag)] *)
Definition images_pull (d : t) (repository tag : string) : Res t :=
  let name := (repository ++ ":" ++ tag)%string in
  if has (registry d) name
  then Ok {| images := images d ++ [name]; registry := registry d;
             containers := containers d |}
  else Raise (APIError ("pull " ++ name)%string).

Definition with_containers (d : t) (cs : list container) : t :=
  {| images := images d; registry := registry d; containers := cs |}.

Definition set_running (b : bool) (c : container) : container :=
  {| c_image := c_image c; c_app := c_app c; c_running := b; c_fs := c_fs c |}.

Definition set_fs (f : Fs.t) (c : container) : container :=
  {| c_image := c_image c; c_app := c_app c; c_running := c_running c; c_fs := f |}.

(** [container.stop()] *)
Definition stop (d : t) (id : nat) : t :=
  with_containers d (alter (set_running false) id (containers d)).

Definition running (d : t) : list container :=
  List.filter c_running (containers d).

(** What is seen of a container from outside: image, application and
    whether it runs. *)
Definition status (c : container) : string * string * bool :=
  (c_image c, c_app c, c_running c).

Definition statuses (d : t) : list (string * string * bool) :=
  status <$> containers d.

End Docker.

(** ** The SeBS cache *)

Module Cache.

(** The entry of a code package: [{hash, size, location}]. *)
Record payload : Type := {
  hash : string;
  size : Z;
  location : string
}.

Abbreviation key := (string * string * string)%type.

Record t : Type := {
  cache_dir : string;
  code_packages : gmap key payload;
  benchmarks : gmap key Json.t
}.

(** Modelled from the spec: of [sebs.cache.Cache], which is not among the
    sources, the interface of section 6; a key-value store with one entry
    per (deployment, benchmark, language), [getCodePackage] answering the
    entry or absent. *)
Definition get_code_package (c : t) (deployment benchmark language : string)
    : option payload :=
  code_packages c !! (deployment, benchmark, language).

(** Modelled from the spec: [getBenchmarks] of the same interface. *)
Definition get_benchmarks (c : t) (deployment benchmark language : string)
    : option Json.t :=
  benchmarks c !! (deployment, benchmark, language).

(** Modelled from the spec: [addCodePackage] of the same interface
    records the identity of the built artifact under its key. *)
Definition add_code_package (c : t) (deployment language benchmark : string)
    (e : payload) : t :=
  {| cache_dir := cache_dir c;
     code_packages := <[(deployment, benchmark, language) := e]> (code_packages c);
     benchmarks := benchmarks c |}.

(** Modelled from the spec: [updateCodePackage] of the same interface; an
    entry is overwritten on rebuild, never pruned. *)
Definition update_code_package (c : t) (deployment language benchmark : string)
    (e : payload) : t :=
  {| cache_dir := cache_dir c;
     code_packages := <[(deployment, benchmark, language) := e]> (code_packages c);
     benchmarks := benchmarks c |}.

End Cache.

(** ** Configuration objects *)

(** Modelled from the spec: the [Language] enum of
    [sebs.experiments.config], which is not among the sources; its values
    are the language identifiers [python] and [nodejs]. *)
Inductive Language : Type :=
  | PYTHON
  | NODEJS.

#[global] Instance Language_eq_dec : EqDecision Language.
Proof. solve_decision. Defined.

Definition Language_value (l : Language) : string :=
  match l with
  | PYTHON => "python"
  | NODEJS => "nodejs"
  end.

(** [str] of a member, which is also how [str.format] prints it. *)
Definition Language_str (l : Language) : string :=
  match l with
  | PYTHON => "Language.PYTHON"
  | NODEJS => "Language.NODEJS"
  end.

Definition Language_deserialize (val : string) : Res Language :=
  if Str.eqb val "python" then Ok PYTHON
  else if Str.eqb val "nodejs" then Ok NODEJS
  else Raise (RuntimeError ("Unknown language type " ++ val)).

Record CodePackageConfig : Type := {
  timeout : Json.t;
  memory : Json.t;
  languages : list Language
}.

Fixpoint deserialize_languages (xs : list Json.t) : Res (list Language) :=
  match xs with
  | [] => Ok []
  | Json.Str x :: r =>
      match Language_deserialize x with
      | Raise e => Raise e
      | Ok l =>
          match deserialize_languages r with
          | Raise e => Raise e
          | Ok ls => Ok (l :: ls)
          end
      end
  | _ :: _ => Raise (RuntimeError "Unknown language type")
  end.

(** [CodePackageConfig.deserialize] *)
Definition CodePackageConfig_deserialize (json_object : Json.t)
    : Res CodePackageConfig :=
  match json_object with
  | Json.Obj fields =>
      match Json.get "timeout" fields with
      | None => Raise (KeyError "timeout")
      | Some t =>
          match Json.get "memory" fields with
          | None => Raise (KeyError "memory")
          | Some m =>
              match Json.get "languages" fields with
              | None => Raise (KeyError "languages")
              | Some (Json.Arr xs) =>
                  match deserialize_languages xs with
                  | Raise e => Raise e
                  | Ok ls => Ok {| timeout := t; memory := m; languages := ls |}
                  end
              | Some _ => Raise TypeError
              end
          end
      end
  | _ => Raise TypeError
  end.

(** What of [sebs.experiments.config.Config] the code package reads. *)
Record ExperimentConfig : Type := {
  update_code : bool;
  check_flag : string -> bool;
  runtime_language : Language;
  runtime_version : string
}.

(** The packages a deployment asks for: a list of requirement lines for
    python, a mapping from package to version for nodejs. *)
Inductive Packages : Type :=
  | PkgList (lines : list string)
  | PkgDict (items : list (string * string)).

Definition Packages_len (p : Packages) : nat :=
  match p with
  | PkgList l => length l
  | PkgDict d => length d
  end.

(** What of [sebs.config.SeBSConfig] the code package reads. *)
Record SeBSConfig : Type := {
  deployment_files : string -> string -> list string;
  deployment_packages : string -> string -> Packages;
  docker_image_types : string -> string -> list string;
  docker_repository : string
}.

(** ** The world a code package runs in *)

Inductive Level : Type := DEBUG | INFO | ERROR.

Inductive Stream : Type := Stdout | Stderr.

(** What a finished child process leaves behind: its exit status, what it
    wrote and on which stream, in the order written, and the files. *)
Record Completed : Type := {
  returncode : Z;
  written : list (Stream * bytes);
  files_after : Fs.t
}.

Record World : Type := {
  cwd : Fs.loc;
  fs : Fs.t;
  cache : Cache.t;
  docker : Docker.t;
  log : list (Level * string)
}.

(** Behaviour from outside the repository: library codecs, the scripts and
    images that are run, and two helpers of [sebs.utils]. *)
Record Externals : Type := {
  md5_hexdigest : bytes -> string;
  find_package_code : string -> string -> World -> option string;
  project_absolute_path : list string -> string;
  json_loads : bytes -> option Json.t;
  json_dumps : Json.t -> bytes;
  tar_bytes : list Tar.member -> bytes;
  tar_members : bytes -> option (list Tar.member);
  shell : string -> Fs.loc -> Fs.t -> Completed;
  image_rootfs : string -> Fs.t;
  container_main : string -> string -> list (string * (string * string)) ->
                   Fs.t -> Completed;
  container_exec : Docker.container -> string -> Completed
}.

(** ** The code package object *)

(** The attributes of a [CodePackage]; one that [__init__] has not assigned
    yet is [None]. The cache and docker clients are part of the world. *)
Record CodePackage : Type := {
  _name : string;
  _deployment_name : string;
  _experiment_config : ExperimentConfig;
  _language : Language;
  _language_version : string;
  _path : string;
  _config : CodePackageConfig;
  _system_config : SeBSConfig;
  _output_dir : string;
  _hash_value : option string;
  _payload : option Cache.payload;
  _benchmarks : option Json.t;
  _code_size : option Z;
  _code_location : option string;
  _is_cached : bool;
  _is_cached_valid : bool
}.

Definition set_hash_value (v : option string) (c : CodePackage) : CodePackage :=
  {| _name := _name c;
     _deployment_name := _deployment_name c;
     _experiment_config := _experiment_config c;
     _language := _language c;
     _language_version := _language_version c;
     _path := _path c;
     _config := _config c;
     _system_config := _system_config c;
     _output_dir := _output_dir c;
     _hash_value := v;
     _payload := _payload c;
     _benchmarks := _benchmarks c;
     _code_size := _code_size c;
     _code_location := _code_location c;
     _is_cached := _is_cached c;
     _is_cached_valid := _is_cached_valid c |}.

Definition set_payload (v : option Cache.payload) (c : CodePackage) : CodePackage :=
  {| _name := _name c;
     _deployment_name := _deployment_name c;
     _experiment_config := _experiment_config c;
     _language := _language c;
     _language_version := _language_version c;
     _path := _path c;
     _config := _config c;
     _system_config := _system_config c;
     _output_dir := _output_dir c;
     _hash_value := _hash_value c;
     _payload := v;
     _benchmarks := _benchmarks c;
     _code_size := _code_size c;
     _code_location := _code_location c;
     _is_cached := _is_cached c;
     _is_cached_valid := _is_cached_valid c |}.

Definition set_benchmarks (v : option Json.t) (c : CodePackage) : CodePackage :=
  {| _name := _name c;
     _deployment_name := _deployment_name c;
     _experiment_config := _experiment_config c;
     _language := _language c;
     _language_version := _language_version c;
     _path := _path c;
     _config := _config c;
     _system_config := _system_config c;
     _output_dir := _output_dir c;
     _hash_value := _hash_value c;
     _payload := _payload c;
     _benchmarks := v;
     _code_size := _code_size c;
     _code_location := _code_location c;
     _is_cached := _is_cached c;
     _is_cached_valid := _is_cached_valid c |}.

Definition set_code_size (v : option Z) (c : CodePackage) : CodePackage :=
  {| _name := _name c;
     _deployment_name := _deployment_name c;
     _experiment_config := _experiment_config c;
     _language := _language c;
     _language_version := _language_version c;
     _path := _path c;
     _config := _config c;
     _system_config := _system_config c;
     _output_dir := _output_dir c;
     _hash_value := _hash_value c;
     _payload := _payload c;
     _benchmarks := _benchmarks c;
     _code_size := v;
     _code_location := _code_location c;
     _is_cached := _is_cached c;
     _is_cached_valid := _is_cached_valid c |}.

Definition set_code_location (v : option string) (c : CodePackage) : CodePackage :=
  {| _name := _name c;
     _deployment_name := _deployment_name c;
     _experiment_config := _experiment_config c;
     _language := _language c;
     _language_version := _language_version c;
     _path := _path c;
     _config := _config c;
     _system_config := _system_config c;
     _output_dir := _output_dir c;
     _hash_value := _hash_value c;
     _payload := _payload c;
     _benchmarks := _benchmarks c;
     _code_size := _code_size c;
     _code_location := v;
     _is_cached := _is_cached c;
     _is_cached_valid := _is_cached_valid c |}.

Definition set_is_cached (v : bool) (c : CodePackage) : CodePackage :=
  {| _name := _name c;
     _deployment_name := _deployment_name c;
     _experiment_config := _experiment_config c;
     _language := _language c;
     _language_version := _language_version c;
     _path := _path c;
     _config := _config c;
     _system_config := _system_config c;
     _output_dir := _output_dir c;
     _hash_value := _hash_value c;
     _payload := _payload c;
     _benchmarks := _benchmarks c;
     _code_size := _code_size c;
     _code_location := _code_location c;
     _is_cached := v;
     _is_cached_valid := _is_cached_valid c |}.

Definition set_is_cached_valid (v : bool) (c : CodePackage) : CodePackage :=
  {| _name := _name c;
     _deployment_name := _deployment_name c;
     _experiment_config := _experiment_config c;
     _language := _language c;
     _language_version := _language_version c;
     _path := _path c;
     _config := _config c;
     _system_config := _system_config c;
     _output_dir := _output_dir c;
     _hash_value := _hash_value c;
     _payload := _payload c;
     _benchmarks := _benchmarks c;
     _code_size := _code_size c;
     _code_location := _code_location c;
     _is_cached := _is_cached c;
     _is_cached_valid := v |}.

Definition set_fs (v : Fs.t) (w : World) : World :=
  {| cwd := cwd w; fs := v; cache := cache w; docker := docker w; log := log w |}.

Definition set_cache (v : Cache.t) (w : World) : World :=
  {| cwd := cwd w; fs := fs w; cache := v; docker := docker w; log := log w |}.

Definition set_docker (v : Docker.t) (w : World) : World :=
  {| cwd := cwd w; fs := fs w; cache := cache w; docker := v; log := log w |}.

Definition set_log (v : list (Level * string)) (w : World) : World :=
  {| cwd := cwd w; fs := fs w; cache := cache w; docker := docker w; log := v |}.

(** The state a method call works on: the object and the world. *)
Record St : Type := {
  self : CodePackage;
  world : World
}.

(** ** Methods: state that survives a raised exception *)

Definition M (A : Type) : Type := St -> Res A * St.

Definition ret {A} (a : A) : M A := fun s => (Ok a, s).

Definition raise {A} (e : Exn) : M A := fun s => (Raise e, s).

Definition bind {A B} (m : M A) (f : A -> M B) : M B :=
  fun s =>
    match m s with
    | (Ok a, s') => f a s'
    | (Raise e, s') => (Raise e, s')
    end.

Declare Scope method_scope.
Delimit Scope method_scope with method.
Notation "'let*' x := c 'in' k" := (bind c (fun x => k))
  (at level 10, x name, c at level 100, k at level 200) : method_scope.
Notation "'run' c 'in' k" := (bind c (fun _ => k))
  (at level 10, c at level 100, k at level 200) : method_scope.
Local Open Scope method_scope.

(** [try: body except <the exceptions handler picks>: handler] *)
Definition try_except {A} (body : M A) (handler : Exn -> option (M A)) : M A :=
  fun s =>
    match body s with
    | (Raise e, s') =>
        match handler e with
        | Some h => h s'
        | None => (Raise e, s')
        end
    | r => r
    end.

Definition get_self : M CodePackage := fun s => (Ok (self s), s).

Definition get_world : M World := fun s => (Ok (world s), s).

Definition modify_self (f : CodePackage -> CodePackage) : M unit :=
  fun s => (Ok tt, {| self := f (self s); world := world s |}).

Definition modify_world (f : World -> World) : M unit :=
  fun s => (Ok tt, {| self := self s; world := f (world s) |}).

Definition lift {A} (r : Res A) : M A := fun s => (r, s).

(** A file system call that changes the files. *)
Definition fs_call (f : Fs.loc -> Fs.t -> Res Fs.t) : M unit :=
  let* w := get_world in
  let* fs' := lift (f (cwd w) (fs w)) in
  modify_world (set_fs fs').

(** A file system call that only looks. *)
Definition fs_read {A} (f : Fs.loc -> Fs.t -> A) : M A :=
  let* w := get_world in
  ret (f (cwd w) (fs w)).

(** [self.logging.<level>(msg)] *)
Definition logging (lvl : Level) (msg : string) : M unit :=
  modify_world (fun w => set_log (log w ++ [(lvl, msg)]) w).

(** [for x in xs: body(x)] *)
Fixpoint for_each {A} (xs : list A) (body : A -> M unit) : M unit :=
  match xs with
  | [] => ret tt
  | x :: xs' => run body x in for_each xs' body
  end.

(** The attributes [__init__] assigns before it asks the cache. *)
Definition fresh_package (name deployment_name : string) (config : ExperimentConfig)
    (system_config : SeBSConfig) (output_dir path : string)
    (cfg : CodePackageConfig) : CodePackage :=
  {| _name := name;
     _deployment_name := deployment_name;
     _experiment_config := config;
     _language := runtime_language config;
     _language_version := runtime_version config;
     _path := path;
     _config := cfg;
     _system_config := system_config;
     _output_dir := OsPath.join output_dir (name ++ "_code");
     _hash_value := None;
     _payload := None;
     _benchmarks := None;
     _code_size := None;
     _code_location := None;
     _is_cached := false;
     _is_cached_valid := false |}.

(** ** The methods of [CodePackage] *)

Section Methods.

Variable E : Externals.

Definition language_name (c : CodePackage) : string :=
  Language_value (_language c).

(** The property [code_location]. *)
Definition code_location : M string :=
  let* c := get_self in
  let* w := get_world in
  match _payload c with
  | Some p => ret (OsPath.join (Cache.cache_dir (cache w)) (Cache.location p))
  | None =>
      match _code_location c with
      | Some l => ret l
      | None => raise (AttributeError "_code_location")
      end
  end.

Definition FILES (language : string) : option (list string) :=
  if Str.eqb language "python" then Some ["*.py"; "requirements.txt*"]
  else if Str.eqb language "nodejs" then Some ["*.js"; "package.json"]
  else None.

Definition WRAPPERS (language : string) : option string :=
  if Str.eqb language "python" then Some "*.py"
  else if Str.eqb language "nodejs" then Some "*.js"
  else None.

Definition NON_LANG_FILES : list string := ["*.sh"; "*.json"].

(** [hash_sum.update(open(path, "rb").read())] for each path in turn; the
    state of the digest object is what it has been fed. *)
Fixpoint feed (w : World) (fed : bytes) (paths : list string) : Res bytes :=
  match paths with
  | [] => Ok fed
  | p :: rest =>
      match Fs.read_file (cwd w) (fs w) p with
      | Raise e => Raise e
      | Ok d => feed w (fed ++ d) rest
      end
  end.

(** The static method [hash_directory]. *)
Definition hash_directory (w : World) (directory deployment language : string)
    : Res string :=
  match FILES language with
  | None => Raise (KeyError language)
  | Some files =>
      let selected_files := files ++ NON_LANG_FILES in
      let found :=
        flat_map (fun file_type =>
                    map (OsPath.join directory)
                        (Glob.glob (cwd w) (fs w) (OsPath.join directory file_type)))
                 selected_files in
      match feed w [] found with
      | Raise e => Raise e
      | Ok fed1 =>
          let definition_path :=
            OsPath.join_all directory [OsPath.pardir; "definition.json"] in
          match (if Fs.exists_ (cwd w) (fs w) definition_path
                 then feed w fed1 [definition_path] else Ok fed1) with
          | Raise e => Raise e
          | Ok fed2 =>
              match WRAPPERS language with
              | None => Raise (KeyError language)
              | Some pattern =>
                  let wrappers :=
                    project_absolute_path E
                      ["benchmarks"; "wrappers"; deployment; language; pattern] in
                  match feed w fed2
                          (map (OsPath.join directory)
                               (Glob.glob (cwd w) (fs w) wrappers)) with
                  | Raise e => Raise e
                  | Ok fed3 => Ok (md5_hexdigest E fed3)
                  end
              end
          end
      end
  end.

(** The property [hash]: computed from the files at every read. *)
Definition hash : M string :=
  let* c := get_self in
  let* w := get_world in
  let path := OsPath.join (_path c) (language_name c) in
  let* h := lift (hash_directory w path (_deployment_name c) (language_name c)) in
  run modify_self (set_hash_value (Some h)) in
  ret h.

(** The setter of [hash]. *)
Definition hash_setter (val : string) : M unit :=
  modify_self (set_hash_value (Some val)).

Definition query_cache : M unit :=
  let* c := get_self in
  let* w := get_world in
  run modify_self (set_payload
        (Cache.get_code_package (cache w) (_deployment_name c) (_name c)
           (language_name c))) in
  run modify_self (set_benchmarks
        (Cache.get_benchmarks (cache w) (_deployment_name c) (_name c)
           (language_name c))) in
  let* c := get_self in
  match _payload c with
  | Some payload =>
      let* current_hash := hash in
      let old_hash := Cache.hash payload in
      run modify_self (set_code_size (Some (Cache.size payload))) in
      run modify_self (set_is_cached true) in
      modify_self (set_is_cached_valid (Str.eqb current_hash old_hash))
  | None =>
      run modify_self (set_is_cached false) in
      modify_self (set_is_cached_valid false)
  end.

(** [__init__]: the object, or the exception it raises. *)
Definition init (name deployment_name : string) (config : ExperimentConfig)
    (system_config : SeBSConfig) (output_dir : string) (w : World)
    : Res CodePackage * World :=
  match find_package_code E name "benchmarks" w with
  | None | Some EmptyString =>
      (Raise (RuntimeError ("Benchmark " ++ name ++ " not found!")), w)
  | Some path =>
      match Fs.read_file (cwd w) (fs w) (OsPath.join path "config.json") with
      | Raise e => (Raise e, w)
      | Ok text =>
          match json_loads E text with
          | None => (Raise JSONDecodeError, w)
          | Some json_object =>
              match CodePackageConfig_deserialize json_object with
              | Raise e => (Raise e, w)
              | Ok cfg =>
                  if negb (bool_decide (runtime_language config ∈ languages cfg))
                  then (Raise (RuntimeError
                                 ("Benchmark " ++ name ++ " not available for language "
                                  ++ Language_str (runtime_language config))), w)
                  else
                    let c0 :=
                      fresh_package name deployment_name config system_config
                        output_dir path cfg in
                    let body :=
                      run query_cache in
                      if update_code config
                      then modify_self (set_is_cached_valid false)
                      else ret tt in
                    match body {| self := c0; world := w |} with
                    | (Ok _, s) => (Ok (self s), world s)
                    | (Raise e, s) => (Raise e, world s)
                    end
              end
          end
      end
  end.

(** The patterns of [get_code_files(include_config=True)]. *)
Definition code_file_types (language : string) : option (list string) :=
  if Str.eqb language "python" then Some ["*.py"; "requirements.txt*"; "*.json"]
  else if Str.eqb language "nodejs" then Some ["*.js"; "package.json"; "*.json"]
  else None.

(** [copy_code]: the generator [get_code_files] is consumed one file at a
    time, so each pattern is matched against the files as they are when
    its turn comes. *)
Definition copy_code (output_dir : string) : M unit :=
  let* c := get_self in
  let path := OsPath.join (_path c) (language_name c) in
  match code_file_types (language_name c) with
  | None => raise (KeyError (language_name c))
  | Some file_types =>
      for_each file_types (fun file_type =>
        let* found := fs_read (fun cwd fs => Glob.glob cwd fs (OsPath.join path file_type)) in
        for_each found (fun f =>
          fs_call (fun cwd fs => Fs.copy2 cwd fs (OsPath.join path f) output_dir)))
  end.

(** What the pipe of [subprocess.run(..., stdout=PIPE, stderr=STDOUT)]
    holds: both streams, as written. *)
Definition captured (p : Completed) : bytes :=
  concat (map snd (written p)).

(** What was written on one of the streams. *)
Definition on_stream (st : Stream) (p : Completed) : bytes :=
  concat (map snd (List.filter
                     (fun x => match fst x, st with
                               | Stdout, Stdout | Stderr, Stderr => true
                               | _, _ => false
                               end) (written p))).

Definition add_benchmark_data (output_dir : string) : M unit :=
  let* c := get_self in
  let paths := [_path c; OsPath.join (_path c) (language_name c)] in
  for_each paths (fun path =>
    let* there := fs_read (fun cwd fs => Fs.exists_ cwd fs (OsPath.join path "init.sh")) in
    if there then
      let* w := get_world in
      let out := shell E ("/bin/bash " ++ path ++ "/init.sh " ++ output_dir ++ " false")
                   (cwd w) (fs w) in
      run modify_world (set_fs (files_after out)) in
      match Utf8.decode (captured out) with
      | None => raise UnicodeDecodeError
      | Some text => logging DEBUG text
      end
    else ret tt).

Definition add_deployment_files (output_dir : string) (is_workflow : bool) : M unit :=
  let* c := get_self in
  let handlers_dir :=
    project_absolute_path E
      ["benchmarks"; "wrappers"; _deployment_name c; language_name c] in
  let handlers :=
    map (OsPath.join handlers_dir)
        (deployment_files (_system_config c) (_deployment_name c) (language_name c)) in
  run for_each handlers (fun file =>
        fs_call (fun cwd fs => Fs.copy2 cwd fs file output_dir)) in
  if Str.eqb (language_name c) "python" then
    let handler_path := OsPath.join output_dir "handler.py" in
    let handler_function_path := OsPath.join output_dir "handler_function.py" in
    let handler_workflow_path := OsPath.join output_dir "handler_workflow.py" in
    if is_workflow then
      run fs_call (fun cwd fs => Fs.rename cwd fs handler_workflow_path handler_path) in
      fs_call (fun cwd fs => Fs.remove cwd fs handler_function_path)
    else
      run fs_call (fun cwd fs => Fs.rename cwd fs handler_function_path handler_path) in
      fs_call (fun cwd fs => Fs.remove cwd fs handler_workflow_path)
  else ret tt.

(** Iterating over the packages: the lines of a list, the keys of a dict. *)
Definition Packages_iter (p : Packages) : list string :=
  match p with
  | PkgList l => l
  | PkgDict d => map fst d
  end.

Definition add_deployment_package_python (output_dir : string) : M unit :=
  let* c := get_self in
  let packages :=
    deployment_packages (_system_config c) (_deployment_name c) (language_name c) in
  if (0 <? Packages_len packages)%nat then
    let text :=
      fold_left (fun (acc package : string) => (acc ++ package ++ newline)%string)
                (Packages_iter packages) newline in
    fs_call (fun cwd fs =>
               Fs.append_file cwd fs (OsPath.join output_dir "requirements.txt")
                 (str_encode text))
  else ret tt.

Definition add_deployment_package_nodejs (output_dir : string) : M unit :=
  let* c := get_self in
  let packages :=
    deployment_packages (_system_config c) (_deployment_name c) (language_name c) in
  if (0 <? Packages_len packages)%nat then
    let package_config := OsPath.join output_dir "package.json" in
    let* w := get_world in
    let* text := lift (Fs.read_file (cwd w) (fs w) package_config) in
    match json_loads E text with
    | None => raise JSONDecodeError
    | Some package_json =>
        match packages with
        | PkgList _ => raise (AttributeError "items")
        | PkgDict items =>
            match package_json with
            | Json.Obj fields =>
                match Json.get "dependencies" fields with
                | None => raise (KeyError "dependencies")
                | Some (Json.Obj deps) =>
                    let deps' :=
                      fold_left (fun d kv => Json.set (fst kv) (Json.Str (snd kv)) d)
                                items deps in
                    let package_json' :=
                      Json.Obj (Json.set "dependencies" (Json.Obj deps') fields) in
                    fs_call (fun cwd fs =>
                               Fs.write_file cwd fs package_config
                                 (json_dumps E package_json'))
                | Some _ => raise TypeError
                end
            | _ => raise TypeError
            end
        end
    end
  else ret tt.

Definition add_deployment_package (output_dir : string) : M unit :=
  let* c := get_self in
  match _language c with
  | PYTHON => add_deployment_package_python output_dir
  | NODEJS => add_deployment_package_nodejs output_dir
  end.

(** The static method [directory_size]: the sizes of the regular files
    below the directory, added up. *)
Definition directory_size (w : World) (directory : string) : Z :=
  match Fs.resolve (cwd w) (fs w) directory with
  | None => 0
  | Some l =>
      fold_left Z.add
        (omap (fun e => match snd e with
                        | Fs.File d => Some (Z.of_nat (length d))
                        | Fs.Dir => None
                        end) (Fs.subtree (fs w) l)) 0%Z
  end.

(** [repr] of a bytes object: printable ASCII as it is, the quote and the
    backslash escaped, the rest as [\t], [\n], [\r] or [\xhh]; double
    quotes around it when the bytes hold a single quote and no double one. *)
Definition hex_digit (n : N) : ascii :=
  match String.get (N.to_nat n) "0123456789abcdef" with
  | Some c => c
  | None => "0"%char
  end.

Definition repr_byte (quote : ascii) (b : Byte.byte) : string :=
  let c := ascii_of_byte b in
  let n := Byte.to_N b in
  if (Ascii.eqb c quote || Ascii.eqb c "\"%char)%bool then String "\"%char (String c "")
  else if (n =? 9)%N then "\t"
  else if (n =? 10)%N then "\n"
  else if (n =? 13)%N then "\r"
  else if ((n <? 32) || (127 <=? n))%N
  then "\x" ++ String (hex_digit (n / 16)) (String (hex_digit (n mod 16)) "")
  else String c "".

Definition bytes_repr (bs : bytes) : string :=
  let has c := existsb (fun b => Ascii.eqb (ascii_of_byte b) c) bs in
  let quote :=
    if (has "'"%char && negb (has (ascii_of_nat 34)))%bool
    then ascii_of_nat 34 else "'"%char in
  String "b"%char
    (String quote (fold_right (fun b acc => (repr_byte quote b ++ acc)%string)
                     (String quote "") bs)).

(** [str(e)] of the [docker.errors.ContainerError] that
    [client.containers.run] raises: no command was given, and the standard
    error of the container prints as a bytes object. *)
Definition ContainerError_str (image : string) (status : Z) (stderr : bytes)
    : string :=
  "Command 'None' in image '" ++ image ++ "' returned non-zero exit status "
  ++ pretty status ++ ": " ++ bytes_repr stderr.

Definition volumes_repr (volumes : list (string * (string * string))) : string :=
  "{" ++
  fold_left (fun (acc : string) v =>
               (acc ++ (if Str.eqb acc "" then "" else ", ")
                ++ "'" ++ fst v ++ "': {'bind': '" ++ fst (snd v)
                ++ "', 'mode': '" ++ snd (snd v) ++ "'}")%string)
            volumes "" ++ "}".

(** [client.containers.run(image, volumes=..., remove=True)]: the
    container runs to its end and is removed; a non-zero exit status
    raises [ContainerError]. *)
Definition containers_run (image app : string)
    (volumes : list (string * (string * string))) : M bytes :=
  let* w := get_world in
  let out := container_main E image app volumes (fs w) in
  run modify_world (set_fs (files_after out)) in
  if (returncode out =? 0)%Z then ret (captured out)
  else raise (ContainerError image (returncode out) (on_stream Stderr out)).

(** [client.containers.run(image, detach=True, tty=True,
    command="/bin/bash")]: the container keeps running; what comes back
    identifies it. *)
Definition containers_run_detached (image app : string) : M nat :=
  let* w := get_world in
  let d := docker w in
  let c := {| Docker.c_image := image; Docker.c_app := app;
              Docker.c_running := true; Docker.c_fs := image_rootfs E image |} in
  run modify_world (set_docker (Docker.with_containers d (Docker.containers d ++ [c]))) in
  ret (length (Docker.containers d)).

Definition the_container (id : nat) : M Docker.container :=
  let* w := get_world in
  match Docker.containers (docker w) !! id with
  | Some c => ret c
  | None => raise (APIError "No such container")
  end.

Definition update_container (id : nat) (f : Docker.container -> Docker.container)
    : M unit :=
  modify_world (fun w =>
    set_docker (Docker.with_containers (docker w)
                  (alter f id (Docker.containers (docker w)))) w).

(** [container.put_archive(path, data)] *)
Definition put_archive (id : nat) (path : string) (data : bytes) : M unit :=
  let* c := the_container id in
  match tar_members E data with
  | None => raise (APIError "put_archive")
  | Some members =>
      if Fs.isdir [] (Docker.c_fs c) path then
        match Tar.extractall [] path (Docker.c_fs c) members with
        | Raise _ => raise (APIError "put_archive")
        | Ok cfs => update_container id (Docker.set_fs cfs)
        end
      else raise (APIError "put_archive")
  end.

(** [container.exec_run(cmd, stdout=True, stderr=True)] *)
Definition exec_run (id : nat) (cmd : string) : M (Z * bytes) :=
  let* c := the_container id in
  if Docker.c_running c then
    let out := container_exec E c cmd in
    run update_container id (Docker.set_fs (files_after out)) in
    ret (returncode out, captured out)
  else raise (APIError "exec_run").

(** [container.get_archive(path)]: the bytes of the tar stream. *)
Definition get_archive (id : nat) (path : string) : M bytes :=
  let* c := the_container id in
  match Tar.add_path [] (Docker.c_fs c) path (OsPath.basename path) with
  | Raise _ => raise (APIError "get_archive")
  | Ok members => ret (tar_bytes E members)
  end.

(** [container.stop()] *)
Definition container_stop (id : nat) : M unit :=
  modify_world (fun w => set_docker (Docker.stop (docker w) id) w).

Definition PACKAGE_FILES (language : string) : option string :=
  if Str.eqb language "python" then Some "requirements.txt"
  else if Str.eqb language "nodejs" then Some "package.json"
  else None.

(** [for f in os.listdir(output_dir): tar.add(os.path.join(output_dir, f),
    arcname=f)] on the archive opened for writing at [tar_archive]. *)
Fixpoint tar_add_all (tar_archive output_dir : string)
    (added : list Tar.member) (names : list string) : M unit :=
  match names with
  | [] => ret tt
  | f :: rest =>
      let* w := get_world in
      let* ms := lift (Tar.add_path (cwd w) (fs w) (OsPath.join output_dir f) f) in
      run fs_call (fun cwd fs =>
            Fs.write_file cwd fs tar_archive (tar_bytes E (added ++ ms))) in
      tar_add_all tar_archive output_dir (added ++ ms) rest
  end.

(** The branch of [install_dependencies] that copies the files into a
    detached container and back. *)
Definition install_by_archive (image : string) (output_dir : string) : M bytes :=
  let* c := get_self in
  let* w := get_world in
  let* container := containers_run_detached image (_name c) in
  run logging INFO ("Send benchmark code from path "
                    ++ OsPath.abspath (cwd w) output_dir ++ " to Docker instance") in
  let tar_archive := OsPath.join_all output_dir [OsPath.pardir; "function.tar"] in
  run fs_call (fun cwd fs => Fs.write_file cwd fs tar_archive (tar_bytes E [])) in
  let* names := let* w := get_world in lift (Fs.listdir (cwd w) (fs w) output_dir) in
  run tar_add_all tar_archive output_dir [] names in
  let* data := let* w := get_world in lift (Fs.read_file (cwd w) (fs w) tar_archive) in
  run put_archive container "/mnt/function" data in
  let* result := exec_run container "/bin/bash installer.sh" in
  let stdout := snd result in
  let* data := get_archive container "/mnt/function" in
  run fs_call (fun cwd fs => Fs.write_file cwd fs tar_archive data) in
  let* data := let* w := get_world in lift (Fs.read_file (cwd w) (fs w) tar_archive) in
  match tar_members E data with
  | None => raise TarError
  | Some members =>
      run fs_call (fun cwd fs => Tar.extractall cwd output_dir fs members) in
      let* names :=
        let* w := get_world in
        lift (Fs.listdir (cwd w) (fs w) (OsPath.join output_dir "function")) in
      run for_each names (fun f =>
            fs_call (fun cwd fs =>
              Fs.move cwd fs (OsPath.join_all output_dir ["function"; f])
                      (OsPath.join output_dir f))) in
      run fs_call (fun cwd fs => Fs.rmtree cwd fs (OsPath.join output_dir "function")) in
      run container_stop container in
      ret stdout
  end.

Definition install_dependencies (output_dir : string) : M unit :=
  let* c := get_self in
  let deployment := _deployment_name c in
  let language := language_name c in
  if negb (Docker.has (docker_image_types (_system_config c) deployment language) "build")
  then
    logging INFO ("Docker build image for " ++ deployment ++ " run in " ++ language
                  ++ " is not available, skipping")
  else
    let repo_name := docker_repository (_system_config c) in
    let image_name :=
      ("build." ++ deployment ++ "." ++ language ++ "." ++ _language_version c)%string in
    run try_except
          (let* w := get_world in
           lift (Docker.images_get (docker w) (repo_name ++ ":" ++ image_name)))
          (fun e =>
             match e with
             | ImageNotFound _ => Some (
                 try_except
                   (run logging INFO ("Docker pull of image " ++ repo_name ++ ":"
                                      ++ image_name) in
                    let* w := get_world in
                    let* d := lift (Docker.images_pull (docker w) repo_name image_name) in
                    modify_world (set_docker d))
                   (fun e' =>
                      match e' with
                      | APIError _ => Some (raise (RuntimeError
                          ("Docker pull of image " ++ image_name ++ " failed!")))
                      | _ => None
                      end))
             | _ => None
             end) in
    let copy_build_files :=
      check_flag (_experiment_config c) "docker_copy_build_files" in
    let* w := get_world in
    let volumes :=
      if negb copy_build_files then
        let package_script :=
          OsPath.abspath (cwd w)
            (OsPath.join_all (_path c) [language; "package.sh"]) in
        Some ([(OsPath.abspath (cwd w) output_dir, ("/mnt/function", "rw"))]
              ++ (if Fs.exists_ (cwd w) (fs w) package_script
                  then [(package_script, ("/mnt/function/package.sh", "ro"))]
                  else []))
      else None in
    match PACKAGE_FILES language with
    | None => raise (KeyError language)
    | Some manifest =>
        let file := OsPath.join output_dir manifest in
        if Fs.exists_ (cwd w) (fs w) file then
          try_except
            (run logging INFO ("Docker build of benchmark dependencies in container "
                               ++ "of image " ++ repo_name ++ ":" ++ image_name) in
             let* stdout :=
               match volumes with
               | Some vols =>
                   run logging INFO ("Docker mount of benchmark code from path "
                                     ++ OsPath.abspath (cwd w) output_dir) in
                   containers_run (repo_name ++ ":" ++ image_name) (_name c) vols
               | None =>
                   install_by_archive (repo_name ++ ":" ++ image_name) output_dir
               end in
             match Utf8.decode stdout with
             | None => raise UnicodeDecodeError
             | Some text =>
                 for_each (Str.split (ascii_of_nat 10) text) (fun line =>
                   if Str.contains "size" line
                   then logging INFO ("Docker build: " ++ line)
                   else ret tt)
             end)
            (fun e =>
               match e with
               | ContainerError image status stderr => Some (
                   run logging ERROR "Package build failed!" in
                   run logging ERROR (ContainerError_str image status stderr) in
                   match volumes with
                   | Some vols =>
                       run logging ERROR ("Docker mount volumes: " ++ volumes_repr vols) in
                       raise e
                   | None => raise (UnboundLocalError "volumes")
                   end)
               | _ => None
               end)
        else ret tt
    end.

Definition recalculate_code_size : M Z :=
  let* c := get_self in
  let* w := get_world in
  let size := directory_size w (_output_dir c) in
  run modify_self (set_code_size (Some size)) in
  ret size.

(** The deployment's build step: it is handed the package, the absolute
    scratch path and the workflow flag, may work on the world, and
    answers a location and a size. *)
Definition BuildStep : Type :=
  CodePackage -> string -> bool -> World -> Res (string * Z) * World.

Definition call_build_step (step : BuildStep) (dir : string) (is_workflow : bool)
    : M (string * Z) :=
  fun s =>
    match step (self s) dir is_workflow (world s) with
    | (r, w') => (r, {| self := self s; world := w' |})
    end.

(** [serialize]: the size and the hash, read anew. *)
Definition serialize : M (Z * string) :=
  let* c := get_self in
  match _code_size c with
  | None => raise (AttributeError "_code_size")
  | Some size =>
      let* h := hash in
      ret (size, h)
  end.

(** What the cache records of the package it is handed: [serialize()] and
    the location. *)
Definition cache_entry : M Cache.payload :=
  let* sh := serialize in
  let* location := code_location in
  ret {| Cache.hash := snd sh; Cache.size := fst sh; Cache.location := location |}.

Definition build (deployment_build_step : BuildStep) (is_workflow : bool)
    : M (bool * string) :=
  let* c := get_self in
  if (_is_cached c && _is_cached_valid c)%bool then
    let* location := code_location in
    run logging INFO ("Using cached benchmark " ++ _name c ++ " at " ++ location) in
    let* location := code_location in
    ret (false, location)
  else
    let msg :=
      if negb (_is_cached c) then "no cached code package."
      else "cached code package is not up to date/build enforced." in
    run logging INFO ("Building benchmark " ++ _name c ++ ". Reason: " ++ msg) in
    run modify_self (set_payload None) in
    let output_dir := _output_dir c in
    let* there := fs_read (fun cwd fs => Fs.exists_ cwd fs output_dir) in
    run (if there then fs_call (fun cwd fs => Fs.rmtree cwd fs output_dir) else ret tt) in
    run fs_call (fun cwd fs => Fs.makedirs cwd fs output_dir) in
    run copy_code output_dir in
    run add_benchmark_data output_dir in
    run add_deployment_files output_dir is_workflow in
    run add_deployment_package output_dir in
    run install_dependencies output_dir in
    let* w := get_world in
    let* built :=
      call_build_step deployment_build_step (OsPath.abspath (cwd w) output_dir)
        is_workflow in
    run modify_self (set_code_location (Some (fst built))) in
    run modify_self (set_code_size (Some (snd built))) in
    let* h := hash in
    let* c := get_self in
    run logging INFO ("Created code package (source hash: " ++ h ++ "), for run on "
                      ++ _deployment_name c ++ " with " ++ language_name c ++ ":"
                      ++ _language_version c) in
    let* entry := cache_entry in
    run (if _is_cached c
         then modify_world (fun w =>
                set_cache (Cache.update_code_package (cache w) (_deployment_name c)
                             (language_name c) (_name c) entry) w)
         else modify_world (fun w =>
                set_cache (Cache.add_code_package (cache w) (_deployment_name c)
                             (language_name c) (_name c) entry) w)) in
    run query_cache in
    let* c := get_self in
    match _code_location c with
    | Some location => ret (true, location)
    | None => raise (AttributeError "_code_location")
    end.

End Methods.

(** ** zipfile, and the patch of one entry *)

Module Zip.

Inductive compression : Type := ZIP_STORED | ZIP_DEFLATED.

(** A [ZipInfo]. *)
Record info : Type := {
  filename : string;
  compress_type : compression
}.

(** An entry: its [ZipInfo] and the bytes it unpacks to. *)
Record entry : Type := {
  zinfo : info;
  content : bytes
}.

Record archive : Type := {
  comment : bytes;
  entries : list entry
}.

Definition name_of (e : entry) : string := filename (zinfo e).

(** [ZipFile.infolist()] *)
Definition infolist (a : archive) : list info := map zinfo (entries a).

(** [ZipFile.read(name)]: by name, which finds the entry that was written
    last under it. *)
Fixpoint read_entries (es : list entry) (name : string) : option bytes :=
  match es with
  | [] => None
  | e :: es' =>
      match read_entries es' name with
      | Some d => Some d
      | None => if Str.eqb (name_of e) name then Some (content e) else None
      end
  end.

Definition read (a : archive) (name : string) : Res bytes :=
  match read_entries (entries a) name with
  | Some d => Ok d
  | None => Raise (KeyError name)
  end.

(** [ZipFile.writestr(zinfo, data)] with a [ZipInfo]. *)
Definition writestr_info (a : archive) (zi : info) (data : bytes) : archive :=
  {| comment := comment a;
     entries := entries a ++ [{| zinfo := zi; content := data |}] |}.

(** [ZipFile.writestr(name, data)] with a name: a new [ZipInfo] that takes
    the compression of the [ZipFile]. *)
Definition writestr (a : archive) (c : compression) (name : string)
    (data : bytes) : archive :=
  writestr_info a {| filename := name; compress_type := c |} data.

Definition with_comment (a : archive) (c : bytes) : archive :=
  {| comment := c; entries := entries a |}.

(** The files by path: a zip archive, or a file that is none. *)
Inductive file : Type :=
  | Archive (a : archive)
  | NoArchive.

Abbreviation files := (gmap string file).

(** The loop of [_update_zip]: every item but [filename], read from [zin]
    by its name and written to [zout] under its [ZipInfo]. *)
Fixpoint copy_items (zin zout : archive) (filename : string)
    (items : list info) : Res archive :=
  match items with
  | [] => Ok zout
  | item :: rest =>
      if negb (Str.eqb (Zip.filename item) filename) then
        match read zin (Zip.filename item) with
        | Raise e => Raise e
        | Ok d => copy_items zin (writestr_info zout item d) filename rest
        end
      else copy_items zin zout filename rest
  end.

(** [ZipFile(name, "r")] *)
Definition open_r (fs : files) (name : string) : Res archive :=
  match fs !! name with
  | None => Raise (FileNotFoundError name)
  | Some NoArchive => Raise BadZipFile
  | Some (Archive a) => Ok a
  end.

(** [ZipFile(name, "a")]: the archive that is there; a file that holds
    none gets a new one. *)
Definition open_a (fs : files) (name : string) : archive :=
  match fs !! name with
  | Some (Archive a) => a
  | _ => {| comment := []; entries := [] |}
  end.

(** [os.remove] and [os.rename] on these files. *)
Definition remove (fs : files) (name : string) : Res files :=
  match fs !! name with
  | None => Raise (FileNotFoundError name)
  | Some _ => Ok (delete name fs)
  end.

Definition rename (fs : files) (src dst : string) : Res files :=
  match fs !! src with
  | None => Raise (FileNotFoundError src)
  | Some f => Ok (<[dst := f]> (delete src fs))
  end.

(** The static method [_update_zip]. [tempfile.mkstemp] makes an empty
    file at a path that was not there; the result keeps the files as they
    are when an exception is raised. *)
Definition _update_zip (fs : files) (zipname filename : string) (data : bytes)
    : Res unit * files :=
  let tmpname := fresh (dom fs) in
  let fs := <[tmpname := NoArchive]> fs in
  match open_r fs zipname with
  | Raise e => (Raise e, fs)
  | Ok zin =>
      let zout := {| comment := comment zin; entries := [] |} in
      let fs := <[tmpname := Archive zout]> fs in
      match copy_items zin zout filename (infolist zin) with
      | Raise e => (Raise e, fs)
      | Ok zout =>
          let fs := <[tmpname := Archive zout]> fs in
          match remove fs zipname with
          | Raise e => (Raise e, fs)
          | Ok fs =>
              match rename fs tmpname zipname with
              | Raise e => (Raise e, fs)
              | Ok fs =>
                  let zf := open_a fs zipname in
                  (Ok tt, <[zipname := Archive (writestr zf ZIP_DEFLATED filename data)]> fs)
              end
          end
      end
  end.

(** The entries under a name, the other entries, and an entry with the
    content that a read of its name finds. *)
Definition named (name : string) (e : entry) : bool := Str.eqb (name_of e) name.

Definition count_name (name : string) (es : list entry) : nat :=
  length (List.filter (named name) es).

Definition others (name : string) (es : list entry) : list entry :=
  List.filter (fun e => negb (named name e)) es.

Definition reread (zin : archive) (e : entry) : entry :=
  {| zinfo := zinfo e;
     content := default [] (read_entries (entries zin) (name_of e)) |}.

End Zip.

(** ** The validity of a cache entry, in the words of the specification *)

Inductive Validity : Type :=
  | Absent
  | Valid
  | Stale.

(** The resolver of the specification: no entry is absent; an entry is
    valid when its stored hash is the fresh one, else stale. *)
Definition classify (entry : option Cache.payload) (fresh : string) : Validity :=
  match entry with
  | None => Absent
  | Some p => if Str.eqb (Cache.hash p) fresh then Valid else Stale
  end.

(** What the two flags of a code package say. *)
Definition validity_of (c : CodePackage) : Validity :=
  if negb (_is_cached c) then Absent
  else if _is_cached_valid c then Valid else Stale.

(** ** A small installation to run the methods on *)

Module Scenario.

(** A stand-in tar format: per member a kind, the name up to a zero byte
    and, for a file, its length in unary and its bytes. *)
Definition unary (n : nat) : bytes := repeat Byte.x01 n ++ [Byte.x00].

Definition tar_member_bytes (m : Tar.member) : bytes :=
  match snd m with
  | Fs.Dir => str_encode "D" ++ str_encode (fst m) ++ [Byte.x00]
  | Fs.File d => str_encode "F" ++ str_encode (fst m) ++ [Byte.x00] ++ unary (length d) ++ d
  end.

Definition tar_bytes (ms : list Tar.member) : bytes :=
  concat (map tar_member_bytes ms).

Fixpoint until_zero (bs : bytes) : option (bytes * bytes) :=
  match bs with
  | [] => None
  | b :: r =>
      if Byte.eqb b Byte.x00 then Some ([], r)
      else match until_zero r with
           | Some (h, t) => Some (b :: h, t)
           | None => None
           end
  end.

Fixpoint tar_parse (fuel : nat) (bs : bytes) : option (list Tar.member) :=
  match fuel, bs with
  | _, [] => Some []
  | O, _ => None
  | S fuel', k :: r =>
      match until_zero r with
      | None => None
      | Some (name, r1) =>
          if Byte.eqb k Byte.x44 then
            cons (string_of_list_byte name, Fs.Dir) <$> tar_parse fuel' r1
          else if Byte.eqb k Byte.x46 then
            match until_zero r1 with
            | None => None
            | Some (len, r2) =>
                let n := length len in
                if (n <=? length r2)%nat then
                  cons (string_of_list_byte name, Fs.File (take n r2))
                    <$> tar_parse fuel' (drop n r2)
                else None
            end
          else None
      end
  end.

Definition tar_members (bs : bytes) : option (list Tar.member) :=
  tar_parse (length bs) bs.

(** Texts with double quotes in them. *)
Definition q (s : string) : string :=
  String (ascii_of_nat 34) s ++ String (ascii_of_nat 34) EmptyString.

Definition config_json : string :=
  "{" ++ q "timeout" ++ ": 10, " ++ q "memory" ++ ": 128, " ++ q "languages"
  ++ ": [" ++ q "python" ++ ", " ++ q "nodejs" ++ "]}".

Definition config_object : Json.t :=
  Json.Obj [("timeout", Json.Num "10"); ("memory", Json.Num "128");
            ("languages", Json.Arr [Json.Str "python"; Json.Str "nodejs"])].

Definition package_json : string :=
  "{" ++ q "dependencies" ++ ": {}}".

(** A stand-in json codec: the texts of this installation. *)
Definition json_loads (text : bytes) : option Json.t :=
  if Str.eqb (string_of_list_byte text) config_json then Some config_object
  else if Str.eqb (string_of_list_byte text) package_json
  then Some (Json.Obj [("dependencies", Json.Obj [])])
  else None.

Definition json_dumps (_ : Json.t) : bytes := str_encode "{}".

Definition find_package_code (name path : string) (w : World) : option string :=
  let p := ("/sebs/" ++ path ++ "/" ++ name)%string in
  if Fs.isdir (cwd w) (fs w) p then Some p else None.

(** The setup script of the benchmark: it complains on standard error,
    leaves one data file in the directory it is given, and fails. *)
Definition shell (cmd : string) (cwd : Fs.loc) (files : Fs.t) : Completed :=
  {| returncode := 1;
     written := [(Stdout, str_encode "preparing"); (Stderr, str_encode "cannot fetch data")];
     files_after :=
       if Fs.is_dir files ["out"; "bench_code"]
       then Fs.store files ["out"; "bench_code"; "data.bin"] (Fs.File (str_encode "x"))
       else files |}.

(** The images: all but the bare one come with the directory that the
    code is sent to. *)
Definition image_rootfs (image : string) : Fs.t :=
  if Str.contains "bare" image then []
  else [(["mnt"], Fs.Dir); (["mnt"; "function"], Fs.Dir)].

(** The build image run on the mounted directory: one installed module. *)
Definition container_main (image app : string)
    (volumes : list (string * (string * string))) (files : Fs.t) : Completed :=
  {| returncode := 0;
     written := [(Stdout, str_encode ("installed" ++ newline ++ "size 10M"))];
     files_after := Fs.store files ["out"; "bench_code"; "lib.py"] (Fs.File (str_encode "lib")) |}.

(** The install script run inside a detached container: it installs one
    module, complains, and exits with the status the image name asks for. *)
Definition container_exec (c : Docker.container) (cmd : string) : Completed :=
  {| returncode := if Str.contains "broken" (Docker.c_image c) then 2 else 0;
     written := [(Stderr, str_encode "warning"); (Stdout, str_encode "size 10M")];
     files_after :=
       Fs.store (Docker.c_fs c) ["mnt"; "function"; "lib.py"] (Fs.File (str_encode "lib")) |}.

Definition externals : Externals :=
  Build_Externals string_of_list_byte find_package_code (OsPath.join_all "/sebs")
    json_loads json_dumps tar_bytes tar_members shell image_rootfs
    container_main container_exec.

Definition dirs (ls : list Fs.loc) : Fs.t := map (fun l => (l, Fs.Dir)) ls.

Definition bench : Fs.loc := ["sebs"; "benchmarks"; "bench"].
Definition wrappers : Fs.loc := ["sebs"; "benchmarks"; "wrappers"; "aws"].

Definition files : Fs.t :=
  dirs [["sebs"]; ["sebs"; "benchmarks"]; bench; bench ++ ["python"];
        bench ++ ["nodejs"];
        ["sebs"; "benchmarks"; "wrappers"]; wrappers; wrappers ++ ["python"];
        wrappers ++ ["nodejs"]; ["out"]; ["cache"]]
  ++ [(bench ++ ["config.json"], Fs.File (str_encode config_json));
      (bench ++ ["init.sh"], Fs.File (str_encode "exit 1"));
      (bench ++ ["python"; "function.py"], Fs.File (str_encode "def handler(event): pass"));
      (bench ++ ["python"; "requirements.txt"], Fs.File (str_encode "numpy"));
      (bench ++ ["nodejs"; "function.js"], Fs.File (str_encode "exports.handler = 0"));
      (wrappers ++ ["python"; "handler_function.py"], Fs.File (str_encode "# function"));
      (wrappers ++ ["python"; "handler_workflow.py"], Fs.File (str_encode "# workflow"));
      (wrappers ++ ["python"; "storage.py"], Fs.File (str_encode "# storage"));
      (wrappers ++ ["nodejs"; "handler_function.js"], Fs.File (str_encode "// function"));
      (wrappers ++ ["nodejs"; "handler_workflow.js"], Fs.File (str_encode "// workflow"))].

Definition system_config (repository : string) : SeBSConfig :=
  {| deployment_files := fun _ language =>
       if Str.eqb language "python"
       then ["handler_function.py"; "handler_workflow.py"; "storage.py"]
       else ["handler_function.js"; "handler_workflow.js"];
     deployment_packages := fun _ language =>
       if Str.eqb language "python" then PkgList ["boto3"] else PkgDict [];
     docker_image_types := fun _ _ => ["build"; "run"];
     docker_repository := repository |}.

Definition experiment (language : Language) (update copy_files : bool)
    : ExperimentConfig :=
  {| update_code := update;
     check_flag := fun key =>
       (Str.eqb key "docker_copy_build_files" && copy_files)%bool;
     runtime_language := language;
     runtime_version := "3.7" |}.

Definition daemon : Docker.t :=
  {| Docker.images := ["sebs:build.aws.python.3.7"; "broken:build.aws.python.3.7";
                       "bare:build.aws.python.3.7"];
     Docker.registry := ["sebs:build.aws.nodejs.3.7"];
     Docker.containers := [] |}.

Definition empty_cache : Cache.t :=
  {| Cache.cache_dir := "/cache"; Cache.code_packages := ∅; Cache.benchmarks := ∅ |}.

Definition world0 : World :=
  {| cwd := ["sebs"]; fs := files; cache := empty_cache; docker := daemon; log := [] |}.

(** The digest of the python sources and wrappers of [files], and a
    cache that holds a package built from them. *)
Definition source_digest : string :=
  "def handler(event): passnumpy# function# workflow# storage".

Definition cached_entry : Cache.payload :=
  {| Cache.hash := source_digest; Cache.size := 59;
     Cache.location := "bench/aws/python/code" |}.

Definition world_cached : World :=
  set_cache (Cache.add_code_package empty_cache "aws" "python" "bench" cached_entry)
    world0.

(** The package that [__init__] makes in [world_cached]. *)
Definition cached_package (update : bool) : CodePackage :=
  set_is_cached_valid (negb update)
    (set_is_cached true
       (set_code_size (Some 59%Z)
          (set_hash_value (Some source_digest)
             (set_payload (Some cached_entry)
                (fresh_package "bench" "aws" (experiment PYTHON update false)
                   (system_config "sebs") "/out" "/sebs/benchmarks/bench"
                   {| timeout := Json.Num "10"; memory := Json.Num "128";
                      languages := [PYTHON; NODEJS] |}))))).

(** A new package of the benchmark, for a deployment on aws. *)
Definition new_package (repository : string) (language : Language)
    (update copy_files : bool) (w : World) : Res CodePackage * World :=
  init externals "bench" "aws" (experiment language update copy_files)
    (system_config repository) "/out" w.

(** The build step of a deployment that ships the directory as it is. *)
Definition ship_directory : BuildStep :=
  fun c dir _ w => (Ok (dir, directory_size w dir), w).

(** The story of a forced rebuild: the validity at construction, the
    first build, the validity after it, and a second build. *)
Definition forced_rebuild_story
    : option (Validity * Res (bool * string) * Validity * Res (bool * string)) :=
  match new_package "sebs" PYTHON true false world_cached with
  | (Ok c, w) =>
      let first := build externals ship_directory false {| self := c; world := w |} in
      let second := build externals ship_directory false (snd first) in
      Some (validity_of c, fst first, validity_of (self (snd first)), fst second)
  | (Raise _, _) => None
  end.

(** The world with an empty scratch directory, and a package in it. *)
Definition world_scratch : World :=
  set_fs (files ++ dirs [["out"; "bench_code"]]) world0.

(** The first world after a build has filled the scratch directory with
    files that carry the names of the sources. *)
Definition world_built : World :=
  set_fs (fs world_scratch
          ++ [(["out"; "bench_code"; "function.py"],
               Fs.File (str_encode "def handler(event): return 1"));
              (["out"; "bench_code"; "requirements.txt"],
               Fs.File (str_encode "numpy" ++ str_encode newline ++ str_encode "boto3"));
              (["out"; "bench_code"; "handler.py"], Fs.File (str_encode "# function"))])
         world_scratch.

Definition scratch (repository : string) (language : Language)
    (copy_files : bool) : St :=
  {| self := fresh_package "bench" "aws" (experiment language false copy_files)
               (system_config repository) "/out" "/sebs/benchmarks/bench"
               {| timeout := Json.Num "10"; memory := Json.Num "128";
                  languages := [PYTHON; NODEJS] |};
     world := world_scratch |}.

(** A zip file with two entries under one name, and a patch for it. *)
Definition entry_of (name content : string) : Zip.entry :=
  {| Zip.zinfo := {| Zip.filename := name; Zip.compress_type := Zip.ZIP_STORED |};
     Zip.content := str_encode content |}.

Definition twice_a : Zip.archive :=
  {| Zip.comment := str_encode "built by sebs";
     Zip.entries := [entry_of "a" "1"; entry_of "a" "2"; entry_of "t" "old"] |}.

Definition packages : Zip.files := {[ "/cache/pkg.zip" := Zip.Archive twice_a ]}.

(** The scratch directory with a dependency manifest in it. *)
Definition with_manifest (s : St) : St :=
  {| self := self s;
     world := set_fs (Fs.store (fs (world s)) ["out"; "bench_code"; "requirements.txt"]
                        (Fs.File (str_encode "numpy"))) (world s) |}.

(** A build image whose install script fails in the mounted directory. *)
Definition container_fails (image app : string)
    (volumes : list (string * (string * string))) (files : Fs.t) : Completed :=
  {| returncode := 1;
     written := [(Stdout, str_encode "collecting numpy");
                 (Stderr, str_encode "no space left")];
     files_after := files |}.

Definition externals_failing : Externals :=
  Build_Externals string_of_list_byte find_package_code (OsPath.join_all "/sebs")
    json_loads json_dumps tar_bytes tar_members shell image_rootfs
    container_fails container_exec.

(** The installation with another digest function. *)
Definition with_digest (digest : bytes -> string) : Externals :=
  Build_Externals digest find_package_code (OsPath.join_all "/sebs")
    json_loads json_dumps tar_bytes tar_members shell image_rootfs
    container_main container_exec.

(** The first world with the python source under another name, and the
    end of its text moved to the head of the requirements. *)
Definition world_renamed : World :=
  set_fs (Fs.store
            (map (fun e => if Fs.loc_eqb (fst e) (bench ++ ["python"; "function.py"])
                           then (bench ++ ["python"; "main.py"],
                                 Fs.File (str_encode "def handler(event): "))
                           else e) files)
            (bench ++ ["python"; "requirements.txt"])
            (Fs.File (str_encode "passnumpy")))
         world0.

(** A deployment that asks for one package of its own for nodejs, and the
    scratch directory of a nodejs package with its manifest. *)
Definition node_config : SeBSConfig :=
  {| deployment_files := fun _ _ => ["handler_function.js"; "handler_workflow.js"];
     deployment_packages := fun _ _ => PkgDict [("uuid", "3.4.0")];
     docker_image_types := fun _ _ => ["build"; "run"];
     docker_repository := "sebs" |}.

Definition node_scratch : St :=
  {| self := fresh_package "bench" "aws" (experiment NODEJS false false)
               node_config "/out" "/sebs/benchmarks/bench"
               {| timeout := Json.Num "10"; memory := Json.Num "128";
                  languages := [PYTHON; NODEJS] |};
     world := set_fs (Fs.store (fs world_scratch) ["out"; "bench_code"; "package.json"]
                        (Fs.File (str_encode package_json))) world_scratch |}.

End Scenario.

(** ** What the steps are expected to leave *)

Section Expected.

Variable E : Externals.

(** A setup script, when it is there, is run on the files; what it wrote
    on either stream goes to the log; its exit status is not looked at. *)
Definition after_script (output_dir path : string) (w : World) : World :=
  if Fs.exists_ (cwd w) (fs w) (OsPath.join path "init.sh") then
    let out := shell E ("/bin/bash " ++ path ++ "/init.sh " ++ output_dir ++ " false")
                 (cwd w) (fs w) in
    set_log (log w ++ [(DEBUG, string_of_list_byte (captured out))])
      (set_fs (files_after out) w)
  else w.

(** The build image of a package: [repository:build.<deployment>.<language>.<version>]. *)
Definition image_name (c : CodePackage) : string :=
  "build." ++ _deployment_name c ++ "." ++ language_name c ++ "."
  ++ _language_version c.

Definition build_image (c : CodePackage) : string :=
  docker_repository (_system_config c) ++ ":" ++ image_name c.

(** No build image is configured, or it is there, or a pull brings it. *)
Definition image_at_hand (c : CodePackage) (d : Docker.t) : bool :=
  (negb (Docker.has (docker_image_types (_system_config c) (_deployment_name c)
                       (language_name c)) "build")
   || Docker.has (Docker.images d) (build_image c)
   || Docker.has (Docker.registry d) (build_image c))%bool.

End Expected.

(** The dependency manifest of a language. *)
Definition manifest_of (l : Language) : string :=
  match l with
  | PYTHON => "requirements.txt"
  | NODEJS => "package.json"
  end.

(** ** Steps that leave the containers alone *)

(** A step is steady when it leaves every container's image, application
    and run state as they are. *)
Definition steady (s s' : St) : Prop :=
  Docker.statuses (docker (world s')) = Docker.statuses (docker (world s)).

Definition keeps {A} (m : M A) : Prop :=
  forall s r s', m s = (r, s') -> steady s s'.

Create HintDb keeps.

(** ** The entry-point wrappers *)

(** The loop of [add_deployment_files] that copies the deployment files of
    package [c] into the directory. *)
Definition copy_handlers (E : Externals) (c : CodePackage) (output_dir : string)
    : M unit :=
  for_each
    (map (OsPath.join
            (project_absolute_path E
               ["benchmarks"; "wrappers"; _deployment_name c; language_name c]))
         (deployment_files (_system_config c) (_deployment_name c) (language_name c)))
    (fun file => fs_call (fun cwd fs => Fs.copy2 cwd fs file output_dir)).

(** The entry point and its two variants, for a file extension, and which
    of them are in a directory. *)
Definition wrapper_files (ext : string) : list string :=
  [("handler" ++ ext)%string; ("handler_function" ++ ext)%string;
   ("handler_workflow" ++ ext)%string].

Definition wrappers_present (w : World) (output_dir ext : string) : list string :=
  List.filter (fun name => Fs.exists_ (cwd w) (fs w) (OsPath.join output_dir name))
              (wrapper_files ext).

(** ** The volumes of a mounted build *)

(** What [install_dependencies] mounts into the build container: the
    scratch directory, and the packaging script of the benchmark when
    there is one. *)
Definition mount_volumes (c : CodePackage) (w : World) (output_dir : string)
    : list (string * (string * string)) :=
  let package_script :=
    OsPath.abspath (cwd w)
      (OsPath.join_all (_path c) [language_name c; "package.sh"]) in
  [(OsPath.abspath (cwd w) output_dir, ("/mnt/function", "rw"))]
  ++ (if Fs.exists_ (cwd w) (fs w) package_script
      then [(package_script, ("/mnt/function/package.sh", "ro"))]
      else []).

(** The text [add_deployment_package_python] appends for a list of
    packages: an empty line's end, then one line for each package. *)
Definition requirement_lines (packages : list string) : string :=
  (newline ++ String.concat "" (map (fun p : string => (p ++ newline)%string) packages))%string.

(** * The fission wrapper of a python function

    A shallow embedding of [benchmarks/wrappers/fission/python/handler.py]:
    the process that serves the requests keeps its working directory, its
    files and its log from one request to the next. *)

Module Fission.

(** What comes from outside the wrapper: the benchmark function with what
    it does to the files, [json.loads], [str] of a value, and the readings
    of the clock in turn, in microseconds. *)
Record App : Type := {
  function_handler : Json.t -> Fs.loc -> Fs.t -> Res Json.t * Fs.t;
  loads : string -> option Json.t;
  str : Json.t -> string;
  now : nat -> Z
}.

Record Process : Type := {
  cwd : Fs.loc;
  fs : Fs.t;
  log : list string;
  readings : nat
}.

(** The dict that is serialised into the reply; [begin] and [end] are
    kept as the readings of the clock, [results_time] in microseconds. *)
Record Reply : Type := {
  begin : Z;
  end_ : Z;
  results_time : Z;
  is_cold : bool;
  result : list (string * Json.t)
}.

Definition info (msg : string) (p : Process) : Process :=
  {| cwd := cwd p; fs := fs p; log := log p ++ [msg]; readings := readings p |}.

Definition tick (p : Process) : Process :=
  {| cwd := cwd p; fs := fs p; log := log p; readings := S (readings p) |}.

Definition with_fs (f : Fs.t) (p : Process) : Process :=
  {| cwd := cwd p; fs := f; log := log p; readings := readings p |}.

Definition fname : string := "cold_run".

(** [handler()] for a request with the given body. *)
Definition handler (app : App) (body : bytes) (p : Process) : Res Reply * Process :=
  match Utf8.decode body with
  | None => (Raise UnicodeDecodeError, p)
  | Some text =>
      let p := info ("Body: " ++ text) p in
      match loads app text with
      | None => (Raise JSONDecodeError, p)
      | Some event =>
          let p := info ("Event: " ++ str app event) p in
          let begin_ := now app (readings p) in
          let p := tick p in
          match function_handler app event (cwd p) (fs p) with
          | (Raise e, files) => (Raise e, with_fs files p)
          | (Ok ret, files) =>
              let p := with_fs files p in
              let end_ := now app (readings p) in
              let p := tick p in
              let p := info ("Function result: " ++ str app ret) p in
              match ret with
              | Json.Obj fields =>
                  match Json.get "result" fields with
                  | None => (Raise (KeyError "result"), p)
                  | Some r =>
                      let log_data :=
                        ("result", r)
                        :: match Json.get "measurement" fields with
                           | Some m => [("measurement", m)]
                           | None => []
                           end in
                      let reply cold :=
                        {| begin := begin_; end_ := end_;
                           results_time := (end_ - begin_)%Z;
                           is_cold := cold; result := log_data |} in
                      if Fs.exists_ (cwd p) (fs p) fname then (Ok (reply false), p)
                      else
                        match Fs.append_file (cwd p) (fs p) fname [] with
                        | Raise e => (Raise e, p)
                        | Ok files' => (Ok (reply true), with_fs files' p)
                        end
                  end
              | _ => (Raise TypeError, p)
              end
          end
      end
  end.

(** The benchmark function leaves the marker of the wrapper alone. *)
Definition keeps_marker (app : App) : Prop :=
  forall event c files,
    Fs.exists_ c files fname = true ->
    Fs.exists_ c (snd (function_handler app event c files)) fname = true.

(** A function that answers its event, in a process that starts in an
    empty directory. *)
Definition echo : App :=
  {| function_handler := fun event _ files =>
       (Ok (Json.Obj [("result", event); ("measurement", Json.Num "1")]), files);
     loads := fun text => Some (Json.Str text);
     str := fun _ => "...";
     now := fun n => (1000 * Z.of_nat n)%Z |}.

Definition fresh_process : Process :=
  {| cwd := ["userfunc"]; fs := [(["userfunc"], Fs.Dir)]; log := []; readings := 0 |}.

End Fission.

(** ** The source tree of a content hash *)

Module Tree.

(** The entries of a file system at the locations a region holds, in scan
    order. *)
Definition restrict (region : Fs.loc -> bool) (fs : Fs.t) : Fs.t :=
  List.filter (fun e => region (fst e)) fs.

(** Every entry is listed under plain names, as a directory scan reports
    them: no name is empty, a dot name, or holds a slash. *)
Definition plain_names (fs : Fs.t) : bool :=
  forallb (fun e => forallb OsPath.plain (fst e)) fs.

(** The path [p] spells the location [l]: absolute, one plain name for each
    step, no wildcard. *)
Definition spells (p : string) (l : Fs.loc) : bool :=
  (bool_decide (Str.split OsPath.sep p = "" :: l)
   && forallb OsPath.plain l
   && negb (Glob.has_magic p)
   && negb (bool_decide (l = [])))%bool.

(** The source tree of a benchmark for one deployment: the language
    directory and the directory of the wrappers, each with what is under it
    and the directories that lead to it, and the workflow definition next
    to the language directory. *)
Definition source_tree (directory wrappers : Fs.loc) (l : Fs.loc) : bool :=
  (bool_decide (l `prefix_of` directory)
   || bool_decide (directory `prefix_of` l)
   || bool_decide (l `prefix_of` wrappers)
   || bool_decide (wrappers `prefix_of` l)
   || bool_decide (l = Fs.parent directory ++ ["definition.json"]))%bool.

End Tree.

(** * Properties *)

(** ** The method monad *)

Lemma bind_inv {A B} (m : M A) (f : A -> M B) (s s' : St) (b : B) :
  bind m f s = (Ok b, s') ->
  exists a s1, m s = (Ok a, s1) /\ f a s1 = (Ok b, s').
Proof.
  unfold bind. destruct (m s) as [[a|e] s1]; [eauto|discriminate].
Qed.

(** ** The content hash *)

Section HashFacts.

Variable E : Externals.

(** Feeding the digest reads the files and nothing else of the world. *)
Lemma feed_files_only (w w' : World) (paths : list string) :
  cwd w = cwd w' -> fs w = fs w' ->
  forall fed, feed w fed paths = feed w' fed paths.
Proof.
  intros Hc Hf. induction paths as [|p rest IH]; intros fed; simpl.
  - reflexivity.
  - rewrite Hc, Hf. destruct (Fs.read_file _ _ p); [apply IH | reflexivity].
Qed.

Lemma hash_directory_files_only (w w' : World) (directory deployment language : string) :
  cwd w = cwd w' -> fs w = fs w' ->
  hash_directory E w directory deployment language
  = hash_directory E w' directory deployment language.
Proof.
  intros Hc Hf. unfold hash_directory.
  destruct (FILES language); [|reflexivity].
  rewrite (feed_files_only w w' _ Hc Hf), Hc, Hf.
  destruct (feed w' [] _) as [fed1|]; [|reflexivity].
  rewrite (feed_files_only w w' _ Hc Hf).
  destruct (if Fs.exists_ _ _ _ then _ else _) as [fed2|]; [|reflexivity].
  destruct (WRAPPERS language); [|reflexivity].
  now rewrite (feed_files_only w w' _ Hc Hf).
Qed.

(** What a read of the property [hash] does, in one equation. *)
Lemma hash_eq (s : St) :
  hash E s =
  match hash_directory E (world s)
          (OsPath.join (_path (self s)) (language_name (self s)))
          (_deployment_name (self s)) (language_name (self s)) with
  | Ok h => (Ok h, {| self := set_hash_value (Some h) (self s); world := world s |})
  | Raise e => (Raise e, s)
  end.
Proof.
  unfold hash, bind, get_self, get_world, lift, modify_self, ret; simpl.
  destruct (hash_directory _ _ _ _ _); reflexivity.
Qed.

End HashFacts.

(** ** The cache query *)

(** [query_cache] in one equation. *)
Lemma query_cache_eq (E : Externals) (s : St) :
  query_cache E s =
  let c := self s in
  let w := world s in
  let c1 :=
    set_benchmarks
      (Cache.get_benchmarks (cache w) (_deployment_name c) (_name c) (language_name c))
      (set_payload
         (Cache.get_code_package (cache w) (_deployment_name c) (_name c)
            (language_name c)) c) in
  match Cache.get_code_package (cache w) (_deployment_name c) (_name c)
          (language_name c) with
  | None =>
      (Ok tt, {| self := set_is_cached_valid false (set_is_cached false c1);
                 world := w |})
  | Some p =>
      match hash_directory E w (OsPath.join (_path c) (language_name c))
              (_deployment_name c) (language_name c) with
      | Ok h =>
          (Ok tt,
           {| self := set_is_cached_valid (Str.eqb h (Cache.hash p))
                        (set_is_cached true
                           (set_code_size (Some (Cache.size p))
                              (set_hash_value (Some h) c1)));
              world := w |})
      | Raise e => (Raise e, {| self := c1; world := w |})
      end
  end.
Proof.
  unfold query_cache, bind at 1 2 3 4 5. unfold get_self, get_world, modify_self. simpl.
  destruct (Cache.get_code_package _ _ _ _) as [p|] eqn:Hentry.
  - unfold bind at 1. rewrite hash_eq. simpl.
    destruct (hash_directory E (world s) _ _ _) as [fresh|e]; reflexivity.
  - reflexivity.
Qed.

(** C10. The setter of [hash] has no effect on a later read: the read
    recomputes the digest of the language directory, whatever was
    assigned, and when it succeeds it leaves the package as a read without
    the assignment does. *)
Theorem hash_setter_without_effect (E : Externals) (s : St) (v : string) :
  fst (hash E (snd (hash_setter v s))) = fst (hash E s)
  /\ fst (hash E (snd (hash_setter v s)))
     = hash_directory E (world s)
         (OsPath.join (_path (self s)) (language_name (self s)))
         (_deployment_name (self s)) (language_name (self s))
  /\ match fst (hash E s) with
     | Ok _ => snd (hash E (snd (hash_setter v s))) = snd (hash E s)
     | Raise _ => True
     end.
Proof.
  rewrite !hash_eq. unfold hash_setter, modify_self; simpl.
  destruct (hash_directory E (world s) _ _ _) as [h|e]; simpl; repeat split.
Qed.

(** C2. The classification of [query_cache]: without an entry the package
    is absent, both flags false, and no hash is computed (the stored digest
    stays as it was and the files are not consulted); with an entry it is
    valid exactly when the stored hash is the fresh one, stale otherwise. *)
Theorem query_cache_classification (E : Externals) (s : St) :
  let c := self s in
  let w := world s in
  let entry := Cache.get_code_package (cache w) (_deployment_name c) (_name c)
                 (language_name c) in
  match entry with
  | None =>
      exists s', query_cache E s = (Ok tt, s')
        /\ _is_cached (self s') = false /\ _is_cached_valid (self s') = false
        /\ validity_of (self s') = Absent
        /\ _hash_value (self s') = _hash_value c /\ world s' = w
  | Some p =>
      match hash_directory E w (OsPath.join (_path c) (language_name c))
              (_deployment_name c) (language_name c) with
      | Ok fresh =>
          exists s', query_cache E s = (Ok tt, s')
            /\ _is_cached (self s') = true
            /\ _is_cached_valid (self s') = bool_decide (fresh = Cache.hash p)
            /\ validity_of (self s') = classify entry fresh
            /\ _hash_value (self s') = Some fresh /\ world s' = w
      | Raise e => fst (query_cache E s) = Raise e
      end
  end.
Proof.
  intros c w entry. subst c w entry. rewrite query_cache_eq. simpl.
  destruct (Cache.get_code_package _ _ _ _) as [p|] eqn:Hentry.
  - destruct (hash_directory E (world s) _ _ _) as [fresh|e]; [|reflexivity].
    eexists. split; [reflexivity|]. simpl.
    unfold validity_of, classify, Str.eqb. simpl.
    repeat split.
    destruct (bool_decide (fresh = Cache.hash p)) eqn:Hb.
    + apply bool_decide_eq_true in Hb. subst fresh.
      now rewrite bool_decide_eq_true_2.
    + apply bool_decide_eq_false in Hb.
      rewrite bool_decide_eq_false_2; [reflexivity | congruence].
  - eexists. split; [reflexivity|]. simpl. repeat split.
Qed.

(** ** The constructor and the cached build *)

(** A package that [__init__] returns is what [query_cache] made of the
    fresh attributes, with the validity flag cleared when the experiment
    asks for a rebuild. *)
Lemma init_ok (E : Externals) (name deployment_name : string)
    (config : ExperimentConfig) (system_config : SeBSConfig) (output_dir : string)
    (w w1 : World) (c : CodePackage) :
  init E name deployment_name config system_config output_dir w = (Ok c, w1) ->
  exists path cfg s1,
    find_package_code E name "benchmarks" w = Some path
    /\ query_cache E {| self := fresh_package name deployment_name config system_config
                                  output_dir path cfg;
                        world := w |} = (Ok tt, s1)
    /\ w1 = world s1
    /\ c = if update_code config then set_is_cached_valid false (self s1) else self s1.
Proof.
  unfold init. intros H.
  destruct (find_package_code E name "benchmarks" w) as [path|] eqn:Hfind;
    [|discriminate H].
  destruct path as [|a path']; [discriminate H|].
  destruct (Fs.read_file _ _ _) as [text|]; [|discriminate H].
  destruct (json_loads E text) as [j|]; [|discriminate H].
  destruct (CodePackageConfig_deserialize j) as [cfg|]; [|discriminate H].
  destruct (negb _); [discriminate H|].
  exists (String a path'), cfg.
  unfold bind in H.
  destruct (query_cache E _) as [[[]|e] s1] eqn:Hq.
  - exists s1. split; [reflexivity|]. split; [reflexivity|].
    destruct (update_code config); unfold modify_self, ret in H; simpl in H;
      inversion H; subst; auto.
  - discriminate H.
Qed.

(** [build] on a package whose two flags are set and whose payload is
    there: a log line and the recorded location. *)
Lemma build_cached (E : Externals) (step : BuildStep) (is_workflow : bool)
    (s : St) (p : Cache.payload) :
  _is_cached (self s) = true -> _is_cached_valid (self s) = true ->
  _payload (self s) = Some p ->
  let location := OsPath.join (Cache.cache_dir (cache (world s))) (Cache.location p) in
  build E step is_workflow s =
  (Ok (false, location),
   {| self := self s;
      world := set_log (log (world s)
                        ++ [(INFO, ("Using cached benchmark " ++ _name (self s)
                                    ++ " at " ++ location)%string)]) (world s) |}).
Proof.
  intros Hc Hv Hp location. subst location.
  unfold build, bind at 1. unfold get_self at 1. rewrite Hc, Hv. simpl.
  cbv [bind code_location get_self get_world logging modify_world ret].
  rewrite Hp. simpl. rewrite Hp. reflexivity.
Qed.

(** C1. Cache correctness: a package constructed while the cache holds an
    entry whose stored hash is the freshly computed one, without the
    rebuild flag, is not rebuilt: [build] answers [(False, recorded
    location)] and leaves the world as it was but for one log line, so the
    scratch directory is neither removed nor made, no step of the pipeline
    runs, and the build step is not called. *)
Theorem build_reuses_valid_cache (E : Externals) (name deployment_name : string)
    (config : ExperimentConfig) (system_config : SeBSConfig) (output_dir : string)
    (w w1 : World) (c : CodePackage) (path : string) (p : Cache.payload)
    (step : BuildStep) (is_workflow : bool) :
  let language := Language_value (runtime_language config) in
  init E name deployment_name config system_config output_dir w = (Ok c, w1) ->
  find_package_code E name "benchmarks" w = Some path ->
  Cache.get_code_package (cache w) deployment_name name language = Some p ->
  hash_directory E w (OsPath.join path language) deployment_name language
  = Ok (Cache.hash p) ->
  update_code config = false ->
  let location := OsPath.join (Cache.cache_dir (cache w)) (Cache.location p) in
  w1 = w
  /\ build E step is_workflow {| self := c; world := w1 |} =
     (Ok (false, location),
      {| self := c;
         world := set_log (log w ++ [(INFO, ("Using cached benchmark " ++ name
                                             ++ " at " ++ location)%string)]) w |})
  /\ fs (world (snd (build E step is_workflow {| self := c; world := w1 |}))) = fs w.
Proof.
  intros language Hinit Hfind Hentry Hhash Hflag location.
  destruct (init_ok _ _ _ _ _ _ _ _ _ Hinit) as (path' & cfg & s1 & Hfind' & Hq & -> & ->).
  rewrite Hfind in Hfind'. injection Hfind' as <-.
  rewrite Hflag. rewrite query_cache_eq in Hq. simpl in Hq.
  unfold language_name in Hq. simpl in Hq. fold language in Hq.
  rewrite Hentry, Hhash in Hq. injection Hq as <-. simpl.
  split; [reflexivity|].
  rewrite (build_cached E step is_workflow _ p); simpl; try reflexivity.
  - split; reflexivity.
  - unfold Str.eqb. now rewrite bool_decide_eq_true_2.
Qed.

Lemma build_reuses_valid_cache_witness :
  init Scenario.externals "bench" "aws" (Scenario.experiment PYTHON false false)
    (Scenario.system_config "sebs") "/out" Scenario.world_cached
  = (Ok (Scenario.cached_package false), Scenario.world_cached)
  /\ build Scenario.externals Scenario.ship_directory false
       {| self := Scenario.cached_package false; world := Scenario.world_cached |}
     = (Ok (false, "/cache/bench/aws/python/code"),
        {| self := Scenario.cached_package false;
           world := set_log [(INFO, "Using cached benchmark bench at /cache/bench/aws/python/code")]
                      Scenario.world_cached |}).
Proof.
  assert (Hinit : init Scenario.externals "bench" "aws"
                    (Scenario.experiment PYTHON false false)
                    (Scenario.system_config "sebs") "/out" Scenario.world_cached
                  = (Ok (Scenario.cached_package false), Scenario.world_cached))
    by (vm_compute; reflexivity).
  split; [exact Hinit|].
  apply (build_reuses_valid_cache Scenario.externals "bench" "aws"
           (Scenario.experiment PYTHON false false) (Scenario.system_config "sebs")
           "/out" Scenario.world_cached Scenario.world_cached
           (Scenario.cached_package false) "/sebs/benchmarks/bench"
           Scenario.cached_entry Scenario.ship_directory false Hinit);
    vm_compute; reflexivity.
Defined.

(** ** The rebuild flag *)

(** C3, as the code has it. With the rebuild flag set, [__init__] clears
    the validity flag after its cache query, so a package as constructed
    is never valid and its [build] never answers the cached location: when
    it returns, it has rebuilt. *)
Theorem forced_rebuild_at_construction (E : Externals) (name deployment_name : string)
    (config : ExperimentConfig) (system_config : SeBSConfig) (output_dir : string)
    (w w1 : World) (c : CodePackage) :
  init E name deployment_name config system_config output_dir w = (Ok c, w1) ->
  update_code config = true ->
  _is_cached_valid c = false
  /\ validity_of c <> Valid
  /\ (forall step is_workflow r s',
        build E step is_workflow {| self := c; world := w1 |} = (Ok r, s') ->
        fst r = true).
Proof.
  intros Hinit Hflag.
  destruct (init_ok _ _ _ _ _ _ _ _ _ Hinit) as (path & cfg & s1 & _ & _ & -> & ->).
  rewrite Hflag. split; [reflexivity|]. split.
  - unfold validity_of. simpl. destruct (negb _); discriminate.
  - intros step is_workflow r s' H.
    unfold build in H. apply bind_inv in H as (c0 & s0 & [= <- <-] & H).
    simpl in H. rewrite andb_false_r in H.
    repeat (apply bind_inv in H as (? & ? & _ & H)).
    destruct (_code_location _); [|discriminate H].
    now injection H as <- _.
Qed.

Lemma forced_rebuild_at_construction_witness :
  init Scenario.externals "bench" "aws" (Scenario.experiment PYTHON true false)
    (Scenario.system_config "sebs") "/out" Scenario.world_cached
  = (Ok (Scenario.cached_package true), Scenario.world_cached)
  /\ update_code (Scenario.experiment PYTHON true false) = true
  /\ _is_cached_valid (Scenario.cached_package true) = false
  /\ fst (build Scenario.externals Scenario.ship_directory false
            {| self := Scenario.cached_package true; world := Scenario.world_cached |})
     = Ok (true, "/out/bench_code").
Proof.
  assert (Hinit : init Scenario.externals "bench" "aws"
                    (Scenario.experiment PYTHON true false)
                    (Scenario.system_config "sebs") "/out" Scenario.world_cached
                  = (Ok (Scenario.cached_package true), Scenario.world_cached))
    by (vm_compute; reflexivity).
  destruct (forced_rebuild_at_construction Scenario.externals "bench" "aws"
              (Scenario.experiment PYTHON true false) (Scenario.system_config "sebs")
              "/out" Scenario.world_cached Scenario.world_cached
              (Scenario.cached_package true) Hinit eq_refl) as (Hflag & _ & _).
  split; [exact Hinit|]. split; [reflexivity|]. split; [exact Hflag|].
  vm_compute. reflexivity.
Defined.

(** C3 fails as stated: the query that [build] runs after a rebuild sets
    the validity anew without looking at the flag, so that a second [build]
    of the same package, the flag still set, answers the cached location. *)
Lemma forced_rebuild_not_repeated :
  Scenario.forced_rebuild_story
  = Some (Stale, Ok (true, "/out/bench_code"), Valid, Ok (false, "/out/bench_code")).
Proof. vm_compute. reflexivity. Qed.

(** ** The setup scripts *)

(** C5, as the code has it. Each [init.sh] that is there is run; what it
    wrote on standard output and standard error is captured as one text
    and logged; as long as that text decodes, the step succeeds, whatever
    the exit status of the script. *)
Theorem add_benchmark_data_ignores_exit_status (E : Externals) (output_dir : string)
    (s : St) :
  (forall cmd cwd files, Utf8.valid (captured (shell E cmd cwd files)) = true) ->
  add_benchmark_data E output_dir s =
  (Ok tt,
   {| self := self s;
      world :=
        after_script E output_dir
          (OsPath.join (_path (self s)) (language_name (self s)))
          (after_script E output_dir (_path (self s)) (world s)) |}).
Proof.
  intros Hvalid.
  unfold add_benchmark_data, bind at 1. unfold get_self at 1. simpl.
  cbv [bind fs_read get_world ret modify_world logging raise Utf8.decode].
  unfold after_script at 2. simpl.
  destruct (Fs.exists_ _ _ (OsPath.join (_path (self s)) "init.sh")); simpl.
  - rewrite Hvalid. simpl. unfold after_script. simpl.
    destruct (Fs.exists_ _ _ _); simpl; [rewrite Hvalid|]; reflexivity.
  - unfold after_script.
    destruct (Fs.exists_ _ _ _); simpl; [rewrite Hvalid|]; try reflexivity.
    now destruct s.
Qed.

Lemma add_benchmark_data_ignores_exit_status_witness :
  (forall cmd cwd files,
     Utf8.valid (captured (shell Scenario.externals cmd cwd files)) = true)
  /\ returncode (shell Scenario.externals
                   "/bin/bash /sebs/benchmarks/bench/init.sh /out/bench_code false"
                   ["sebs"] (fs Scenario.world_scratch)) = 1%Z
  /\ add_benchmark_data Scenario.externals "/out/bench_code"
       (Scenario.scratch "sebs" PYTHON false)
     = (Ok tt,
        {| self := self (Scenario.scratch "sebs" PYTHON false);
           world :=
             after_script Scenario.externals "/out/bench_code"
               "/sebs/benchmarks/bench/python"
               (after_script Scenario.externals "/out/bench_code"
                  "/sebs/benchmarks/bench" Scenario.world_scratch) |}).
Proof.
  assert (H : forall cmd cwd files,
             Utf8.valid (captured (shell Scenario.externals cmd cwd files)) = true)
    by (intros; vm_compute; reflexivity).
  split; [exact H|]. split; [reflexivity|].
  exact (add_benchmark_data_ignores_exit_status Scenario.externals "/out/bench_code"
           (Scenario.scratch "sebs" PYTHON false) H).
Defined.

(** C5 fails as stated: the setup script of the scenario exits with status
    1, and the step returns normally, the data file of the script in
    place. *)
Lemma failing_setup_script_is_not_fatal :
  Fs.exists_ ["sebs"] (fs Scenario.world_scratch) "/sebs/benchmarks/bench/init.sh" = true
  /\ returncode (shell Scenario.externals
                   "/bin/bash /sebs/benchmarks/bench/init.sh /out/bench_code false"
                   ["sebs"] (fs Scenario.world_scratch)) = 1%Z
  /\ fst (add_benchmark_data Scenario.externals "/out/bench_code"
            (Scenario.scratch "sebs" PYTHON false)) = Ok tt
  /\ log (world (snd (add_benchmark_data Scenario.externals "/out/bench_code"
                        (Scenario.scratch "sebs" PYTHON false))))
     = [(DEBUG, "preparingcannot fetch data")].
Proof. vm_compute. repeat split. Qed.

(** ** The dependency installer *)

Lemma PACKAGE_FILES_of_language (l : Language) :
  PACKAGE_FILES (Language_value l) = Some (manifest_of l).
Proof. now destruct l. Qed.

(** [install_dependencies] when the manifest is not in the directory: what
    is left of it is the search for the build image. *)
Lemma installer_skips_eq (E : Externals) (output_dir : string) (s : St) :
  Fs.exists_ (cwd (world s)) (fs (world s))
    (OsPath.join output_dir (manifest_of (_language (self s)))) = false ->
  let c := self s in
  let w := world s in
  let image_name :=
    ("build." ++ _deployment_name c ++ "." ++ language_name c ++ "."
     ++ _language_version c)%string in
  let pulling :=
    set_log (log w ++ [(INFO, ("Docker pull of image "
                               ++ docker_repository (_system_config c) ++ ":"
                               ++ image_name)%string)]) w in
  install_dependencies E output_dir s =
  if negb (Docker.has (docker_image_types (_system_config c) (_deployment_name c)
                         (language_name c)) "build")
  then (Ok tt,
        {| self := c;
           world := set_log (log w ++ [(INFO, ("Docker build image for "
                                               ++ _deployment_name c ++ " run in "
                                               ++ language_name c
                                               ++ " is not available, skipping")%string)])
                      w |})
  else if Docker.has (Docker.images (docker w)) (build_image c) then (Ok tt, s)
  else if Docker.has (Docker.registry (docker w)) (build_image c)
  then (Ok tt,
        {| self := c;
           world := set_docker
                      {| Docker.images := Docker.images (docker w) ++ [build_image c];
                         Docker.registry := Docker.registry (docker w);
                         Docker.containers := Docker.containers (docker w) |}
                      pulling |})
  else (Raise (RuntimeError ("Docker pull of image " ++ image_name ++ " failed!")),
        {| self := c; world := pulling |}).
Proof.
  intros Habsent c w image_name pulling. subst c w image_name pulling.
  unfold build_image, image_name.
  cbv [install_dependencies bind get_self get_world lift try_except logging
       modify_world raise ret Docker.images_get Docker.images_pull].
  destruct (negb (Docker.has (docker_image_types _ _ _) "build")); [reflexivity|].
  unfold language_name.
  destruct (Docker.has (Docker.images _) _).
  - rewrite PACKAGE_FILES_of_language, Habsent. now destruct s.
  - destruct (Docker.has (Docker.registry _) _); simpl.
    + rewrite PACKAGE_FILES_of_language. simpl. rewrite Habsent. reflexivity.
    + reflexivity.
Qed.

(** C8, as the code has it. Without the dependency manifest in the scratch
    directory the installer runs no container and leaves the files, the
    package and the cache as they are; it returns normally when no build
    image is configured or the build image is there or can be pulled, and
    raises [RuntimeError] when the pull fails. *)
Theorem install_without_manifest (E : Externals) (output_dir : string) (s : St) :
  Fs.exists_ (cwd (world s)) (fs (world s))
    (OsPath.join output_dir (manifest_of (_language (self s)))) = false ->
  let r := install_dependencies E output_dir s in
  self (snd r) = self s
  /\ fs (world (snd r)) = fs (world s)
  /\ Docker.containers (docker (world (snd r))) = Docker.containers (docker (world s))
  /\ cache (world (snd r)) = cache (world s)
  /\ fst r = if image_at_hand (self s) (docker (world s)) then Ok tt
             else Raise (RuntimeError ("Docker pull of image " ++ image_name (self s)
                                       ++ " failed!")).
Proof.
  intros Habsent r. subst r.
  rewrite (installer_skips_eq E output_dir s Habsent). simpl.
  unfold image_at_hand.
  destruct (Docker.has (docker_image_types _ _ _) "build"),
           (Docker.has (Docker.images _) _),
           (Docker.has (Docker.registry _) _); simpl; repeat split.
Qed.

Lemma install_without_manifest_witness :
  Fs.exists_ ["sebs"] (fs Scenario.world_scratch) "/out/bench_code/package.json" = false
  /\ install_dependencies Scenario.externals "/out/bench_code"
       (Scenario.scratch "sebs" NODEJS false)
     = (Ok tt,
        {| self := self (Scenario.scratch "sebs" NODEJS false);
           world :=
             set_docker
               {| Docker.images := Docker.images Scenario.daemon
                                   ++ ["sebs:build.aws.nodejs.3.7"];
                  Docker.registry := Docker.registry Scenario.daemon;
                  Docker.containers := [] |}
               (set_log [(INFO, "Docker pull of image sebs:build.aws.nodejs.3.7")]
                  Scenario.world_scratch) |})
  /\ fs (world (snd (install_dependencies Scenario.externals "/out/bench_code"
                       (Scenario.scratch "sebs" NODEJS false))))
     = fs Scenario.world_scratch.
Proof.
  assert (H : Fs.exists_ ["sebs"] (fs Scenario.world_scratch)
                "/out/bench_code/package.json" = false) by (vm_compute; reflexivity).
  split; [exact H|]. split; [vm_compute; reflexivity|].
  exact (proj1 (proj2 (install_without_manifest Scenario.externals "/out/bench_code"
                         (Scenario.scratch "sebs" NODEJS false) H))).
Defined.

(** C8 fails as stated: no manifest in the scratch directory, a build image
    that is neither there nor in the registry, and the installer raises. *)
Lemma pull_failure_without_manifest :
  Fs.exists_ ["sebs"] (fs Scenario.world_scratch) "/out/bench_code/package.json" = false
  /\ fst (install_dependencies Scenario.externals "/out/bench_code"
            (Scenario.scratch "nowhere" NODEJS false))
     = Raise (RuntimeError "Docker pull of image build.aws.nodejs.3.7 failed!").
Proof. vm_compute. split; reflexivity. Qed.

(** ** The patch of a zip entry *)

Module ZipFacts.
Import Zip.

#[local] Arguments Str.eqb : simpl never.
#[local] Arguments named : simpl never.
#[local] Arguments name_of : simpl never.

Lemma read_entries_none (es : list entry) (name : string) :
  count_name name es = 0 -> read_entries es name = None.
Proof.
  unfold count_name. induction es as [|e es IH]; simpl; [reflexivity|].
  destruct (named name e) eqn:Hn; simpl; [discriminate|].
  intros H. rewrite (IH H). unfold named in Hn. now rewrite Hn.
Qed.

Lemma read_entries_in (es : list entry) (e : entry) :
  In e es -> is_Some (read_entries es (name_of e)).
Proof.
  induction es as [|e' es IH]; simpl; [tauto|].
  intros [->|Hin].
  - destruct (read_entries es (name_of e)); [eauto|].
    unfold Str.eqb. rewrite bool_decide_eq_true_2; eauto.
  - destruct (IH Hin) as [d Hd]. rewrite Hd. eauto.
Qed.

(** A name that occurs once is read as the entry that carries it. *)
Lemma read_entries_unique (es : list entry) (e : entry) :
  In e es -> count_name (name_of e) es = 1 ->
  read_entries es (name_of e) = Some (content e).
Proof.
  unfold count_name. induction es as [|e' es IH]; simpl; [tauto|].
  intros Hin Hcount.
  destruct (named (name_of e) e') eqn:Hn; simpl in Hcount.
  - injection Hcount as Hcount.
    rewrite (read_entries_none es _ Hcount).
    unfold named in Hn. rewrite Hn.
    destruct Hin as [->|Hin]; [reflexivity|].
    destruct (read_entries_in es e Hin) as [d Hd].
    rewrite (read_entries_none es _ Hcount) in Hd. discriminate Hd.
  - destruct Hin as [->|Hin].
    + unfold named, Str.eqb in Hn. now rewrite bool_decide_eq_true_2 in Hn.
    + now rewrite (IH Hin Hcount).
Qed.

(** The loop copies the other items in order, each with the content that
    a read of its name finds. *)
Lemma copy_items_others (zin : archive) (filename : string) (es : list entry) :
  (forall e, In e es -> In e (entries zin)) ->
  forall zout,
    copy_items zin zout filename (map zinfo es)
    = Ok {| comment := comment zout;
            entries := entries zout ++ map (reread zin) (others filename es) |}.
Proof.
  induction es as [|e es IH]; intros Hin zout; simpl.
  - rewrite app_nil_r. now destruct zout.
  - fold (name_of e). unfold others. simpl. fold (others filename es).
    unfold named at 1.
    destruct (Str.eqb (name_of e) filename) eqn:Hn; simpl.
    + apply IH. intros e' He'. apply Hin. now right.
    + unfold read.
      destruct (read_entries_in (entries zin) e (Hin e (or_introl eq_refl)))
        as [d Hd].
      rewrite Hd. rewrite IH by (intros e' He'; apply Hin; now right).
      simpl. rewrite <- app_assoc. simpl.
      unfold reread at 2. rewrite Hd. reflexivity.
Qed.

Lemma count_others_length (name : string) (es : list entry) :
  length es = count_name name es + length (others name es).
Proof.
  unfold count_name, others. induction es as [|e es IH]; simpl; [reflexivity|].
  destruct (named name e); simpl; lia.
Qed.

Lemma others_app (name : string) (es es' : list entry) :
  others name (es ++ es') = others name es ++ others name es'.
Proof. unfold others. apply List.filter_app. Qed.

Lemma count_name_app (name : string) (es es' : list entry) :
  count_name name (es ++ es') = count_name name es + count_name name es'.
Proof. unfold count_name. now rewrite List.filter_app, length_app. Qed.

Lemma others_idem (name : string) (zin : archive) (es : list entry) :
  others name (map (reread zin) (others name es)) = map (reread zin) (others name es).
Proof.
  unfold others. induction es as [|e es IH]; simpl; [reflexivity|].
  destruct (negb (named name e)) eqn:Hn; simpl; [|exact IH].
  unfold named, name_of in *. simpl. rewrite Hn. simpl. now rewrite IH.
Qed.

Lemma count_name_others (name : string) (zin : archive) (es : list entry) :
  count_name name (map (reread zin) (others name es)) = 0.
Proof.
  unfold count_name, others. induction es as [|e es IH]; simpl; [reflexivity|].
  destruct (negb (named name e)) eqn:Hn; simpl; [|exact IH].
  unfold named, name_of in *. simpl.
  destruct (Str.eqb (filename (zinfo e)) name); [discriminate Hn|exact IH].
Qed.

Lemma read_entries_last (es : list entry) (e : entry) :
  read_entries (es ++ [e]) (name_of e) = Some (content e).
Proof.
  induction es as [|e' es IH]; simpl.
  - unfold Str.eqb. now rewrite bool_decide_eq_true_2.
  - now rewrite IH.
Qed.

Lemma read_entries_app_other (es : list entry) (e : entry) (name : string) :
  named name e = false -> read_entries (es ++ [e]) name = read_entries es name.
Proof.
  intros Hn. induction es as [|e' es IH]; simpl.
  - unfold named in Hn. now rewrite Hn.
  - now rewrite IH.
Qed.

Lemma count_name_reread (name : string) (zin : archive) (es : list entry) :
  count_name name (map (reread zin) es) = count_name name es.
Proof.
  unfold count_name. induction es as [|e es IH]; simpl; [reflexivity|].
  replace (named name (reread zin e)) with (named name e) by reflexivity.
  destruct (named name e); simpl; now rewrite IH.
Qed.

Lemma count_name_others_other (name filename : string) (es : list entry) :
  name <> filename ->
  count_name name (others filename es) = count_name name es.
Proof.
  intros Hne. unfold count_name, others.
  induction es as [|e es IH]; simpl; [reflexivity|].
  destruct (named filename e) eqn:Hf, (named name e) eqn:Hn; simpl;
    rewrite ?Hn; simpl; rewrite ?IH; try reflexivity.
  unfold named, Str.eqb in Hf, Hn.
  apply bool_decide_eq_true in Hf, Hn. congruence.
Qed.

(** [_update_zip] on a zip file that is there, in one equation: the other
    entries as the loop copies them, then the new entry; no other file
    is left changed. *)
Lemma update_zip_eq (fs : files) (zipname filename : string) (data : bytes)
    (zin : archive) :
  fs !! zipname = Some (Archive zin) ->
  _update_zip fs zipname filename data =
  (Ok tt,
   <[zipname := Archive
       {| comment := comment zin;
          entries := map (reread zin) (others filename (entries zin))
                     ++ [{| zinfo := {| Zip.filename := filename;
                                        compress_type := ZIP_DEFLATED |};
                            content := data |}] |}]> fs).
Proof.
  intros Hzin. unfold _update_zip.
  pose proof (is_fresh (dom fs)) as Hfresh.
  set (tmpname := fresh (dom fs)) in *.
  assert (Hne : tmpname <> zipname).
  { intros ->. apply Hfresh, elem_of_dom. eauto. }
  assert (Htmp : fs !! tmpname = None) by now apply not_elem_of_dom.
  unfold open_r. rewrite lookup_insert_ne, Hzin by exact Hne.
  rewrite (copy_items_others zin filename (entries zin)) by auto. simpl.
  unfold remove. rewrite !lookup_insert_ne, Hzin by exact Hne.
  unfold rename. rewrite lookup_delete_ne, lookup_insert_eq by congruence.
  unfold open_a. rewrite lookup_insert_eq.
  f_equal. apply map_eq. intros k.
  destruct (decide (k = zipname)) as [->|Hk].
  - now rewrite !lookup_insert_eq.
  - rewrite !(lookup_insert_ne _ zipname) by congruence.
    destruct (decide (k = tmpname)) as [->|Hk'].
    + now rewrite lookup_delete_eq, Htmp.
    + rewrite !lookup_delete_ne, !lookup_insert_ne by congruence. reflexivity.
Qed.

End ZipFacts.



(** C7. The patch is to leave every other entry with byte-identical
    content, and the code means to: it copies the archive without
    [filename], each item under its own [ZipInfo]. But it reads the bytes
    of an item by its name, and a read by name finds the last entry of
    that name. On the archive with the entries [a] = 1, [a] = 2 and
    [t] = old, which holds one entry named [t], the patch of [t] leaves
    both entries named [a] with the content of the second: the first one
    is not what it was. *)
Lemma update_zip_rereads_by_name :
  Zip.count_name "t" (Zip.entries Scenario.twice_a) = 1
  /\ Zip.others "t" (Zip.entries Scenario.twice_a)
     = [Scenario.entry_of "a" "1"; Scenario.entry_of "a" "2"]
  /\ exists zout,
       snd (Zip._update_zip Scenario.packages "/cache/pkg.zip" "t" (str_encode "new"))
         !! "/cache/pkg.zip" = Some (Zip.Archive zout)
       /\ Zip.others "t" (Zip.entries zout)
          = [Scenario.entry_of "a" "2"; Scenario.entry_of "a" "2"]
       /\ Zip.others "t" (Zip.entries zout)
          <> Zip.others "t" (Zip.entries Scenario.twice_a).
Proof.
  split; [reflexivity|]. split; [reflexivity|].
  rewrite (ZipFacts.update_zip_eq Scenario.packages "/cache/pkg.zip" "t" _
             Scenario.twice_a) by (vm_compute; reflexivity).
  eexists. split; [apply lookup_insert_eq|].
  split; [reflexivity|]. vm_compute. discriminate.
Qed.

(** ** The build container of the archive strategy *)

Section Steady.

Variable E : Externals.

Lemma keeps_ret {A} (a : A) : keeps (ret a).
Proof. intros s r s' [= _ <-]. reflexivity. Qed.

Lemma keeps_raise {A} (e : Exn) : keeps (@raise A e).
Proof. intros s r s' [= _ <-]. reflexivity. Qed.

Lemma keeps_lift {A} (r : Res A) : keeps (lift r).
Proof. intros s r' s' [= _ <-]. reflexivity. Qed.

Lemma keeps_get_self : keeps get_self.
Proof. intros s r s' [= _ <-]. reflexivity. Qed.

Lemma keeps_get_world : keeps get_world.
Proof. intros s r s' [= _ <-]. reflexivity. Qed.

Lemma keeps_bind {A B} (m : M A) (f : A -> M B) :
  keeps m -> (forall a, keeps (f a)) -> keeps (bind m f).
Proof.
  intros Hm Hf s r s'. unfold bind.
  destruct (m s) as [[a|e] s1] eqn:H1.
  - intros H2. apply Hm in H1. apply Hf in H2. unfold steady in *. congruence.
  - intros [= _ <-]. now apply Hm in H1.
Qed.

Lemma keeps_modify_world (f : World -> World) :
  (forall w, docker (f w) = docker w) -> keeps (modify_world f).
Proof. intros Hf s r s' [= _ <-]. unfold steady. simpl. now rewrite Hf. Qed.

Lemma keeps_logging (lvl : Level) (msg : string) : keeps (logging lvl msg).
Proof. now apply keeps_modify_world. Qed.

Lemma keeps_fs_call (f : Fs.loc -> Fs.t -> Res Fs.t) : keeps (fs_call f).
Proof.
  unfold fs_call. apply keeps_bind; [apply keeps_get_world|]. intros w.
  apply keeps_bind; [apply keeps_lift|]. intros fs'.
  now apply keeps_modify_world.
Qed.

Lemma keeps_for_each {A} (xs : list A) (body : A -> M unit) :
  (forall x, keeps (body x)) -> keeps (for_each xs body).
Proof.
  intros Hb. induction xs as [|x xs IH]; simpl.
  - apply keeps_ret.
  - apply keeps_bind; auto.
Qed.

Lemma statuses_set_fs (d : Docker.t) (id : nat) (f : Fs.t) :
  Docker.statuses
    (Docker.with_containers d (alter (Docker.set_fs f) id (Docker.containers d)))
  = Docker.statuses d.
Proof.
  unfold Docker.statuses. simpl.
  rewrite (list_fmap_alter Docker.status (Docker.set_fs f) (fun x => x))
    by (apply Forall_forall; reflexivity).
  now rewrite list_alter_id.
Qed.

Lemma keeps_update_fs (id : nat) (f : Fs.t) :
  keeps (update_container id (Docker.set_fs f)).
Proof.
  intros s r s' [= _ <-]. unfold steady. simpl. apply statuses_set_fs.
Qed.

Lemma keeps_the_container (id : nat) : keeps (the_container id).
Proof.
  unfold the_container. apply keeps_bind; [apply keeps_get_world|]. intros w.
  destruct (_ !! id); [apply keeps_ret|apply keeps_raise].
Qed.

Lemma keeps_put_archive (id : nat) (path : string) (data : bytes) :
  keeps (put_archive E id path data).
Proof.
  unfold put_archive. apply keeps_bind; [apply keeps_the_container|]. intros c.
  destruct (tar_members E data); [|apply keeps_raise].
  destruct (Fs.isdir _ _ _); [|apply keeps_raise].
  destruct (Tar.extractall _ _ _ _); [apply keeps_update_fs|apply keeps_raise].
Qed.

Lemma keeps_exec_run (id : nat) (cmd : string) : keeps (exec_run E id cmd).
Proof.
  unfold exec_run. apply keeps_bind; [apply keeps_the_container|]. intros c.
  destruct (Docker.c_running c); [|apply keeps_raise].
  apply keeps_bind; [apply keeps_update_fs|]. intros _. apply keeps_ret.
Qed.

Lemma keeps_get_archive (id : nat) (path : string) : keeps (get_archive E id path).
Proof.
  unfold get_archive. apply keeps_bind; [apply keeps_the_container|]. intros c.
  destruct (Tar.add_path _ _ _ _); [apply keeps_ret|apply keeps_raise].
Qed.

Lemma keeps_tar_add_all (tar_archive output_dir : string) (names : list string) :
  forall added, keeps (tar_add_all E tar_archive output_dir added names).
Proof.
  induction names as [|f rest IH]; intros added; simpl.
  - apply keeps_ret.
  - apply keeps_bind; [apply keeps_get_world|]. intros w.
    apply keeps_bind; [apply keeps_lift|]. intros ms.
    apply keeps_bind; [apply keeps_fs_call|]. intros _. apply IH.
Qed.

End Steady.

#[export] Hint Resolve keeps_ret keeps_raise keeps_lift keeps_get_self keeps_get_world
  keeps_logging keeps_fs_call keeps_for_each keeps_put_archive keeps_exec_run
  keeps_get_archive keeps_tar_add_all keeps_bind : keeps.

(** One bind of a run that ended well: the first part ended well and was
    steady. *)
Ltac steady_step H :=
  let K := fresh "K" in
  let Hm := fresh "Hm" in
  apply bind_inv in H as (? & ? & Hm & H);
  match type of Hm with
  | ?m _ = _ => assert (K : keeps m) by (eauto 10 with keeps); apply K in Hm; clear K
  end.

Lemma statuses_stop (d : Docker.t) (id : nat) :
  Docker.statuses (Docker.stop d id)
  = alter (fun st => (fst (fst st), snd (fst st), false)) id (Docker.statuses d).
Proof.
  unfold Docker.statuses, Docker.stop. simpl.
  apply list_fmap_alter, Forall_forall. reflexivity.
Qed.


(** C6, as the code has it. Every run of the archive branch that gets to
    its end, whatever exit status the install script had, leaves the one
    container it started stopped and the others as they were. *)
Theorem archive_install_stops_container (E : Externals) (image output_dir : string)
    (s s' : St) (stdout : bytes) :
  install_by_archive E image output_dir s = (Ok stdout, s') ->
  Docker.statuses (docker (world s'))
  = Docker.statuses (docker (world s)) ++ [(image, _name (self s), false)].
Proof.
  intros H. unfold install_by_archive in H.
  apply bind_inv in H as (c & s0 & [= <- <-] & H).
  apply bind_inv in H as (w & s0 & [= <- <-] & H).
  apply bind_inv in H as (id & s1 & Hrun & H).
  unfold containers_run_detached, bind, get_world, modify_world, ret in Hrun.
  simpl in Hrun. injection Hrun as <- <-.
  set (id := length (Docker.containers (docker (world s)))) in *.
  do 10 steady_step H.
  destruct (tar_members E _) as [members|]; [|discriminate H].
  do 4 steady_step H.
  unfold bind, container_stop, modify_world, ret in H. simpl in H.
  injection H as <- <-. simpl.
  rewrite statuses_stop.
  unfold steady in *.
  repeat match goal with
         | Hs : Docker.statuses _ = Docker.statuses _ |- _ => rewrite Hs; clear Hs
         end.
  unfold Docker.statuses. simpl. rewrite fmap_app. simpl.
  replace id with (length (Docker.status <$> Docker.containers (docker (world s))) + 0)
    by (subst id; rewrite length_fmap; lia).
  now rewrite alter_app_r.
Qed.


Lemma archive_install_stops_container_witness :
  returncode (container_exec Scenario.externals
                {| Docker.c_image := "broken:build.aws.python.3.7";
                   Docker.c_app := "bench"; Docker.c_running := true;
                   Docker.c_fs := [] |} "/bin/bash installer.sh") = 2%Z
  /\ fst (install_by_archive Scenario.externals "broken:build.aws.python.3.7"
            "/out/bench_code" (Scenario.with_manifest (Scenario.scratch "broken" PYTHON true)))
     = Ok (str_encode "warningsize 10M")
  /\ Docker.statuses
       (docker (world (snd (install_by_archive Scenario.externals
                              "broken:build.aws.python.3.7" "/out/bench_code"
                              (Scenario.with_manifest
                                 (Scenario.scratch "broken" PYTHON true))))))
     = [("broken:build.aws.python.3.7", "bench", false)].
Proof.
  split; [reflexivity|].
  assert (Hrun : fst (install_by_archive Scenario.externals "broken:build.aws.python.3.7"
                        "/out/bench_code"
                        (Scenario.with_manifest (Scenario.scratch "broken" PYTHON true)))
                 = Ok (str_encode "warningsize 10M")) by (vm_compute; reflexivity).
  split; [exact Hrun|].
  apply (archive_install_stops_container Scenario.externals
           "broken:build.aws.python.3.7" "/out/bench_code"
           (Scenario.with_manifest (Scenario.scratch "broken" PYTHON true)) _
           (str_encode "warningsize 10M")).
  rewrite <- Hrun. apply surjective_pairing.
Defined.

(** C6 fails as stated: with an image that lacks the directory the code is
    sent to, the transfer raises, [container.stop()] is not reached, and
    the container is left running. *)
Lemma archive_install_leaks_container :
  fst (install_dependencies Scenario.externals "/out/bench_code"
         (Scenario.with_manifest (Scenario.scratch "bare" PYTHON true)))
  = Raise (APIError "put_archive")
  /\ Docker.statuses
       (docker (world (snd (install_dependencies Scenario.externals "/out/bench_code"
                              (Scenario.with_manifest
                                 (Scenario.scratch "bare" PYTHON true))))))
     = [("bare:build.aws.python.3.7", "bench", true)].
Proof. vm_compute. split; reflexivity. Qed.

(** ** The files: lookups after a change *)

Module FsFacts.
Import Fs.

Lemma loc_eqb_refl (l : loc) : loc_eqb l l = true.
Proof. unfold loc_eqb. now apply bool_decide_eq_true_2. Qed.

Lemma loc_eqb_ne (a b : loc) : a <> b -> loc_eqb a b = false.
Proof. unfold loc_eqb. now apply bool_decide_eq_false_2. Qed.

Lemma lookup_store_eq (fs : t) (l : loc) (n : node) :
  lookup (store fs l n) l = Some n.
Proof.
  induction fs as [|[k m] fs IH]; simpl.
  - now rewrite loc_eqb_refl.
  - destruct (loc_eqb k l) eqn:Hk; simpl; rewrite Hk; [reflexivity|exact IH].
Qed.

Lemma lookup_store_ne (fs : t) (l l' : loc) (n : node) :
  l <> l' -> lookup (store fs l n) l' = lookup fs l'.
Proof.
  intros Hne. induction fs as [|[k m] fs IH]; simpl.
  - now rewrite loc_eqb_ne.
  - destruct (loc_eqb k l) eqn:Hk; simpl.
    + apply bool_decide_eq_true in Hk. subst k. now rewrite loc_eqb_ne.
    + now rewrite IH.
Qed.

Lemma lookup_delete_eq (fs : t) (l : loc) : lookup (delete fs l) l = None.
Proof.
  unfold delete. induction fs as [|[k m] fs IH]; simpl; [reflexivity|].
  destruct (loc_eqb k l) eqn:Hk; simpl; [exact IH|]. now rewrite Hk.
Qed.

Lemma lookup_delete_ne (fs : t) (l l' : loc) :
  l <> l' -> lookup (delete fs l) l' = lookup fs l'.
Proof.
  intros Hne. unfold delete. induction fs as [|[k m] fs IH]; simpl; [reflexivity|].
  destruct (loc_eqb k l) eqn:Hk; simpl.
  - apply bool_decide_eq_true in Hk. subst k. now rewrite loc_eqb_ne.
  - now rewrite IH.
Qed.

(** Where the directories are decides how a path is walked. *)
Lemma walk_same_dirs (fs fs' : t) :
  (forall l, is_dir fs' l = is_dir fs l) ->
  forall comps cur, walk fs' cur comps = walk fs cur comps.
Proof.
  intros Hd. induction comps as [|c rest IH]; intros cur; simpl; [reflexivity|].
  rewrite Hd. destruct (is_dir fs cur); [|reflexivity].
  destruct (_ || _)%bool; [apply IH|].
  destruct (Str.eqb c ".."); apply IH.
Qed.

Lemma resolve_same_dirs (cwd : loc) (fs fs' : t) (p : string) :
  (forall l, is_dir fs' l = is_dir fs l) -> resolve cwd fs' p = resolve cwd fs p.
Proof.
  intros Hd. unfold resolve. destruct (Str.eqb p ""); [reflexivity|].
  now apply walk_same_dirs.
Qed.

(** Storing a file where no directory is, and deleting what is no
    directory, leave the directories where they are. *)
Lemma is_dir_store_file (fs : t) (l : loc) (d : bytes) :
  l <> [] -> is_dir fs l = false ->
  forall l', is_dir (store fs l (File d)) l' = is_dir fs l'.
Proof.
  intros Hl Hnd l'. unfold is_dir, node_at in *.
  destruct l' as [|x l']; [reflexivity|].
  destruct (decide (l = x :: l')) as [->|Hne].
  - rewrite lookup_store_eq. now destruct (lookup fs (x :: l')) as [[]|].
  - now rewrite lookup_store_ne.
Qed.

Lemma is_dir_delete_file (fs : t) (l : loc) :
  is_dir fs l = false ->
  forall l', is_dir (delete fs l) l' = is_dir fs l'.
Proof.
  intros Hnd l'. unfold is_dir, node_at in *.
  destruct l' as [|x l']; [reflexivity|].
  destruct (decide (l = x :: l')) as [->|Hne].
  - rewrite lookup_delete_eq. now destruct (lookup fs (x :: l')) as [[]|].
  - now rewrite lookup_delete_ne.
Qed.

Lemma node_at_snoc (fs : t) (l : loc) (n : string) :
  node_at fs (l ++ [n]) = lookup fs (l ++ [n]).
Proof. unfold node_at. now destruct l. Qed.

End FsFacts.

(** ** Paths: a plain name joined to a directory *)

Module PathFacts.

Lemma split_nonempty (c : ascii) (s : string) : Str.split c s <> [].
Proof.
  destruct s as [|a s]; simpl; [discriminate|].
  destruct (Ascii.eqb a c); [discriminate|].
  destruct (Str.split c s); discriminate.
Qed.

Lemma split_app_sep (c : ascii) (a b : string) :
  Str.split c (a ++ String c b) = Str.split c a ++ Str.split c b.
Proof.
  induction a as [|x a IH]; simpl.
  - now rewrite Ascii.eqb_refl.
  - destruct (Ascii.eqb x c); [now rewrite IH|].
    rewrite IH. pose proof (split_nonempty c a) as Hne.
    destruct (Str.split c a); [contradiction|reflexivity].
Qed.

Lemma endswith_char_app (s : string) (c : ascii) :
  Str.endswith_char s c = true -> exists s0, s = (s0 ++ String c "")%string.
Proof.
  induction s as [|a s IH]; simpl; [discriminate|].
  destruct s as [|b s].
  - intros H. apply Ascii.eqb_eq in H. subst a. now exists "".
  - intros H. destruct (IH H) as [s0 Hs0]. exists (String a s0).
    rewrite Hs0. reflexivity.
Qed.

Lemma prefix_char (c x : ascii) (r : string) :
  String.prefix (String c "") (String x r) = bool_decide (c = x).
Proof.
  simpl. destruct (Ascii.ascii_dec c x) as [e|n].
  - rewrite bool_decide_eq_true_2 by exact e. now destruct r.
  - now rewrite bool_decide_eq_false_2.
Qed.

Lemma prefix_slash_app (a b : string) :
  a <> "" -> Str.startswith (a ++ b) "/" = Str.startswith a "/".
Proof.
  unfold Str.startswith. destruct a as [|x a]; [congruence|]. intros _.
  change (String x a ++ b)%string with (String x (a ++ b)%string).
  now rewrite !prefix_char.
Qed.

Lemma walk_app (fs : Fs.t) (xs ys : list string) :
  forall cur,
    Fs.walk fs cur (xs ++ ys)
    = match Fs.walk fs cur xs with
      | Some l => Fs.walk fs l ys
      | None => None
      end.
Proof.
  induction xs as [|x xs IH]; intros cur; simpl; [reflexivity|].
  destruct (Fs.is_dir fs cur); [|reflexivity].
  destruct (_ || _)%bool; [apply IH|].
  destruct (Str.eqb x ".."); apply IH.
Qed.

Lemma plain_not_rooted (n : string) : OsPath.plain n = true -> Str.startswith n "/" = false.
Proof.
  unfold OsPath.plain. intros H. apply andb_prop in H as [H _].
  apply andb_prop in H as [H _]. apply andb_prop in H as [H _].
  apply bool_decide_eq_true in H.
  destruct n as [|a n]; [reflexivity|].
  unfold Str.startswith. rewrite prefix_char.
  apply bool_decide_eq_false_2. intros <-. simpl in H. discriminate H.
Qed.

Lemma walk_plain (fs : Fs.t) (cur : Fs.loc) (n : string) :
  OsPath.plain n = true ->
  Fs.walk fs cur [n] = if Fs.is_dir fs cur then Some (cur ++ [n]) else None.
Proof.
  unfold OsPath.plain. intros H.
  apply andb_prop in H as [H H3]. apply andb_prop in H as [H H2].
  apply andb_prop in H as [_ H1].
  apply negb_true_iff in H1, H2, H3.
  simpl. now rewrite H1, H2, H3.
Qed.

(** Under a directory, a plain name resolves to the place below it. *)
Lemma resolve_join (cwd : Fs.loc) (fs : Fs.t) (d n : string) :
  Fs.isdir cwd fs d = true -> OsPath.plain n = true ->
  exists ld,
    Fs.resolve cwd fs d = Some ld /\ Fs.is_dir fs ld = true
    /\ Fs.resolve cwd fs (OsPath.join d n) = Some (ld ++ [n]).
Proof.
  intros Hd Hn. unfold Fs.isdir in Hd.
  destruct (Fs.resolve cwd fs d) as [ld|] eqn:Hr; [|discriminate Hd].
  exists ld. split; [reflexivity|]. split; [exact Hd|].
  unfold Fs.resolve in Hr.
  destruct (Str.eqb d "") eqn:Hempty; [discriminate Hr|].
  assert (Hd0 : d <> "").
  { unfold Str.eqb in Hempty. now apply bool_decide_eq_false in Hempty. }
  pose proof (plain_not_rooted n Hn) as Hroot.
  assert (Hsplit : Str.split OsPath.sep n = [n]).
  { unfold OsPath.plain in Hn. apply andb_prop in Hn as [Hn _].
    apply andb_prop in Hn as [Hn _]. apply andb_prop in Hn as [Hn _].
    now apply bool_decide_eq_true in Hn. }
  unfold OsPath.join. rewrite Hroot, Hempty. simpl.
  destruct (Str.endswith_char d OsPath.sep) eqn:Hend.
  - destruct (endswith_char_app d OsPath.sep Hend) as [d0 ->].
    unfold Fs.resolve.
    assert (Hne : Str.eqb ((d0 ++ String OsPath.sep "") ++ n) "" = false).
    { unfold Str.eqb. apply bool_decide_eq_false_2. destruct d0; discriminate. }
    rewrite Hne. unfold OsPath.isabs in *. rewrite prefix_slash_app by exact Hd0.
    rewrite split_app_sep, walk_app in Hr.
    replace ((d0 ++ String OsPath.sep "") ++ n)%string
      with (d0 ++ String OsPath.sep n)%string.
    2:{ clear. induction d0 as [|x d0 IH]; [reflexivity|].
        change (String x (d0 ++ String OsPath.sep n)
                = String x ((d0 ++ String OsPath.sep "") ++ n))%string.
        now rewrite IH. }
    rewrite split_app_sep, walk_app, Hsplit.
    destruct (Fs.walk fs _ (Str.split OsPath.sep d0)) as [l0|]; [|discriminate Hr].
    simpl in Hr. destruct (Fs.is_dir fs l0) eqn:Hl0; [|discriminate Hr].
    injection Hr as <-. now rewrite walk_plain, Hl0.
  - unfold Fs.resolve.
    assert (Hne : Str.eqb (d ++ "/" ++ n) "" = false).
    { unfold Str.eqb. apply bool_decide_eq_false_2. destruct d; [congruence|discriminate]. }
    rewrite Hne. unfold OsPath.isabs in *. rewrite prefix_slash_app by exact Hd0.
    change (d ++ "/" ++ n)%string with (d ++ String OsPath.sep n)%string.
    rewrite split_app_sep, walk_app, Hsplit, Hr.
    now rewrite walk_plain, Hd.
Qed.

End PathFacts.

(** ** The selection of the wrapper *)

Section Selection.

Variables (cwd : Fs.loc) (fs : Fs.t) (out chosen other : string) (dc do : bytes).

Hypothesis chosen_plain : OsPath.plain chosen = true.
Hypothesis other_plain : OsPath.plain other = true.
Hypothesis chosen_other : chosen <> other.
Hypothesis chosen_entry : chosen <> "handler.py".
Hypothesis other_entry : other <> "handler.py".
Hypothesis out_dir : Fs.isdir cwd fs out = true.
Hypothesis chosen_there : Fs.read_file cwd fs (OsPath.join out chosen) = Ok dc.
Hypothesis other_there : Fs.read_file cwd fs (OsPath.join out other) = Ok do.
Hypothesis entry_free : Fs.isdir cwd fs (OsPath.join out "handler.py") = false.

(** Renaming the chosen variant to the entry point and removing the
    other one goes through and leaves the entry point alone. *)
Lemma select_wrapper :
  exists fs1 fs2,
    Fs.rename cwd fs (OsPath.join out chosen) (OsPath.join out "handler.py") = Ok fs1
    /\ Fs.remove cwd fs1 (OsPath.join out other) = Ok fs2
    /\ Fs.read_file cwd fs2 (OsPath.join out "handler.py") = Ok dc
    /\ Fs.exists_ cwd fs2 (OsPath.join out "handler.py") = true
    /\ Fs.exists_ cwd fs2 (OsPath.join out chosen) = false
    /\ Fs.exists_ cwd fs2 (OsPath.join out other) = false.
Proof.
  destruct (PathFacts.resolve_join cwd fs out chosen out_dir chosen_plain)
    as (ld & Hout & Hld & Hc).
  destruct (PathFacts.resolve_join cwd fs out other out_dir other_plain)
    as (ld' & Hout' & _ & Ho).
  destruct (PathFacts.resolve_join cwd fs out "handler.py" out_dir eq_refl)
    as (ld'' & Hout'' & _ & Hh).
  rewrite Hout in Hout', Hout''. injection Hout' as <-. injection Hout'' as <-.
  set (lc := ld ++ [chosen]) in *. set (lo := ld ++ [other]) in *.
  set (lh := ld ++ ["handler.py"]) in *.
  assert (Hco : lc <> lo) by (subst lc lo; intros H; apply app_inv_head in H; congruence).
  assert (Hch : lc <> lh) by (subst lc lh; intros H; apply app_inv_head in H; congruence).
  assert (Hoh : lo <> lh) by (subst lo lh; intros H; apply app_inv_head in H; congruence).
  assert (Hlh : lh <> []) by (subst lh; now destruct ld).
  assert (Nc : forall f, Fs.node_at f lc = Fs.lookup f lc)
    by (intros; apply FsFacts.node_at_snoc).
  assert (No : forall f, Fs.node_at f lo = Fs.lookup f lo)
    by (intros; apply FsFacts.node_at_snoc).
  assert (Nh : forall f, Fs.node_at f lh = Fs.lookup f lh)
    by (intros; apply FsFacts.node_at_snoc).
  assert (Hnc : Fs.lookup fs lc = Some (Fs.File dc)).
  { unfold Fs.read_file in chosen_there. rewrite Hc in chosen_there.
    rewrite Nc in chosen_there.
    destruct (Fs.lookup fs _) as [[]|]; congruence. }
  assert (Hno : Fs.lookup fs lo = Some (Fs.File do)).
  { unfold Fs.read_file in other_there. rewrite Ho in other_there.
    rewrite No in other_there.
    destruct (Fs.lookup fs _) as [[]|]; congruence. }
  assert (Hnh : Fs.is_dir fs lh = false).
  { unfold Fs.isdir in entry_free. now rewrite Hh in entry_free. }
  assert (Hdc : Fs.is_dir fs lc = false).
  { unfold Fs.is_dir. now rewrite Nc, Hnc. }
  set (fs1 := Fs.store (Fs.delete fs lc) lh (Fs.File dc)).
  assert (Hdirs1 : forall l, Fs.is_dir fs1 l = Fs.is_dir fs l).
  { intros l. subst fs1. rewrite FsFacts.is_dir_store_file.
    - now apply FsFacts.is_dir_delete_file.
    - exact Hlh.
    - now rewrite FsFacts.is_dir_delete_file. }
  assert (Hno1 : Fs.lookup fs1 lo = Some (Fs.File do)).
  { subst fs1. rewrite FsFacts.lookup_store_ne by congruence.
    now rewrite FsFacts.lookup_delete_ne by congruence. }
  set (fs2 := Fs.delete fs1 lo).
  assert (Hdirs2 : forall l, Fs.is_dir fs2 l = Fs.is_dir fs l).
  { intros l. subst fs2. rewrite FsFacts.is_dir_delete_file; [apply Hdirs1|].
    unfold Fs.is_dir. now rewrite No, Hno1. }
  exists fs1, fs2. repeat split.
  - unfold Fs.rename. rewrite Hc, Hh, Nc, Hnc.
    rewrite FsFacts.loc_eqb_ne by exact Hch.
    unfold Fs.is_dir in Hnh. now destruct (Fs.node_at fs lh) as [[]|].
  - unfold Fs.remove. rewrite (FsFacts.resolve_same_dirs _ fs fs1 _ Hdirs1), Ho.
    now rewrite No, Hno1.
  - unfold Fs.read_file. rewrite (FsFacts.resolve_same_dirs _ fs fs2 _ Hdirs2), Hh.
    rewrite Nh. subst fs2 fs1.
    rewrite FsFacts.lookup_delete_ne by congruence.
    now rewrite FsFacts.lookup_store_eq.
  - unfold Fs.exists_. rewrite (FsFacts.resolve_same_dirs _ fs fs2 _ Hdirs2), Hh.
    rewrite Nh. subst fs2 fs1.
    rewrite FsFacts.lookup_delete_ne by congruence.
    now rewrite FsFacts.lookup_store_eq.
  - unfold Fs.exists_. rewrite (FsFacts.resolve_same_dirs _ fs fs2 _ Hdirs2), Hc.
    rewrite Nc. subst fs2 fs1.
    rewrite FsFacts.lookup_delete_ne by congruence.
    rewrite FsFacts.lookup_store_ne by congruence.
    now rewrite FsFacts.lookup_delete_eq.
  - unfold Fs.exists_. rewrite (FsFacts.resolve_same_dirs _ fs fs2 _ Hdirs2), Ho.
    rewrite No. subst fs2.
    now rewrite FsFacts.lookup_delete_eq.
Qed.

End Selection.

(** C4, as the code has it. For python, once the deployment files are
    copied and both variants are in the directory, the selected variant
    becomes [handler.py], the other variant is removed, and of the three
    wrapper names only [handler.py] is left. For nodejs nothing is renamed
    or removed: the directory is as the copy left it. *)
Theorem add_deployment_files_selects_wrapper (E : Externals) (output_dir : string)
    (is_workflow : bool) (s s1 : St) (d_function d_workflow : bytes) :
  _language (self s) = PYTHON ->
  copy_handlers E (self s) output_dir s = (Ok tt, s1) ->
  Fs.isdir (cwd (world s1)) (fs (world s1)) output_dir = true ->
  Fs.read_file (cwd (world s1)) (fs (world s1))
    (OsPath.join output_dir "handler_function.py") = Ok d_function ->
  Fs.read_file (cwd (world s1)) (fs (world s1))
    (OsPath.join output_dir "handler_workflow.py") = Ok d_workflow ->
  Fs.isdir (cwd (world s1)) (fs (world s1)) (OsPath.join output_dir "handler.py") = false ->
  (exists s2,
     add_deployment_files E output_dir is_workflow s = (Ok tt, s2)
     /\ Fs.read_file (cwd (world s2)) (fs (world s2)) (OsPath.join output_dir "handler.py")
        = Ok (if is_workflow then d_workflow else d_function)
     /\ wrappers_present (world s2) output_dir ".py" = ["handler.py"])
  /\ (forall t : St,
        _language (self t) = NODEJS ->
        add_deployment_files E output_dir is_workflow t
        = copy_handlers E (self t) output_dir t).
Proof.
  intros Hlang Hcopy Hdir Hf Hw Hfree. split.
  - unfold copy_handlers in Hcopy.
    unfold add_deployment_files. cbv [bind get_self]. rewrite Hcopy.
    unfold language_name. rewrite Hlang.
    change (Str.eqb (Language_value PYTHON) "python") with true. cbv iota.
    destruct is_workflow.
    + destruct (select_wrapper (cwd (world s1)) (fs (world s1)) output_dir
                  "handler_workflow.py" "handler_function.py" d_workflow d_function)
        as (fs1 & fs2 & Hren & Hrem & Hread & Hex & Hgone1 & Hgone2);
        try reflexivity; try discriminate; try assumption.
      exists {| self := self s1; world := set_fs fs2 (set_fs fs1 (world s1)) |}.
      cbv [fs_call bind get_world lift modify_world]. rewrite Hren. simpl.
      rewrite Hrem. split; [reflexivity|]. simpl. split; [exact Hread|].
      unfold wrappers_present. simpl.
      change ("handler" ++ ".py")%string with "handler.py".
      change ("handler_function" ++ ".py")%string with "handler_function.py".
      change ("handler_workflow" ++ ".py")%string with "handler_workflow.py".
      now rewrite Hex, Hgone1, Hgone2.
    + destruct (select_wrapper (cwd (world s1)) (fs (world s1)) output_dir
                  "handler_function.py" "handler_workflow.py" d_function d_workflow)
        as (fs1 & fs2 & Hren & Hrem & Hread & Hex & Hgone1 & Hgone2);
        try reflexivity; try discriminate; try assumption.
      exists {| self := self s1; world := set_fs fs2 (set_fs fs1 (world s1)) |}.
      cbv [fs_call bind get_world lift modify_world]. rewrite Hren. simpl.
      rewrite Hrem. split; [reflexivity|]. simpl. split; [exact Hread|].
      unfold wrappers_present. simpl.
      change ("handler" ++ ".py")%string with "handler.py".
      change ("handler_function" ++ ".py")%string with "handler_function.py".
      change ("handler_workflow" ++ ".py")%string with "handler_workflow.py".
      now rewrite Hex, Hgone1, Hgone2.
  - intros t Ht. unfold add_deployment_files, copy_handlers. cbv [bind get_self].
    unfold language_name. rewrite Ht.
    change (Str.eqb (Language_value NODEJS) "python") with false. cbv iota.
    destruct (for_each _ _ t) as [[[]|e] t1]; reflexivity.
Qed.

Lemma add_deployment_files_selects_wrapper_witness :
  fst (add_deployment_files Scenario.externals "/out/bench_code" true
         (Scenario.scratch "sebs" PYTHON false)) = Ok tt
  /\ Fs.read_file ["sebs"]
       (fs (world (snd (add_deployment_files Scenario.externals "/out/bench_code" true
                          (Scenario.scratch "sebs" PYTHON false)))))
       "/out/bench_code/handler.py" = Ok (str_encode "# workflow")
  /\ wrappers_present
       (world (snd (add_deployment_files Scenario.externals "/out/bench_code" true
                      (Scenario.scratch "sebs" PYTHON false))))
       "/out/bench_code" ".py" = ["handler.py"].
Proof.
  set (s := Scenario.scratch "sebs" PYTHON false).
  assert (Hcopy : copy_handlers Scenario.externals (self s) "/out/bench_code" s
                  = (Ok tt, snd (copy_handlers Scenario.externals (self s)
                                   "/out/bench_code" s))).
  { rewrite (surjective_pairing (copy_handlers _ _ _ _)) at 1. f_equal. }
  destruct (add_deployment_files_selects_wrapper Scenario.externals "/out/bench_code"
              true s _ (str_encode "# function") (str_encode "# workflow")
              eq_refl Hcopy)
    as [(s2 & Hrun & Hread & Hone) _]; try (vm_compute; reflexivity).
  assert (Hs2 : s2 = snd (add_deployment_files Scenario.externals "/out/bench_code"
                             true s)) by now rewrite Hrun.
  subst s2. split; [exact (f_equal fst Hrun)|]. split; [exact Hread|exact Hone].
Defined.

(** C4 fails as stated for nodejs: the two variants are copied and stay,
    and no file is at the entry point. *)
Lemma nodejs_wrappers_are_not_selected :
  _language (self (Scenario.scratch "sebs" NODEJS false)) = NODEJS
  /\ fst (add_deployment_files Scenario.externals "/out/bench_code" true
            (Scenario.scratch "sebs" NODEJS false)) = Ok tt
  /\ wrappers_present
       (world (snd (add_deployment_files Scenario.externals "/out/bench_code" true
                      (Scenario.scratch "sebs" NODEJS false))))
       "/out/bench_code" ".js" = ["handler_function.js"; "handler_workflow.js"]
  /\ Fs.exists_ ["sebs"]
       (fs (world (snd (add_deployment_files Scenario.externals "/out/bench_code" true
                          (Scenario.scratch "sebs" NODEJS false)))))
       "/out/bench_code/handler.js" = false.
Proof. vm_compute. repeat split. Qed.

(** ** The content hash reads its source tree only *)

Module TreeFacts.
Import Fs Tree.

Lemma plain_inv (n : string) :
  OsPath.plain n = true ->
  Str.split OsPath.sep n = [n] /\ Str.eqb n "" = false
  /\ Str.eqb n "." = false /\ Str.eqb n ".." = false.
Proof.
  unfold OsPath.plain. intros H.
  apply andb_prop in H as [H H3]. apply andb_prop in H as [H H2].
  apply andb_prop in H as [H0 H1].
  apply negb_true_iff in H1, H2, H3. apply bool_decide_eq_true in H0. auto.
Qed.

Section Region.

Variable region : loc -> bool.

Lemma lookup_restrict (fs : t) (l : loc) :
  region l = true -> lookup (restrict region fs) l = lookup fs l.
Proof.
  intros Hl. unfold restrict. induction fs as [|[k n] fs IH]; simpl; [reflexivity|].
  destruct (region k) eqn:Hk; simpl.
  - now rewrite IH.
  - rewrite IH. destruct (loc_eqb k l) eqn:Hkl; [|reflexivity].
    apply bool_decide_eq_true in Hkl. congruence.
Qed.

Lemma node_at_restrict (fs : t) (l : loc) :
  region l = true -> node_at (restrict region fs) l = node_at fs l.
Proof.
  intros Hl. unfold node_at. destruct l; [reflexivity|]. now apply lookup_restrict.
Qed.

Lemma children_restrict (fs : t) (d : loc) :
  (forall n, region (d ++ [n]) = true) ->
  children (restrict region fs) d = children fs d.
Proof.
  intros Hd. unfold children, restrict.
  set (f := fun e : loc * node =>
              if loc_eqb (parent (fst e)) d then last (fst e) else None).
  unfold omap.
  induction fs as [|[k n] fs IH]; simpl; [reflexivity|].
  destruct (region k) eqn:Hk; simpl.
  - now rewrite IH.
  - rewrite IH. replace (f (k, n)) with (@None string); [reflexivity|].
    subst f. simpl. destruct (loc_eqb (parent k) d) eqn:Hp; [|reflexivity].
    destruct (last k) as [x|] eqn:Hlast; [|reflexivity].
    exfalso. apply last_Some in Hlast as [k' ->].
    apply bool_decide_eq_true in Hp. unfold parent in Hp.
    rewrite removelast_last in Hp. subst k'. rewrite Hd in Hk. discriminate.
Qed.

Lemma children_plain (fs : t) (d : loc) (n : string) :
  plain_names fs = true -> In n (children fs d) -> OsPath.plain n = true.
Proof.
  unfold plain_names, children.
  set (f := fun e : loc * node =>
              if loc_eqb (parent (fst e)) d then last (fst e) else None).
  unfold omap. intros Hp Hin.
  induction fs as [|[k m] fs IH]; simpl in *; [contradiction|].
  apply andb_prop in Hp as [Hk Hp].
  destruct (f (k, m)) as [x|] eqn:Hf; [|now apply IH].
  destruct Hin as [<-|Hin]; [|now apply IH].
  subst f. simpl in Hf. destruct (loc_eqb (parent k) d); [|discriminate Hf].
  apply last_Some in Hf as [k' ->].
  rewrite forallb_app in Hk. apply andb_prop in Hk as [_ Hk].
  simpl in Hk. now apply andb_prop in Hk as [Hk _].
Qed.

Variables fs fs' : t.

Hypothesis same : restrict region fs = restrict region fs'.

Lemma node_at_same (l : loc) : region l = true -> node_at fs l = node_at fs' l.
Proof.
  intros Hl. rewrite <- (node_at_restrict fs), <- (node_at_restrict fs') by exact Hl.
  now rewrite same.
Qed.

Lemma is_dir_same (l : loc) : region l = true -> is_dir fs l = is_dir fs' l.
Proof. intros Hl. unfold is_dir. now rewrite node_at_same. Qed.

Lemma children_same (d : loc) :
  (forall n, region (d ++ [n]) = true) -> children fs d = children fs' d.
Proof.
  intros Hd. rewrite <- (children_restrict fs), <- (children_restrict fs') by exact Hd.
  now rewrite same.
Qed.

(** A walk along plain names looks at the places on the way, and lands
    where the names lead. *)
Lemma walk_same (xs : list string) :
  forall cur,
    forallb OsPath.plain xs = true ->
    (forall k, region (cur ++ take k xs) = true) ->
    walk fs cur xs = walk fs' cur xs.
Proof.
  induction xs as [|x xs IH]; intros cur Hp Hr; simpl; [reflexivity|].
  simpl in Hp. apply andb_prop in Hp as [Hx Hp].
  destruct (plain_inv x Hx) as (_ & H1 & H2 & H3).
  rewrite H1, H2, H3. simpl.
  rewrite (is_dir_same cur).
  2:{ specialize (Hr 0). simpl in Hr. now rewrite app_nil_r in Hr. }
  destruct (is_dir fs' cur); [|reflexivity].
  apply IH; [exact Hp|]. intros k. specialize (Hr (S k)). simpl in Hr.
  now rewrite <- app_assoc.
Qed.

End Region.

Lemma walk_lands (fs : t) (xs : list string) :
  forall cur l,
    forallb OsPath.plain xs = true -> walk fs cur xs = Some l -> l = cur ++ xs.
Proof.
  induction xs as [|x xs IH]; intros cur l Hp Hw; simpl in *.
  - injection Hw as <-. now rewrite app_nil_r.
  - apply andb_prop in Hp as [Hx Hp].
    destruct (plain_inv x Hx) as (_ & H1 & H2 & H3).
    rewrite H1, H2, H3 in Hw. simpl in Hw.
    destruct (is_dir fs cur); [|discriminate Hw].
    rewrite (IH _ _ Hp Hw). now rewrite <- app_assoc.
Qed.

End TreeFacts.
(** ** Paths that spell a location *)

Module SpelledFacts.
Import PathFacts.

Lemma cons_app (x : ascii) (a b : string) :
  (String x a ++ b)%string = String x (a ++ b)%string.
Proof. reflexivity. Qed.

Lemma has_magic_app (a b : string) :
  Glob.has_magic (a ++ b) = (Glob.has_magic a || Glob.has_magic b)%bool.
Proof.
  induction a as [|x a IH]; [reflexivity|].
  rewrite cons_app. simpl. rewrite IH. now rewrite !orb_assoc.
Qed.

Lemma app_snoc (a : string) (c : ascii) (b : string) :
  (a ++ String c b)%string = ((a ++ String c "") ++ b)%string.
Proof.
  induction a as [|x a IH]; [reflexivity|]. rewrite !cons_app. now rewrite IH.
Qed.

Lemma string_length_app (a b : string) :
  String.length (a ++ b) = String.length a + String.length b.
Proof.
  induction a as [|x a IH]; [reflexivity|]. rewrite cons_app. simpl. now rewrite IH.
Qed.

Lemma substring_app (a b : string) :
  String.substring 0 (String.length a) (a ++ b) = a.
Proof.
  induction a as [|x a IH].
  - simpl. now destruct b.
  - rewrite cons_app. simpl. now rewrite IH.
Qed.

Lemma rstrip_snoc (c : ascii) (s : string) :
  OsPath.rstrip c (s ++ String c "") = OsPath.rstrip c s.
Proof.
  induction s as [|x s IH].
  - simpl. now rewrite Ascii.eqb_refl.
  - rewrite cons_app. simpl. now rewrite IH.
Qed.

Lemma rstrip_id (c : ascii) (s : string) :
  Str.endswith_char s c = false -> OsPath.rstrip c s = s.
Proof.
  induction s as [|x s IH]; [reflexivity|].
  destruct s as [|y s].
  - simpl. now intros ->.
  - intros H. change (Str.endswith_char (String y s) c = false) in H.
    change (OsPath.rstrip c (String x (String y s)))
      with (match OsPath.rstrip c (String y s) with
            | EmptyString => if Ascii.eqb x c then EmptyString else String x EmptyString
            | r => String x r
            end).
    now rewrite (IH H).
Qed.

Lemma endswith_app (a b : string) (c : ascii) :
  b <> "" -> Str.endswith_char (a ++ b) c = Str.endswith_char b c.
Proof.
  intros Hb. induction a as [|x a IH]; [reflexivity|].
  rewrite cons_app. destruct (a ++ b)%string as [|y r] eqn:Hab.
  - destruct a; [simpl in Hab; contradiction|discriminate Hab].
  - exact IH.
Qed.

(** [os.path.split] of a name under a directory gives the two back. *)
Lemma os_split_child (p n : string) :
  p <> "" -> Str.endswith_char p OsPath.sep = false ->
  Str.split OsPath.sep n = [n] ->
  OsPath.split (p ++ String OsPath.sep n) = (p, n).
Proof.
  intros Hp Hend Hn. unfold OsPath.split, OsPath.basename.
  rewrite split_app_sep, Hn, last_last.
  replace (String.length (p ++ String OsPath.sep n) - String.length n)
    with (String.length (p ++ String OsPath.sep "")).
  2:{ rewrite !string_length_app. simpl. lia. }
  rewrite (app_snoc p OsPath.sep n), substring_app, rstrip_snoc, rstrip_id by exact Hend.
  destruct p; [contradiction|reflexivity].
Qed.

Lemma spells_inv (p : string) (l : Fs.loc) :
  Tree.spells p l = true ->
  Str.split OsPath.sep p = "" :: l /\ forallb OsPath.plain l = true
  /\ Glob.has_magic p = false /\ l <> [].
Proof.
  unfold Tree.spells. intros H.
  apply andb_prop in H as [H H4]. apply andb_prop in H as [H H3].
  apply andb_prop in H as [H1 H2].
  apply negb_true_iff in H3, H4.
  apply bool_decide_eq_true in H1. apply bool_decide_eq_false in H4. auto.
Qed.

Section Spelled.

Variables (p : string) (l : Fs.loc).

Hypothesis spelled : Tree.spells p l = true.

Lemma spelled_split : Str.split OsPath.sep p = "" :: l.
Proof. now destruct (spells_inv p l spelled) as (H & _). Qed.

Lemma spelled_plain : forallb OsPath.plain l = true.
Proof. now destruct (spells_inv p l spelled) as (_ & H & _). Qed.

Lemma spelled_no_magic : Glob.has_magic p = false.
Proof. now destruct (spells_inv p l spelled) as (_ & _ & H & _). Qed.

Lemma spelled_steps : l <> [].
Proof. now destruct (spells_inv p l spelled) as (_ & _ & _ & H). Qed.

Lemma spelled_nonempty : p <> "".
Proof.
  pose proof spelled_split as H. pose proof spelled_steps as Hst.
  intros Hp. rewrite Hp in H. simpl in H. injection H as H. now apply Hst.
Qed.

Lemma spelled_abs : OsPath.isabs p = true.
Proof.
  pose proof spelled_split as H. pose proof spelled_nonempty as Hne.
  destruct p as [|c r]; [contradiction|].
  unfold OsPath.isabs, Str.startswith. rewrite prefix_char.
  apply bool_decide_eq_true_2. simpl in H.
  destruct (Ascii.eqb c OsPath.sep) eqn:Hc.
  - apply Ascii.eqb_eq in Hc. now subst c.
  - destruct (Str.split OsPath.sep r); discriminate H.
Qed.

Lemma spelled_no_slash_at_end : Str.endswith_char p OsPath.sep = false.
Proof.
  destruct (Str.endswith_char p OsPath.sep) eqn:Hend; [|reflexivity].
  exfalso. destruct (endswith_char_app p OsPath.sep Hend) as [s0 Hs0].
  pose proof spelled_split as H. rewrite Hs0, split_app_sep in H. simpl in H.
  pose proof spelled_plain as Hpl. pose proof spelled_steps as Hst.
  assert (Hlast : last ("" :: l) = Some "").
  { rewrite <- H. apply last_snoc. }
  destruct l as [|x l'] eqn:Hl; [contradiction|].
  rewrite last_cons in Hlast.
  destruct (last (x :: l')) as [y|] eqn:Hy.
  - injection Hlast as ->. apply last_Some in Hy as [k Hk].
    rewrite Hk, forallb_app in Hpl. apply andb_prop in Hpl as [_ Hpl].
    simpl in Hpl. discriminate Hpl.
  - apply last_None in Hy. discriminate Hy.
Qed.

Lemma spelled_resolve (cwd : Fs.loc) (fs : Fs.t) :
  Fs.resolve cwd fs p = Fs.walk fs [] l.
Proof.
  unfold Fs.resolve. rewrite spelled_abs, spelled_split.
  unfold Str.eqb. rewrite bool_decide_eq_false_2 by exact spelled_nonempty.
  reflexivity.
Qed.

(** A name that is not rooted goes under the directory as it is. *)
Lemma spelled_join (n : string) :
  Str.startswith n "/" = false -> OsPath.join p n = (p ++ String OsPath.sep n)%string.
Proof.
  intros Hn. unfold OsPath.join. rewrite Hn, spelled_no_slash_at_end.
  unfold Str.eqb. rewrite bool_decide_eq_false_2 by exact spelled_nonempty.
  reflexivity.
Qed.

(** A path under the directory is rooted, and joining it to any path
    gives it back. *)
Lemma spelled_child_rooted (n d : string) :
  OsPath.join d (p ++ String OsPath.sep n) = (p ++ String OsPath.sep n)%string.
Proof.
  unfold OsPath.join. rewrite prefix_slash_app by exact spelled_nonempty.
  pose proof spelled_abs as H. unfold OsPath.isabs in H. now rewrite H.
Qed.

Lemma spelled_child_split (n : string) :
  Str.split OsPath.sep n = [n] ->
  Str.split OsPath.sep (p ++ String OsPath.sep n) = "" :: l ++ [n].
Proof. intros Hn. now rewrite split_app_sep, spelled_split, Hn. Qed.

Lemma spelled_child_resolve (cwd : Fs.loc) (fs : Fs.t) (n : string) :
  Str.split OsPath.sep n = [n] ->
  Fs.resolve cwd fs (p ++ String OsPath.sep n) = Fs.walk fs [] (l ++ [n]).
Proof.
  intros Hn. unfold Fs.resolve. rewrite (spelled_child_split n Hn).
  unfold OsPath.isabs. rewrite prefix_slash_app by exact spelled_nonempty.
  pose proof spelled_abs as H. unfold OsPath.isabs in H. rewrite H.
  unfold Str.eqb. rewrite bool_decide_eq_false_2; [reflexivity|].
  pose proof spelled_nonempty. destruct p; [contradiction|discriminate].
Qed.

End Spelled.

End SpelledFacts.
(** ** A directory read through a region that holds it *)

Module SameTree.
Import Fs Tree TreeFacts SpelledFacts PathFacts.

Lemma names_of_entries (keep : string * bool -> bool) (g : string -> bool)
    (xs : list string) :
  (forall e, keep e = true) ->
  map fst (List.filter keep (map (fun n => (n, g n)) xs)) = xs.
Proof.
  intros Hk. induction xs as [|x xs IH]; simpl; [reflexivity|].
  rewrite Hk. simpl. now rewrite IH.
Qed.

Lemma glob1_listdir (cwd : loc) (fs : t) (d pat : string) :
  Glob.glob1 cwd fs d pat false
  = match listdir cwd fs (if Str.eqb d "" then "." else d) with
    | Raise _ => []
    | Ok names =>
        List.filter (Glob.fnmatch pat)
          (if Glob.ishidden pat then names
           else List.filter (fun x => negb (Glob.ishidden x)) names)
    end.
Proof.
  unfold Glob.glob1, scandir, listdir.
  destruct (resolve cwd fs _) as [l0|]; [|reflexivity].
  destruct (node_at fs l0) as [[d0|]|]; try reflexivity.
  now rewrite (names_of_entries _ (fun n => is_dir fs (l0 ++ [n])))
    by reflexivity.
Qed.

Section Directory.

Variables (cwd cwd' : loc) (fs fs' : t) (region : loc -> bool).

Hypothesis same : restrict region fs = restrict region fs'.
Hypothesis names : plain_names (restrict region fs) = true.

Variables (p : string) (l : loc).

Hypothesis spelled : spells p l = true.
Hypothesis on_the_way : forall k, region (take k l) = true.
Hypothesis under : forall n, region (l ++ [n]) = true.

Lemma child_region (n : string) (k : nat) : region (take k (l ++ [n])) = true.
Proof.
  destruct (decide (k <= length l)) as [Hk|Hk].
  - rewrite take_app_le by exact Hk. apply on_the_way.
  - rewrite take_ge; [apply under|]. rewrite List.length_app. simpl. lia.
Qed.

Lemma resolve_dir_same : resolve cwd fs p = resolve cwd' fs' p.
Proof.
  rewrite !(spelled_resolve p l spelled).
  apply (walk_same region fs fs' same); [exact (spelled_plain p l spelled)|].
  intros k. apply on_the_way.
Qed.

Lemma resolve_dir_lands (l0 : loc) : resolve cwd fs p = Some l0 -> l0 = l.
Proof.
  rewrite (spelled_resolve p l spelled). intros H.
  now rewrite (walk_lands fs l [] l0 (spelled_plain p l spelled) H).
Qed.

Lemma child_plain (n : string) :
  OsPath.plain n = true -> forallb OsPath.plain (l ++ [n]) = true.
Proof.
  intros Hn. rewrite forallb_app, (spelled_plain p l spelled). simpl. now rewrite Hn.
Qed.

Lemma resolve_child_same (n : string) :
  OsPath.plain n = true ->
  resolve cwd fs (p ++ String OsPath.sep n) = resolve cwd' fs' (p ++ String OsPath.sep n).
Proof.
  intros Hn. destruct (plain_inv n Hn) as (Hs & _).
  rewrite !(spelled_child_resolve p l spelled _ _ n Hs).
  apply (walk_same region fs fs' same); [now apply child_plain|].
  intros k. apply child_region.
Qed.

Lemma resolve_child_lands (n : string) (l0 : loc) :
  OsPath.plain n = true ->
  resolve cwd fs (p ++ String OsPath.sep n) = Some l0 -> l0 = l ++ [n].
Proof.
  intros Hn. destruct (plain_inv n Hn) as (Hs & _).
  rewrite (spelled_child_resolve p l spelled _ _ n Hs). intros H.
  now rewrite (walk_lands fs (l ++ [n]) [] l0 (child_plain n Hn) H).
Qed.

Lemma read_child_same (n : string) :
  OsPath.plain n = true ->
  read_file cwd fs (p ++ String OsPath.sep n)
  = read_file cwd' fs' (p ++ String OsPath.sep n).
Proof.
  intros Hn. unfold read_file. rewrite <- (resolve_child_same n Hn).
  destruct (resolve cwd fs _) as [l0|] eqn:Hr; [|reflexivity].
  rewrite (resolve_child_lands n l0 Hn Hr).
  now rewrite (node_at_same region fs fs' same _ (under n)).
Qed.

Lemma exists_child_same (n : string) :
  OsPath.plain n = true ->
  exists_ cwd fs (p ++ String OsPath.sep n)
  = exists_ cwd' fs' (p ++ String OsPath.sep n).
Proof.
  intros Hn. unfold exists_. rewrite <- (resolve_child_same n Hn).
  destruct (resolve cwd fs _) as [l0|] eqn:Hr; [|reflexivity].
  rewrite (resolve_child_lands n l0 Hn Hr).
  now rewrite (node_at_same region fs fs' same _ (under n)).
Qed.

Lemma listdir_same : listdir cwd fs p = listdir cwd' fs' p.
Proof.
  unfold listdir. rewrite <- resolve_dir_same.
  destruct (resolve cwd fs p) as [l0|] eqn:Hr; [|reflexivity].
  rewrite (resolve_dir_lands l0 Hr).
  rewrite (node_at_same region fs fs' same l).
  2:{ specialize (on_the_way (length l)). now rewrite firstn_all in on_the_way. }
  now rewrite (children_same region fs fs' same l under).
Qed.

Lemma listdir_plain (found : list string) (n : string) :
  listdir cwd fs p = Ok found -> In n found -> OsPath.plain n = true.
Proof.
  unfold listdir.
  destruct (resolve cwd fs p) as [l0|] eqn:Hr; [|discriminate].
  rewrite (resolve_dir_lands l0 Hr).
  destruct (node_at fs l) as [[d|]|]; try discriminate.
  intros H. injection H as <-.
  rewrite <- (children_restrict region fs l under).
  now apply children_plain.
Qed.

(** [glob] of a pattern under the directory: a scan of the directory, or
    an existence test. *)
Lemma glob_child (c : loc) (f : t) (n : string) :
  OsPath.plain n = true ->
  Glob.glob c f (p ++ String OsPath.sep n)
  = if Glob.has_magic n
    then map (OsPath.join p) (Glob.glob1 c f p n false)
    else if exists_ c f (p ++ String OsPath.sep n)
         then [(p ++ String OsPath.sep n)%string] else [].
Proof.
  intros Hn. destruct (plain_inv n Hn) as (Hs & Hne & _).
  unfold Glob.glob. cbn [Glob.iglob].
  rewrite (os_split_child p n (spelled_nonempty p l spelled)
             (spelled_no_slash_at_end p l spelled) Hs).
  rewrite has_magic_app, (spelled_no_magic p l spelled), Hne.
  change (Glob.has_magic (String OsPath.sep n)) with (Glob.has_magic n).
  unfold Str.eqb at 1.
  rewrite (bool_decide_eq_false_2 (p = "")) by exact (spelled_nonempty p l spelled).
  simpl. destruct (Glob.has_magic n); [|reflexivity].
  rewrite andb_false_r. simpl. now rewrite app_nil_r.
Qed.

Lemma glob_same (n : string) :
  OsPath.plain n = true ->
  Glob.glob cwd fs (p ++ String OsPath.sep n)
  = Glob.glob cwd' fs' (p ++ String OsPath.sep n).
Proof.
  intros Hn. rewrite !(glob_child _ _ n Hn), !glob1_listdir.
  unfold Str.eqb.
  rewrite (bool_decide_eq_false_2 (p = "")) by exact (spelled_nonempty p l spelled).
  now rewrite listdir_same, (exists_child_same n Hn).
Qed.

(** What [glob] finds is a plain name under the directory. *)
Lemma glob_found (n f : string) :
  OsPath.plain n = true ->
  In f (Glob.glob cwd fs (p ++ String OsPath.sep n)) ->
  exists m, OsPath.plain m = true /\ f = (p ++ String OsPath.sep m)%string.
Proof.
  intros Hn. rewrite (glob_child _ _ n Hn), glob1_listdir.
  unfold Str.eqb.
  rewrite (bool_decide_eq_false_2 (p = "")) by exact (spelled_nonempty p l spelled).
  destruct (Glob.has_magic n).
  - destruct (listdir cwd fs p) as [found|e] eqn:Hl; [|intros []].
    intros Hin. apply in_map_iff in Hin as (m & <- & Hin).
    apply filter_In in Hin as [Hin _].
    assert (Hm : In m found).
    { destruct (Glob.ishidden n); [exact Hin|]. now apply filter_In in Hin as [Hin _]. }
    pose proof (listdir_plain found m Hl Hm) as Hplain.
    exists m. split; [exact Hplain|].
    apply (spelled_join p l spelled). now apply plain_not_rooted.
  - destruct (exists_ cwd fs _); [|intros []].
    intros [<-|[]]. now exists n.
Qed.

(** Reading what [glob] found, the way [hash_directory] joins it. *)
Lemma read_found_same (d n f : string) :
  OsPath.plain n = true ->
  In f (Glob.glob cwd fs (p ++ String OsPath.sep n)) ->
  read_file cwd fs (OsPath.join d f) = read_file cwd' fs' (OsPath.join d f).
Proof.
  intros Hn Hin. destruct (glob_found n f Hn Hin) as (m & Hm & ->).
  rewrite (spelled_child_rooted p l spelled). now apply read_child_same.
Qed.

End Directory.

End SameTree.
(** ** The digest of a source tree *)

Section HashTree.
Import Fs Tree TreeFacts SpelledFacts PathFacts SameTree.

Lemma FILES_plain (language : string) (files : list string) :
  FILES language = Some files ->
  forallb OsPath.plain (files ++ NON_LANG_FILES) = true.
Proof.
  unfold FILES. destruct (Str.eqb language "python").
  - intros H. injection H as <-. reflexivity.
  - destruct (Str.eqb language "nodejs"); [|discriminate].
    intros H. injection H as <-. reflexivity.
Qed.

Lemma WRAPPERS_plain (language pattern : string) :
  WRAPPERS language = Some pattern -> OsPath.plain pattern = true.
Proof.
  unfold WRAPPERS. destruct (Str.eqb language "python").
  - intros H. injection H as <-. reflexivity.
  - destruct (Str.eqb language "nodejs"); [|discriminate].
    intros H. injection H as <-. reflexivity.
Qed.

Lemma feed_same (w w' : World) (paths : list string) :
  (forall p, In p paths ->
     read_file (cwd w) (fs w) p = read_file (cwd w') (fs w') p) ->
  forall fed, feed w fed paths = feed w' fed paths.
Proof.
  induction paths as [|p rest IH]; intros H fed; simpl; [reflexivity|].
  rewrite (H p) by now left.
  destruct (read_file _ _ p); [|reflexivity].
  apply IH. intros p' Hp'. apply H. now right.
Qed.

Variables (w w' : World) (directory wrappers : string) (B W : loc).

Hypothesis directory_spelled : spells directory B = true.
Hypothesis wrappers_spelled : spells wrappers W = true.
Hypothesis same :
  restrict (source_tree B W) (fs w) = restrict (source_tree B W) (fs w').
Hypothesis names : plain_names (restrict (source_tree B W) (fs w)) = true.

Lemma tree_to_directory (k : nat) : source_tree B W (take k B) = true.
Proof.
  unfold source_tree. rewrite !orb_true_iff, !bool_decide_eq_true.
  pose proof (prefix_take B k). tauto.
Qed.

Lemma tree_under_directory (n : string) : source_tree B W (B ++ [n]) = true.
Proof.
  unfold source_tree. rewrite !orb_true_iff, !bool_decide_eq_true.
  assert (B `prefix_of` B ++ [n]) by now exists [n]. tauto.
Qed.

Lemma tree_to_wrappers (k : nat) : source_tree B W (take k W) = true.
Proof.
  unfold source_tree. rewrite !orb_true_iff, !bool_decide_eq_true.
  pose proof (prefix_take W k). tauto.
Qed.

Lemma tree_under_wrappers (n : string) : source_tree B W (W ++ [n]) = true.
Proof.
  unfold source_tree. rewrite !orb_true_iff, !bool_decide_eq_true.
  assert (W `prefix_of` W ++ [n]) by now exists [n]. tauto.
Qed.

Lemma tree_directory : source_tree B W B = true.
Proof. pose proof (tree_to_directory (length B)) as H. now rewrite firstn_all in H. Qed.

Lemma tree_parent : source_tree B W (parent B) = true.
Proof.
  unfold source_tree. rewrite !orb_true_iff, !bool_decide_eq_true.
  assert (parent B `prefix_of` B).
  { unfold parent. destruct (decide (B = [])) as [->|Hne]; [reflexivity|].
    exists [List.last B ""]. now apply app_removelast_last. }
  tauto.
Qed.

Lemma tree_definition : source_tree B W (parent B ++ ["definition.json"]) = true.
Proof.
  unfold source_tree. rewrite !orb_true_iff, !bool_decide_eq_true. tauto.
Qed.

(** The patterns of the language directory find the same files. *)
Lemma found_same (patterns : list string) :
  forallb OsPath.plain patterns = true ->
  flat_map (fun file_type =>
              map (OsPath.join directory)
                (Glob.glob (cwd w) (fs w) (OsPath.join directory file_type))) patterns
  = flat_map (fun file_type =>
                map (OsPath.join directory)
                  (Glob.glob (cwd w') (fs w') (OsPath.join directory file_type))) patterns.
Proof.
  induction patterns as [|x xs IH]; intros Hp; simpl; [reflexivity|].
  simpl in Hp. apply andb_prop in Hp as [Hx Hp]. rewrite (IH Hp).
  rewrite (spelled_join directory B directory_spelled x (plain_not_rooted x Hx)).
  now rewrite (glob_same (cwd w) (cwd w') (fs w) (fs w') (source_tree B W) same
                 directory B directory_spelled tree_to_directory tree_under_directory
                 x Hx).
Qed.

Lemma found_read (patterns : list string) (path : string) :
  forallb OsPath.plain patterns = true ->
  In path (flat_map (fun file_type =>
                       map (OsPath.join directory)
                         (Glob.glob (cwd w) (fs w) (OsPath.join directory file_type)))
             patterns) ->
  read_file (cwd w) (fs w) path = read_file (cwd w') (fs w') path.
Proof.
  intros Hp Hin. apply in_flat_map in Hin as (x & Hx & Hin).
  apply in_map_iff in Hin as (f & <- & Hf).
  assert (Hplain : OsPath.plain x = true).
  { rewrite forallb_forall in Hp. now apply Hp. }
  rewrite (spelled_join directory B directory_spelled x (plain_not_rooted x Hplain)) in Hf.
  exact (read_found_same (cwd w) (cwd w') (fs w) (fs w') (source_tree B W) same names
           directory B directory_spelled tree_to_directory tree_under_directory
           directory x f Hplain Hf).
Qed.

(** The workflow definition next to the language directory. *)
Lemma definition_path_eq :
  OsPath.join_all directory [OsPath.pardir; "definition.json"]
  = ((directory ++ String OsPath.sep "..") ++ String OsPath.sep "definition.json")%string.
Proof.
  unfold OsPath.join_all, OsPath.pardir. simpl fold_left.
  rewrite (spelled_join directory B directory_spelled "..") by reflexivity.
  unfold OsPath.join.
  change (Str.startswith "definition.json" "/") with false. cbv iota.
  rewrite endswith_app by discriminate.
  change (Str.endswith_char (String OsPath.sep "..") OsPath.sep) with false.
  unfold Str.eqb. rewrite bool_decide_eq_false_2; [reflexivity|].
  pose proof (spelled_nonempty directory B directory_spelled).
  destruct directory; [contradiction|discriminate].
Qed.

Lemma definition_resolve (c : loc) (f : t) :
  resolve c f (OsPath.join_all directory [OsPath.pardir; "definition.json"])
  = match walk f [] B with
    | Some l0 => walk f l0 [".."; "definition.json"]
    | None => None
    end.
Proof.
  rewrite definition_path_eq. unfold resolve.
  assert (Hne : directory <> "") by exact (spelled_nonempty directory B directory_spelled).
  unfold Str.eqb at 1. rewrite bool_decide_eq_false_2.
  2:{ destruct directory; [contradiction|discriminate]. }
  unfold OsPath.isabs. rewrite prefix_slash_app.
  2:{ destruct directory; [contradiction|discriminate]. }
  rewrite prefix_slash_app by exact Hne.
  pose proof (spelled_abs directory B directory_spelled) as Habs.
  unfold OsPath.isabs in Habs. rewrite Habs.
  rewrite !split_app_sep, (spelled_split directory B directory_spelled).
  change (Str.split OsPath.sep "..") with [".."].
  change (Str.split OsPath.sep "definition.json") with ["definition.json"].
  change (walk f [] (("" :: B ++ [".."]) ++ ["definition.json"]))
    with (walk f [] ((B ++ [".."]) ++ ["definition.json"])).
  now rewrite <- app_assoc, walk_app.
Qed.

Lemma definition_lands (c : loc) (f : t) (l0 : loc) :
  resolve c f (OsPath.join_all directory [OsPath.pardir; "definition.json"]) = Some l0 ->
  l0 = parent B ++ ["definition.json"].
Proof.
  rewrite definition_resolve.
  destruct (walk f [] B) as [l1|] eqn:Hw; [|discriminate].
  rewrite (walk_lands f B [] l1 (spelled_plain directory B directory_spelled) Hw).
  simpl. destruct (is_dir f B); [|discriminate].
  change (Str.eqb ".." "" || Str.eqb ".." ".")%bool with false.
  change (Str.eqb ".." "..") with true.
  change (Str.eqb "definition.json" "" || Str.eqb "definition.json" ".")%bool with false.
  change (Str.eqb "definition.json" "..") with false. cbv iota.
  destruct (is_dir f (parent B)); [|discriminate].
  now intros H; injection H as <-.
Qed.

Lemma definition_resolve_same :
  resolve (cwd w) (fs w) (OsPath.join_all directory [OsPath.pardir; "definition.json"])
  = resolve (cwd w') (fs w') (OsPath.join_all directory [OsPath.pardir; "definition.json"]).
Proof.
  rewrite !definition_resolve.
  rewrite <- (walk_same (source_tree B W) (fs w) (fs w') same B []
                (spelled_plain directory B directory_spelled) tree_to_directory).
  destruct (walk (fs w) [] B) as [l1|] eqn:Hw; [|reflexivity].
  rewrite (walk_lands (fs w) B [] l1 (spelled_plain directory B directory_spelled) Hw).
  simpl.
  rewrite <- (is_dir_same (source_tree B W) (fs w) (fs w') same B tree_directory).
  destruct (is_dir (fs w) B); [|reflexivity].
  change (Str.eqb ".." "" || Str.eqb ".." ".")%bool with false.
  change (Str.eqb ".." "..") with true.
  change (Str.eqb "definition.json" "" || Str.eqb "definition.json" ".")%bool with false.
  change (Str.eqb "definition.json" "..") with false. cbv iota.
  now rewrite <- (is_dir_same (source_tree B W) (fs w) (fs w') same (parent B) tree_parent).
Qed.

Lemma definition_same :
  let definition_path := OsPath.join_all directory [OsPath.pardir; "definition.json"] in
  exists_ (cwd w) (fs w) definition_path = exists_ (cwd w') (fs w') definition_path
  /\ read_file (cwd w) (fs w) definition_path
     = read_file (cwd w') (fs w') definition_path.
Proof.
  cbv zeta. unfold exists_, read_file.
  rewrite <- definition_resolve_same.
  destruct (resolve (cwd w) (fs w) _) as [l0|] eqn:Hr; [|split; reflexivity].
  rewrite (definition_lands _ _ l0 Hr).
  rewrite (node_at_same (source_tree B W) (fs w) (fs w') same _ tree_definition).
  split; reflexivity.
Qed.

(** The wrappers of the deployment. *)
Lemma wrappers_same (pattern : string) :
  OsPath.plain pattern = true ->
  Glob.glob (cwd w) (fs w) (OsPath.join wrappers pattern)
  = Glob.glob (cwd w') (fs w') (OsPath.join wrappers pattern).
Proof.
  intros Hp.
  rewrite (spelled_join wrappers W wrappers_spelled pattern (plain_not_rooted _ Hp)).
  exact (glob_same (cwd w) (cwd w') (fs w) (fs w') (source_tree B W) same
           wrappers W wrappers_spelled tree_to_wrappers tree_under_wrappers pattern Hp).
Qed.

Lemma wrappers_read (pattern path : string) :
  OsPath.plain pattern = true ->
  In path (map (OsPath.join directory)
             (Glob.glob (cwd w) (fs w) (OsPath.join wrappers pattern))) ->
  read_file (cwd w) (fs w) path = read_file (cwd w') (fs w') path.
Proof.
  intros Hp Hin. apply in_map_iff in Hin as (f & <- & Hf).
  rewrite (spelled_join wrappers W wrappers_spelled pattern (plain_not_rooted _ Hp)) in Hf.
  exact (read_found_same (cwd w) (cwd w') (fs w) (fs w') (source_tree B W) same names
           wrappers W wrappers_spelled tree_to_wrappers tree_under_wrappers
           directory pattern f Hp Hf).
Qed.

Lemma hash_directory_same_tree (E : Externals) (deployment language : string) :
  (forall pattern,
     project_absolute_path E ["benchmarks"; "wrappers"; deployment; language; pattern]
     = OsPath.join wrappers pattern) ->
  hash_directory E w directory deployment language
  = hash_directory E w' directory deployment language.
Proof.
  intros Hproject. unfold hash_directory.
  destruct (FILES language) as [files|] eqn:HF; [|reflexivity].
  pose proof (FILES_plain language files HF) as Hplain.
  rewrite <- (found_same _ Hplain).
  rewrite (feed_same w w' _ (fun p Hp => found_read _ p Hplain Hp)).
  destruct (feed w' [] _) as [fed1|]; [|reflexivity].
  destruct definition_same as [Hex Hread]. rewrite <- Hex.
  replace (if exists_ (cwd w) (fs w) _ then feed w' fed1 _ else Ok fed1)
    with (if exists_ (cwd w) (fs w)
               (OsPath.join_all directory [OsPath.pardir; "definition.json"])
          then feed w fed1 [OsPath.join_all directory [OsPath.pardir; "definition.json"]]
          else Ok fed1).
  2:{ destruct (exists_ _ _ _); [|reflexivity].
      apply feed_same. intros p [<-|[]]. exact Hread. }
  destruct (if exists_ _ _ _ then _ else _) as [fed2|]; [|reflexivity].
  destruct (WRAPPERS language) as [pattern|] eqn:HW; [|reflexivity].
  pose proof (WRAPPERS_plain language pattern HW) as Hpattern.
  rewrite Hproject, <- (wrappers_same pattern Hpattern).
  now rewrite (feed_same w w' _ (fun p Hp => wrappers_read pattern p Hpattern Hp)).
Qed.

End HashTree.


(** ** More on the patch of a zip entry *)

Module ZipMore.
Import Zip.

#[local] Arguments Str.eqb : simpl never.
#[local] Arguments named : simpl never.
#[local] Arguments name_of : simpl never.

Lemma read_entries_some_in (es : list entry) (name : string) (d : bytes) :
  read_entries es name = Some d -> exists e, In e es /\ name_of e = name.
Proof.
  revert d. induction es as [|e es IH]; intros d; simpl; [discriminate|].
  destruct (read_entries es name) as [d'|] eqn:Hr.
  - intros _. destruct (IH d' eq_refl) as (e' & Hin & Hn). exists e'. auto.
  - destruct (Str.eqb (name_of e) name) eqn:Hn; [|discriminate].
    intros _. exists e. split; [now left|].
    unfold Str.eqb in Hn. now apply bool_decide_eq_true in Hn.
Qed.

(** Reading a name other than the patched one from the copied entries
    finds what the old archive gives for it. *)
Lemma read_copied (zin : archive) (filename name : string) (es : list entry) :
  name <> filename ->
  (forall e, In e es -> In e (entries zin)) ->
  read_entries (map (reread zin) (others filename es)) name
  = match read_entries es name with
    | Some _ => read_entries (entries zin) name
    | None => None
    end.
Proof.
  intros Hne. induction es as [|e es IH]; intros Hin; [reflexivity|].
  assert (Hin' : forall e', In e' es -> In e' (entries zin))
    by (intros e' He'; apply Hin; now right).
  specialize (IH Hin').
  unfold others. simpl. fold (others filename es).
  destruct (named filename e) eqn:Hf; simpl.
  - rewrite IH. destruct (read_entries es name); [reflexivity|].
    unfold named, Str.eqb in Hf. apply bool_decide_eq_true in Hf.
    unfold Str.eqb. rewrite bool_decide_eq_false_2 by congruence. reflexivity.
  - rewrite IH.
    destruct (read_entries es name) as [d|] eqn:Hr.
    + destruct (read_entries_some_in es name d Hr) as (e' & He' & <-).
      now destruct (ZipFacts.read_entries_in (entries zin) e' (Hin' e' He')) as [d' ->].
    + replace (name_of (reread zin e)) with (name_of e) by reflexivity.
      destruct (Str.eqb (name_of e) name) eqn:Hn; [|reflexivity].
      unfold Str.eqb in Hn. apply bool_decide_eq_true in Hn. subst name.
      destruct (ZipFacts.read_entries_in (entries zin) e (Hin e (or_introl eq_refl)))
        as [d' Hd']. unfold reread. simpl. now rewrite Hd'.
Qed.

End ZipMore.





(** ** What the constructor leaves alone *)

(** X4. [__init__] only looks: whatever it is given and however it ends,
    with a package or with an exception, the files, the cache, the
    containers and the log are as they were. *)
Theorem init_keeps_world (E : Externals) (name deployment_name : string)
    (config : ExperimentConfig) (system_config : SeBSConfig) (output_dir : string)
    (w : World) :
  snd (init E name deployment_name config system_config output_dir w) = w.
Proof.
  unfold init.
  destruct (find_package_code E name "benchmarks" w) as [[|a path]|]; try reflexivity.
  destruct (Fs.read_file _ _ _) as [text|]; [|reflexivity].
  destruct (json_loads E text) as [j|]; [|reflexivity].
  destruct (CodePackageConfig_deserialize j) as [cfg|]; [|reflexivity].
  destruct (negb _); [reflexivity|].
  unfold bind. rewrite query_cache_eq. simpl.
  destruct (Cache.get_code_package _ _ _ _).
  - destruct (hash_directory E w _ _ _); [|reflexivity].
    now destruct (update_code config).
  - now destruct (update_code config).
Qed.

(** ** The files: a file read back after it was written *)

Module FsMore.
Import Fs FsFacts.

Lemma file_is_listed (fs : t) (l : loc) (d : bytes) :
  node_at fs l = Some (File d) -> l <> [] /\ is_dir fs l = false.
Proof.
  intros H. split.
  - intros ->. discriminate H.
  - unfold is_dir. now rewrite H.
Qed.

Lemma node_at_store_file (fs : t) (l : loc) (d : bytes) :
  l <> [] -> node_at (store fs l (File d)) l = Some (File d).
Proof.
  intros Hl. unfold node_at. destruct l; [contradiction|]. apply lookup_store_eq.
Qed.

(** [open(p, "a")] on a regular file, then a read. *)
Lemma append_then_read (cwd : loc) (fs : t) (p : string) (old d : bytes) :
  read_file cwd fs p = Ok old ->
  exists fs',
    append_file cwd fs p d = Ok fs'
    /\ read_file cwd fs' p = Ok (old ++ d)
    /\ (forall l, is_dir fs' l = is_dir fs l).
Proof.
  unfold read_file, append_file.
  destruct (resolve cwd fs p) as [l|] eqn:Hr; [|discriminate].
  destruct (node_at fs l) as [[data|]|] eqn:Hn; try discriminate.
  intros H. injection H as <-.
  destruct (file_is_listed fs l data Hn) as [Hl Hnd].
  pose proof (is_dir_store_file fs l (data ++ d) Hl Hnd) as Hdirs.
  eexists. split; [reflexivity|]. split; [|exact Hdirs].
  rewrite (resolve_same_dirs cwd fs _ p Hdirs), Hr.
  now rewrite node_at_store_file.
Qed.

(** [open(p, "a")] where nothing is, then a look. *)
Lemma append_then_exists (cwd : loc) (fs fs' : t) (p : string) (d : bytes) :
  exists_ cwd fs p = false ->
  append_file cwd fs p d = Ok fs' ->
  exists_ cwd fs' p = true /\ read_file cwd fs' p = Ok d.
Proof.
  unfold exists_, append_file, read_file.
  destruct (resolve cwd fs p) as [l|] eqn:Hr; [|discriminate].
  destruct (node_at fs l) as [n|] eqn:Hn.
  - rewrite bool_decide_eq_true_2 by eauto. discriminate.
  - intros _ H. injection H as <-.
    assert (Hl : l <> []) by (intros ->; discriminate Hn).
    assert (Hnd : is_dir fs l = false) by (unfold is_dir; now rewrite Hn).
    pose proof (is_dir_store_file fs l d Hl Hnd) as Hdirs.
    rewrite (resolve_same_dirs cwd fs _ p Hdirs), Hr.
    rewrite node_at_store_file by exact Hl.
    split; [|reflexivity]. apply bool_decide_eq_true_2. eauto.
Qed.

(** [open(p, "w")] on a regular file, then a read. *)
Lemma write_then_read (cwd : loc) (fs : t) (p : string) (old d : bytes) :
  read_file cwd fs p = Ok old ->
  exists fs',
    write_file cwd fs p d = Ok fs' /\ read_file cwd fs' p = Ok d.
Proof.
  unfold read_file, write_file.
  destruct (resolve cwd fs p) as [l|] eqn:Hr; [|discriminate].
  destruct (node_at fs l) as [[data|]|] eqn:Hn; try discriminate.
  intros _.
  destruct (file_is_listed fs l data Hn) as [Hl Hnd].
  pose proof (is_dir_store_file fs l d Hl Hnd) as Hdirs.
  eexists. split; [reflexivity|].
  rewrite (resolve_same_dirs cwd fs _ p Hdirs), Hr.
  now rewrite node_at_store_file.
Qed.

End FsMore.

(** ** The packages of the deployment *)

Lemma string_app_assoc (a b c : string) :
  ((a ++ b) ++ c)%string = (a ++ (b ++ c))%string.
Proof.
  induction a as [|x a IH]; [reflexivity|].
  change (String x ((a ++ b) ++ c) = String x (a ++ (b ++ c)))%string.
  now rewrite IH.
Qed.

Lemma string_app_empty (a : string) : (a ++ "")%string = a.
Proof.
  induction a as [|x a IH]; [reflexivity|].
  change (String x (a ++ "") = String x a)%string. now rewrite IH.
Qed.

Lemma lines_fold (packages : list string) (init : string) :
  fold_left (fun (acc package : string) => (acc ++ package ++ newline)%string)
    packages init
  = (init ++ String.concat "" (map (fun p : string => (p ++ newline)%string) packages))%string.
Proof.
  revert init. induction packages as [|p ps IH]; intros init.
  - simpl. now rewrite string_app_empty.
  - change (fold_left (fun (acc package : string) => (acc ++ package ++ newline)%string)
              ps (init ++ p ++ newline)%string
            = (init ++ String.concat "" ((p ++ newline)%string
                 :: map (fun p : string => (p ++ newline)%string) ps))%string).
    rewrite IH, string_app_assoc. f_equal.
    destruct ps as [|p' ps']; simpl.
    + now rewrite string_app_empty.
    + reflexivity.
Qed.

Lemma requirement_lines_eq (packages : list string) :
  fold_left (fun (acc package : string) => (acc ++ package ++ newline)%string)
    packages newline
  = requirement_lines packages.
Proof. apply lines_fold. Qed.

(** X5. For python the packages of the deployment are appended to the
    requirements of the scratch directory: after the call the file reads
    as before, then a line end, then one line for each package; with no
    package to add nothing is written. The package, the cache, the
    containers and the log stay as they are. *)
Theorem add_deployment_package_python_appends
    (output_dir : string) (s : St) (old : bytes) :
  let c := self s in
  let w := world s in
  let packages :=
    deployment_packages (_system_config c) (_deployment_name c) (language_name c) in
  let requirements := OsPath.join output_dir "requirements.txt" in
  Fs.read_file (cwd w) (fs w) requirements = Ok old ->
  exists files,
    add_deployment_package_python output_dir s
    = (Ok tt, {| self := c; world := set_fs files w |})
    /\ Fs.read_file (cwd w) files requirements
       = Ok (if (0 <? Packages_len packages)%nat
             then old ++ str_encode (requirement_lines (Packages_iter packages))
             else old).
Proof.
  intros c w packages requirements Hold. subst c w packages requirements.
  unfold add_deployment_package_python, bind, get_self. simpl.
  destruct (0 <? Packages_len _)%nat.
  - destruct (FsMore.append_then_read _ _ _ old
                (str_encode (requirement_lines
                   (Packages_iter
                      (deployment_packages (_system_config (self s))
                         (_deployment_name (self s)) (language_name (self s))))))
                Hold) as (files & Happend & Hread & _).
    exists files. split; [|exact Hread].
    unfold fs_call, bind, get_world, lift, modify_world. simpl.
    now rewrite requirement_lines_eq, Happend.
  - exists (fs (world s)). split; [|exact Hold].
    unfold ret. destruct s as [c [? ? ? ? ?]]. reflexivity.
Qed.

Lemma add_deployment_package_python_appends_witness :
  Fs.read_file ["sebs"]
    (fs (world (Scenario.with_manifest (Scenario.scratch "sebs" PYTHON false))))
    (OsPath.join "/out/bench_code" "requirements.txt") = Ok (str_encode "numpy")
  /\ exists files,
       add_deployment_package_python "/out/bench_code"
         (Scenario.with_manifest (Scenario.scratch "sebs" PYTHON false))
       = (Ok tt,
          {| self := self (Scenario.scratch "sebs" PYTHON false);
             world := set_fs files
                        (world (Scenario.with_manifest
                                  (Scenario.scratch "sebs" PYTHON false))) |})
       /\ Fs.read_file ["sebs"] files "/out/bench_code/requirements.txt"
          = Ok (str_encode ("numpy" ++ newline ++ "boto3" ++ newline)).
Proof.
  assert (H : Fs.read_file ["sebs"]
                (fs (world (Scenario.with_manifest (Scenario.scratch "sebs" PYTHON false))))
                (OsPath.join "/out/bench_code" "requirements.txt")
              = Ok (str_encode "numpy")) by (vm_compute; reflexivity).
  split; [exact H|].
  destruct (add_deployment_package_python_appends "/out/bench_code"
              (Scenario.with_manifest (Scenario.scratch "sebs" PYTHON false))
              (str_encode "numpy") H) as (files & Hrun & Hread).
  exists files. split; [exact Hrun|exact Hread].
Defined.

(** ** A build that fails in the mounted directory *)

(** X6. With the build image at hand, the scratch directory mounted and
    the manifest in it, a container that ends with a non-zero status makes
    [install_dependencies] raise the [ContainerError] of that run, after
    it has logged the failure, the error and the mounted volumes; the
    files are as the container left them. *)
Theorem mount_install_reports_failure (E : Externals) (output_dir : string) (s : St) :
  let c := self s in
  let w := world s in
  let volumes := mount_volumes c w output_dir in
  let out := container_main E (build_image c) (_name c) volumes (fs w) in
  Docker.has (docker_image_types (_system_config c) (_deployment_name c)
                (language_name c)) "build" = true ->
  Docker.has (Docker.images (docker w)) (build_image c) = true ->
  check_flag (_experiment_config c) "docker_copy_build_files" = false ->
  Fs.exists_ (cwd w) (fs w) (OsPath.join output_dir (manifest_of (_language c))) = true ->
  returncode out <> 0%Z ->
  install_dependencies E output_dir s
  = (Raise (ContainerError (build_image c) (returncode out) (on_stream Stderr out)),
     {| self := c;
        world :=
          set_log
            (log w
             ++ [(INFO, ("Docker build of benchmark dependencies in container "
                         ++ "of image " ++ build_image c)%string);
                 (INFO, ("Docker mount of benchmark code from path "
                         ++ OsPath.abspath (cwd w) output_dir)%string);
                 (ERROR, "Package build failed!");
                 (ERROR, ContainerError_str (build_image c) (returncode out)
                           (on_stream Stderr out));
                 (ERROR, ("Docker mount volumes: " ++ volumes_repr volumes)%string)])
            (set_fs (files_after out) w) |}).
Proof.
  intros c w volumes out Hbuild Himage Hmount Hmanifest Hfail.
  subst c w volumes out. unfold build_image, image_name, mount_volumes in *.
  cbv [install_dependencies bind get_self get_world lift try_except logging
       modify_world raise ret Docker.images_get containers_run].
  rewrite Hbuild. cbv [negb].
  unfold language_name in *. rewrite Himage, Hmount. cbv [negb].
  rewrite PACKAGE_FILES_of_language. simpl. rewrite Hmanifest.
  apply Z.eqb_neq in Hfail. simpl in Hfail |- *. rewrite Hfail. simpl.
  rewrite <- !app_assoc. reflexivity.
Qed.

Lemma mount_install_reports_failure_witness :
  let s := Scenario.with_manifest (Scenario.scratch "sebs" PYTHON false) in
  fst (install_dependencies Scenario.externals_failing "/out/bench_code" s)
  = Raise (ContainerError "sebs:build.aws.python.3.7" 1 (str_encode "no space left"))
  /\ log (world (snd (install_dependencies Scenario.externals_failing
                        "/out/bench_code" s)))
     = [(INFO, "Docker build of benchmark dependencies in container of image sebs:build.aws.python.3.7");
        (INFO, "Docker mount of benchmark code from path /out/bench_code");
        (ERROR, "Package build failed!");
        (ERROR, "Command 'None' in image 'sebs:build.aws.python.3.7' returned non-zero exit status 1: b'no space left'");
        (ERROR, "Docker mount volumes: {'/out/bench_code': {'bind': '/mnt/function', 'mode': 'rw'}}")].
Proof.
  cbv zeta.
  rewrite (mount_install_reports_failure Scenario.externals_failing "/out/bench_code"
             (Scenario.with_manifest (Scenario.scratch "sebs" PYTHON false)));
    try (vm_compute; reflexivity).
  - split; vm_compute; reflexivity.
  - vm_compute. discriminate.
Defined.

(** ** What the digest does not see *)

(** X7. The digest is taken over the contents of the files one after the
    other, in scan order: neither the names of the files nor where one
    file ends and the next begins is fed to it. With the python source
    renamed from [function.py] to [main.py] and the end of its text moved
    to the head of [requirements.txt], [hash_directory] answers the digest
    it answered before, whatever the digest function is. *)
Theorem hash_directory_blind_to_names (digest : bytes -> string) :
  fs Scenario.world0 <> fs Scenario.world_renamed
  /\ Fs.read_file [] (fs Scenario.world_renamed) "/sebs/benchmarks/bench/python/function.py"
     = Raise (FileNotFoundError "/sebs/benchmarks/bench/python/function.py")
  /\ Fs.read_file [] (fs Scenario.world_renamed) "/sebs/benchmarks/bench/python/main.py"
     = Ok (str_encode "def handler(event): ")
  /\ Fs.read_file [] (fs Scenario.world_renamed)
       "/sebs/benchmarks/bench/python/requirements.txt"
     = Ok (str_encode "passnumpy")
  /\ hash_directory (Scenario.with_digest digest) Scenario.world_renamed
       "/sebs/benchmarks/bench/python" "aws" "python"
     = hash_directory (Scenario.with_digest digest) Scenario.world0
         "/sebs/benchmarks/bench/python" "aws" "python"
  /\ hash_directory (Scenario.with_digest digest) Scenario.world0
       "/sebs/benchmarks/bench/python" "aws" "python"
     = Ok (digest (str_encode Scenario.source_digest)).
Proof.
  split; [vm_compute; discriminate|].
  split; [vm_compute; reflexivity|].
  split; [vm_compute; reflexivity|].
  split; [vm_compute; reflexivity|].
  split; vm_compute; reflexivity.
Qed.

(** ** The cold start marker of the fission wrapper *)

Module FissionFacts.
Import Fission.

(** The steps of a request that comes to the cold test. *)
Lemma handler_ok (app : App) (body : bytes) (p p' : Process) (r : Reply) :
  handler app body p = (Ok r, p') ->
  exists text event fields files,
    Utf8.decode body = Some text
    /\ loads app text = Some event
    /\ function_handler app event (cwd p) (fs p) = (Ok (Json.Obj fields), files)
    /\ cwd p' = cwd p
    /\ is_cold r = negb (Fs.exists_ (cwd p) files fname)
    /\ (if Fs.exists_ (cwd p) files fname then fs p' = files
        else Fs.append_file (cwd p) files fname [] = Ok (fs p')).
Proof.
  unfold handler. intros H.
  destruct (Utf8.decode body) as [text|] eqn:Hd; [|discriminate H].
  destruct (loads app text) as [event|] eqn:Hl; [|discriminate H].
  simpl in H.
  destruct (function_handler app event (cwd p) (fs p)) as [[ret|e] files] eqn:Hf;
    [|discriminate H].
  destruct ret as [| | | | |fields]; try discriminate H.
  destruct (Json.get "result" fields) as [res|]; [|discriminate H].
  simpl in H.
  exists text, event, fields, files.
  split; [reflexivity|]. split; [exact Hl|]. split; [exact Hf|].
  split; [|split].
  - destruct (Fs.exists_ (cwd p) files fname).
    + now injection H as <- <-.
    + destruct (Fs.append_file (cwd p) files fname []); [|discriminate H].
      now injection H as <- <-.
  - destruct (Fs.exists_ (cwd p) files fname).
    + now injection H as <- <-.
    + destruct (Fs.append_file (cwd p) files fname []); [|discriminate H].
      now injection H as <- <-.
  - destruct (Fs.exists_ (cwd p) files fname).
    + now injection H as <- <-.
    + destruct (Fs.append_file (cwd p) files fname []); [|discriminate H].
      now injection H as <- <-.
Qed.

Lemma handler_marks (app : App) (body : bytes) (p p' : Process) (r : Reply) :
  handler app body p = (Ok r, p') ->
  cwd p' = cwd p /\ Fs.exists_ (cwd p') (fs p') fname = true.
Proof.
  intros H.
  destruct (handler_ok app body p p' r H)
    as (text & event & fields & files & _ & _ & _ & Hcwd & _ & Hfiles).
  split; [exact Hcwd|]. rewrite Hcwd.
  destruct (Fs.exists_ (cwd p) files fname) eqn:Hex.
  - now rewrite Hfiles.
  - now destruct (FsMore.append_then_exists _ _ _ _ _ Hex Hfiles).
Qed.

End FissionFacts.



(** ** The packages of the deployment in [package.json] *)

Module JsonFacts.
Import Json.

Lemma eqb_refl (k : string) : Str.eqb k k = true.
Proof. unfold Str.eqb. now apply bool_decide_eq_true_2. Qed.

Lemma eqb_ne (a b : string) : a <> b -> Str.eqb a b = false.
Proof. unfold Str.eqb. now apply bool_decide_eq_false_2. Qed.

Lemma get_set_eq (k : string) (v : t) (fields : list (string * t)) :
  get k (set k v fields) = Some v.
Proof.
  induction fields as [|[k' v'] r IH]; simpl.
  - now rewrite eqb_refl.
  - destruct (Str.eqb k' k) eqn:Hk; simpl; now rewrite Hk.
Qed.

Lemma get_set_ne (k k' : string) (v : t) (fields : list (string * t)) :
  k <> k' -> get k' (set k v fields) = get k' fields.
Proof.
  intros Hne. induction fields as [|[k0 v0] r IH]; simpl.
  - now rewrite eqb_ne.
  - destruct (Str.eqb k0 k) eqn:Hk; simpl.
    + unfold Str.eqb in Hk. apply bool_decide_eq_true in Hk. subst k0.
      now rewrite eqb_ne.
    + now rewrite IH.
Qed.

Lemma keys_set (k : string) (v v0 : t) (fields : list (string * t)) :
  get k fields = Some v0 -> map fst (set k v fields) = map fst fields.
Proof.
  induction fields as [|[k' v'] r IH]; simpl; [discriminate|].
  destruct (Str.eqb k' k); simpl; [reflexivity|].
  intros H. now rewrite (IH H).
Qed.

Lemma get_app (k : string) (a b : list (string * t)) :
  get k (a ++ b) = match get k a with Some v => Some v | None => get k b end.
Proof.
  induction a as [|[k' v'] r IH]; simpl; [reflexivity|].
  now destruct (Str.eqb k' k).
Qed.

(** The assignments [d[key] = val] for the items in turn: the last one
    for a key is what the dict holds, a key that is not assigned keeps
    what it had. *)
Lemma get_assigned (k : string) (items : list (string * string)) :
  forall deps,
    get k (fold_left (fun d kv => set (fst kv) (Str (snd kv)) d) items deps)
    = match get k (map (fun kv => (fst kv, Str (snd kv))) (rev items)) with
      | Some v => Some v
      | None => get k deps
      end.
Proof.
  induction items as [|[k' v'] rest IH]; intros deps; simpl; [reflexivity|].
  rewrite IH, map_app, get_app. simpl.
  destruct (get k (map _ (rev rest))); [reflexivity|].
  destruct (Str.eqb k' k) eqn:Hk.
  - unfold Str.eqb in Hk. apply bool_decide_eq_true in Hk. subst k'.
    apply get_set_eq.
  - apply get_set_ne. unfold Str.eqb in Hk. now apply bool_decide_eq_false in Hk.
Qed.

End JsonFacts.

(** X9. For nodejs the packages of the deployment are merged into the
    [dependencies] of [package.json]: the file is rewritten with the
    same fields, [dependencies] holding for each package of the
    deployment the version the deployment asks for (the deployment wins
    over what the benchmark had, the last item over an earlier one of the
    same name) and every other dependency as it was. *)
Theorem add_deployment_package_nodejs_merges (E : Externals) (output_dir : string)
    (s : St) (text : bytes) (fields deps : list (string * Json.t))
    (items : list (string * string)) :
  let c := self s in
  let w := world s in
  let package_config := OsPath.join output_dir "package.json" in
  deployment_packages (_system_config c) (_deployment_name c) (language_name c)
  = PkgDict items ->
  items <> [] ->
  Fs.read_file (cwd w) (fs w) package_config = Ok text ->
  json_loads E text = Some (Json.Obj fields) ->
  Json.get "dependencies" fields = Some (Json.Obj deps) ->
  exists files fields' deps',
    add_deployment_package_nodejs E output_dir s
    = (Ok tt, {| self := c; world := set_fs files w |})
    /\ Fs.read_file (cwd w) files package_config = Ok (json_dumps E (Json.Obj fields'))
    /\ map fst fields' = map fst fields
    /\ Json.get "dependencies" fields' = Some (Json.Obj deps')
    /\ (forall k, k <> "dependencies" -> Json.get k fields' = Json.get k fields)
    /\ (forall k,
          Json.get k deps'
          = match Json.get k (map (fun kv => (fst kv, Json.Str (snd kv))) (rev items)) with
            | Some v => Some v
            | None => Json.get k deps
            end).
Proof.
  intros c w package_config Hpackages Hitems Hread Hloads Hdeps.
  subst c w package_config.
  set (deps' := fold_left (fun d kv => Json.set (fst kv) (Json.Str (snd kv)) d) items deps).
  set (fields' := Json.set "dependencies" (Json.Obj deps') fields).
  destruct (FsMore.write_then_read _ _ _ text (json_dumps E (Json.Obj fields')) Hread)
    as (files & Hwrite & Hback).
  exists files, fields', deps'. split; [|split; [exact Hback|split; [|split; [|split]]]].
  - unfold add_deployment_package_nodejs, bind, get_self, get_world, lift. simpl.
    rewrite Hpackages. simpl.
    replace (0 <? length items)%nat with true
      by (destruct items; [contradiction|reflexivity]).
    cbv beta iota. rewrite Hread, Hloads, Hdeps.
    unfold fs_call, bind, get_world, lift, modify_world. simpl.
    fold deps'. fold fields'. now rewrite Hwrite.
  - exact (JsonFacts.keys_set "dependencies" _ _ fields Hdeps).
  - apply JsonFacts.get_set_eq.
  - intros k Hk. apply JsonFacts.get_set_ne. congruence.
  - intros k. apply JsonFacts.get_assigned.
Qed.


Lemma add_deployment_package_nodejs_merges_witness :
  let s := Scenario.node_scratch in
  deployment_packages (_system_config (self s)) (_deployment_name (self s))
    (language_name (self s)) = PkgDict [("uuid", "3.4.0")]
  /\ Fs.read_file (cwd (world s)) (fs (world s)) (OsPath.join "/out/bench_code" "package.json")
     = Ok (str_encode Scenario.package_json)
  /\ json_loads Scenario.externals (str_encode Scenario.package_json)
     = Some (Json.Obj [("dependencies", Json.Obj [])])
  /\ exists files fields' deps',
       add_deployment_package_nodejs Scenario.externals "/out/bench_code" s
       = (Ok tt, {| self := self s; world := set_fs files (world s) |})
       /\ Json.get "dependencies" fields' = Some (Json.Obj deps')
       /\ Json.get "uuid" deps' = Some (Json.Str "3.4.0").
Proof.
  cbv zeta.
  assert (H1 : deployment_packages (_system_config (self Scenario.node_scratch))
                 (_deployment_name (self Scenario.node_scratch))
                 (language_name (self Scenario.node_scratch))
               = PkgDict [("uuid", "3.4.0")]) by reflexivity.
  assert (H2 : Fs.read_file (cwd (world Scenario.node_scratch))
                 (fs (world Scenario.node_scratch))
                 (OsPath.join "/out/bench_code" "package.json")
               = Ok (str_encode Scenario.package_json)) by (vm_compute; reflexivity).
  assert (H3 : json_loads Scenario.externals (str_encode Scenario.package_json)
               = Some (Json.Obj [("dependencies", Json.Obj [])]))
    by (vm_compute; reflexivity).
  split; [exact H1|]. split; [exact H2|]. split; [exact H3|].
  destruct (add_deployment_package_nodejs_merges Scenario.externals "/out/bench_code"
              Scenario.node_scratch (str_encode Scenario.package_json)
              [("dependencies", Json.Obj [])] [] [("uuid", "3.4.0")]
              H1 ltac:(discriminate) H2 H3 eq_refl)
    as (files & fields' & deps' & Hrun & _ & _ & Hdeps & _ & Hget).
  exists files, fields', deps'. split; [exact Hrun|]. split; [exact Hdeps|].
  rewrite Hget. reflexivity.
Defined.
